(** * Brand image browser (src/streamlit_app.py)

    A shallow embedding of the Streamlit application: the ingest/join of an
    uploaded CSV with uploaded images ([process_uploaded_files]), the
    cluster distribution table ([display_cluster_distribution]), the
    attribute table ([display_image_attributes]), the cluster-peer lookup
    ([display_cluster_images]) and the page driver ([main]).

    The program is written against three libraries, which are modelled here
    by what the program uses of them:
    - Python values and built-ins (module [Py]): formatting, [==], truth
      value, [sorted], [os.path.join] of posixpath;
    - pandas (module [Pandas]): a frame is a list of column names and a list
      of labelled rows; column selection, column assignment, boolean
      indexing, [head], [iloc], [isin], [unique], [pivot_table] with
      [aggfunc='count'], [sum(axis=1)] and [sort_values];
    - Streamlit and the file system (module [St]): what is drawn is a list
      of widgets, what is stored is a list of written files; failures of
      the outside world (a write that fails, an image that does not decode)
      and the choices of the user are read from an environment record.

    Cells hold integers, floats (binary64, by their exact value), strings,
    booleans or nothing (NaN). A float prints as Python prints it: the
    shortest decimal that reads back as the same float, so that the cell
    1.0 of a numeric column with an empty cell gives "1.0.png". *)

From Stdlib Require Import ZArith List String Ascii Bool Lia.
From Stdlib Require Import Init.Byte.
From Stdlib Require Import DecimalString Permutation Sorted.
From Stdlib Require Import QArith Qround.
Import ListNotations.
Local Close Scope Q_scope.
Local Open Scope string_scope.
Local Open Scope list_scope.

(* ================================================================= *)
(** ** Exceptions and results *)

(** A Python exception, by its class name and [str(e)]. *)
Record exn : Type := mkExn { exn_class : string; exn_msg : string }.

Inductive result (A : Type) : Type :=
| Ok (a : A)
| Raise (e : exn).
Arguments Ok {A} a.
Arguments Raise {A} e.

Definition rbind {A B : Type} (r : result A) (k : A -> result B) : result B :=
  match r with
  | Ok a => k a
  | Raise e => Raise e
  end.

Declare Scope result_scope.
Delimit Scope result_scope with result.
Notation "x <-? r ; k" := (rbind r (fun x => k))
  (at level 61, r at next level, right associativity) : result_scope.

(** [KeyError(key)] prints as the repr of the key. *)
Definition KeyError (key : string) : exn := mkExn "KeyError" ("'" ++ key ++ "'").

Definition IndexError (msg : string) : exn := mkExn "IndexError" msg.

Definition TypeError (msg : string) : exn := mkExn "TypeError" msg.

(* ================================================================= *)
(** ** Python values *)

Module Py.

(** A cell of a float64 column other than NaN: a zero, an infinity, or
    the number [m * 2^e] with its sign. Every finite float64 is a zero or
    such a number, with [m] below [2^53] and [e] from [-1074] to [971]. *)
Inductive float64 : Type :=
| FZero (neg : bool)
| FInf (neg : bool)
| FFin (neg : bool) (m : positive) (e : Z).

(** One cell of a frame, as [read_csv] produces them. *)
Inductive value : Type :=
| VInt (n : Z)
| VStr (s : string)
| VBool (b : bool)
| VNaN
| VFloat (f : float64).

Definition isna (v : value) : bool :=
  match v with
  | VNaN => true
  | _ => false
  end.

Definition notna (v : value) : bool := negb (isna v).

(** *** Numbers *)

(** The exact value of a numeric cell. *)
Inductive number : Type :=
| NegInf
| Fin (q : Q)
| PosInf.

Definition Qlt_bool (x y : Q) : bool :=
  match Qcompare x y with
  | Lt => true
  | _ => false
  end.

Definition num_eqb (x y : number) : bool :=
  match x, y with
  | NegInf, NegInf => true
  | PosInf, PosInf => true
  | Fin p, Fin q => Qeq_bool p q
  | _, _ => false
  end.

Definition num_ltb (x y : number) : bool :=
  match x, y with
  | NegInf, NegInf => false
  | NegInf, _ => true
  | Fin p, Fin q => Qlt_bool p q
  | Fin _, PosInf => true
  | _, _ => false
  end.

Definition num_leb (x y : number) : bool := num_ltb x y || num_eqb x y.

Definition float_abs (m : positive) (e : Z) : Q :=
  (inject_Z (Zpos m) * Qpower (2#1) e)%Q.

Definition float_num (f : float64) : number :=
  match f with
  | FZero _ => Fin 0%Q
  | FInf true => NegInf
  | FInf false => PosInf
  | FFin true m e => Fin (- float_abs m e)%Q
  | FFin false m e => Fin (float_abs m e)
  end.

(** *** [repr] of a float: the shortest decimal that rounds to it *)

Definition pow10 (k : Z) : Q := Qpower (10#1) k.

(** The [k] with [10^(k-1) <= v < 10^k], searched from an estimate. *)
Fixpoint adjust_decpt (fuel : nat) (v : Q) (k : Z) : Z :=
  match fuel with
  | O => k
  | S fuel' =>
      if Qlt_bool v (pow10 (k - 1)) then adjust_decpt fuel' v (k - 1)
      else if Qle_bool (pow10 k) v then adjust_decpt fuel' v (k + 1)
      else k
  end.

Definition decimal_point (v : Q) : Z :=
  adjust_decpt 2200 v ((Z.log2 (Qnum v) - Z.log2 (Zpos (Qden v))) * 3 / 10).

(** [c] reads back as the float whose rounding interval is [low, high];
    the ends belong to it when the mantissa of the float is even. *)
Definition inside (closed : bool) (low high c : Q) : bool :=
  if closed then Qle_bool low c && Qle_bool c high
  else Qlt_bool low c && Qlt_bool c high.

(** The decimal of [n] digits nearest to [v] that reads back as the float,
    if there is one, as the integer of its digits; a tie goes to the even
    digit. *)
Definition candidate (closed : bool) (low v high : Q) (k n : Z) : option Z :=
  let s := pow10 (n - k) in
  let t := (v * s)%Q in
  let d := Qfloor t in
  match inside closed low high (inject_Z d / s)%Q,
        inside closed low high (inject_Z (d + 1) / s)%Q with
  | true, true =>
      match Qcompare (t + t)%Q (inject_Z (2 * d + 1)) with
      | Lt => Some d
      | Gt => Some (d + 1)%Z
      | Eq => Some (if Z.even d then d else d + 1)%Z
      end
  | true, false => Some d
  | false, true => Some (d + 1)%Z
  | false, false => None
  end.

(** The first number of digits, from [n] on, that has such a decimal;
    seventeen digits always do. *)
Fixpoint shortest (fuel : nat) (closed : bool) (low v high : Q) (k n : Z) : Z * Z :=
  match fuel with
  | O => (Qfloor (v * pow10 (n - k) + (1#2))%Q, n)
  | S fuel' =>
      match candidate closed low v high k n with
      | Some i => (i, n)
      | None => shortest fuel' closed low v high k (n + 1)
      end
  end.

Fixpoint strip_zeros (fuel : nat) (i : Z) : Z :=
  match fuel with
  | O => i
  | S fuel' => if (i mod 10 =? 0)%Z then strip_zeros fuel' (i / 10)%Z else i
  end.

Definition digits_of (i : Z) : string := NilZero.string_of_int (Z.to_int i).

Fixpoint zeros (n : nat) : string :=
  match n with
  | O => ""
  | S n' => String "0" (zeros n')
  end.

(** The digits [ds] of [0.ds * 10^k] as [repr] lays them out: with an
    exponent when [k <= -4] or [k > 16], else as a decimal with at least
    one digit after the point. *)
Definition format_repr (ds : string) (k : Z) : string :=
  let n := Z.of_nat (String.length ds) in
  if ((k <=? -4) || (16 <? k))%Z then
    let exp := (k - 1)%Z in
    let mant := match ds with
                | String d (String _ _ as rest) => String d ("." ++ rest)
                | _ => ds
                end in
    mant ++ "e" ++ (if (exp <? 0)%Z then "-" else "+")
         ++ (if (Z.abs exp <? 10)%Z then "0" else "") ++ digits_of (Z.abs exp)
  else if (k <=? 0)%Z then "0." ++ zeros (Z.to_nat (- k)) ++ ds
  else if (k <? n)%Z then
    substring 0 (Z.to_nat k) ds ++ "." ++ substring (Z.to_nat k) (Z.to_nat (n - k)) ds
  else ds ++ zeros (Z.to_nat (k - n)) ++ ".0".

(** [repr] of the positive float [m * 2^e]: the decimal of the fewest
    digits that lies nearer to the float than to its neighbours, and the
    nearest to the float among those. The neighbours are one unit of the
    last binary place away, the lower one half a unit when the float is a
    power of two. *)
Definition repr_pos (m : positive) (e : Z) : string :=
  let v := float_abs m e in
  let bits := (Z.log2 (Zpos m) + 1)%Z in
  let ec := Z.max (e + bits - 53) (-1074) in
  let mc := if (e <=? ec)%Z then (Zpos m / 2 ^ (ec - e))%Z else (Zpos m * 2 ^ (e - ec))%Z in
  let ulp := Qpower (2#1) ec in
  let below := if ((mc =? 2 ^ 52) && (-1074 <? ec))%Z then (ulp / (2#1))%Q else ulp in
  let low := (v - below / (2#1))%Q in
  let high := (v + ulp / (2#1))%Q in
  let k := decimal_point v in
  let (i, n) := shortest 17 (Z.even mc) low v high k 1 in
  let ds := digits_of (strip_zeros 20 i) in
  let k' := (k - n + Z.of_nat (String.length (digits_of i)))%Z in
  format_repr ds k'.

Definition float_str (f : float64) : string :=
  match f with
  | FZero false => "0.0"
  | FZero true => "-0.0"
  | FInf false => "inf"
  | FInf true => "-inf"
  | FFin neg m e => (if neg then "-" else "") ++ repr_pos m e
  end.

(** *** Values *)

(** [str(x)], which is what [f"{x}"] inserts. *)
Definition py_str (v : value) : string :=
  match v with
  | VInt n => NilZero.string_of_int (Z.to_int n)
  | VStr s => s
  | VBool true => "True"
  | VBool false => "False"
  | VNaN => "nan"
  | VFloat f => float_str f
  end.

(** The numeric reading of a value: [bool] is a subtype of [int], and
    integers and floats compare by their exact values. *)
Definition py_num (v : value) : option number :=
  match v with
  | VInt n => Some (Fin (inject_Z n))
  | VBool b => Some (Fin (if b then 1 else 0)%Q)
  | VFloat f => Some (float_num f)
  | _ => None
  end.

(** [a == b]: numbers compare by value, strings by content, a string never
    equals a number and NaN equals nothing, itself included. *)
Definition py_eqb (a b : value) : bool :=
  match a, b with
  | VStr s, VStr t => String.eqb s t
  | _, _ =>
      match py_num a, py_num b with
      | Some x, Some y => num_eqb x y
      | _, _ => false
      end
  end.

(** [a != b] *)
Definition py_neb (a b : value) : bool := negb (py_eqb a b).

(** Equality of hash keys ([isin], [unique]): as [==], and NaN matches NaN. *)
Definition same_key (a b : value) : bool := py_eqb a b || (isna a && isna b).

(** [bool(x)] *)
Definition truthy (v : value) : bool :=
  match v with
  | VInt n => negb (Z.eqb n 0)
  | VStr s => negb (String.eqb s "")
  | VBool b => b
  | VNaN => true
  | VFloat (FZero _) => false
  | VFloat _ => true
  end.

Definition type_name (v : value) : string :=
  match v with
  | VInt _ => "int"
  | VStr _ => "str"
  | VBool _ => "bool"
  | VNaN => "float"
  | VFloat _ => "float"
  end.

(** [a < b]; comparing a string with a number raises [TypeError], any
    comparison with NaN is false. *)
Definition py_lt (a b : value) : result bool :=
  match a, b with
  | VStr s, VStr t => Ok (String.ltb s t)
  | VStr _, _ | _, VStr _ =>
      Raise (TypeError ("'<' not supported between instances of '"
                          ++ type_name a ++ "' and '" ++ type_name b ++ "'"))
  | _, _ =>
      match py_num a, py_num b with
      | Some x, Some y => Ok (num_ltb x y)
      | _, _ => Ok false
      end
  end.

(** [sorted(l)]: a stable sort by [<], which raises as soon as a comparison
    does. With NaN among numbers [<] is no order and the result of
    [list.sort] depends on its algorithm; no statement below relies on the
    order in that case. *)
Fixpoint py_insert (x : value) (l : list value) : result (list value) :=
  match l with
  | [] => Ok [x]
  | y :: l' =>
      (lt <-? py_lt y x ;
       if lt then (r <-? py_insert x l' ; Ok (y :: r)) else Ok (x :: y :: l'))%result
  end.

Fixpoint py_sorted (l : list value) : result (list value) :=
  match l with
  | [] => Ok []
  | x :: l' => (s <-? py_sorted l' ; py_insert x s)%result
  end.

(** [', '.join(l)] *)
Definition py_join (sep : string) (l : list string) : string := String.concat sep l.

(** posixpath: [s.endswith('/')] *)
Fixpoint endswith_sep (s : string) : bool :=
  match s with
  | EmptyString => false
  | String c EmptyString => Ascii.eqb c "/"%char
  | String _ r => endswith_sep r
  end.

(** posixpath: [os.path.join(a, b)] *)
Definition path_join (a b : string) : string :=
  if String.prefix "/" b then b
  else if String.eqb a "" || endswith_sep a then a ++ b
  else a ++ "/" ++ b.

End Py.
Import Py.


(* ================================================================= *)
(** ** pandas *)

Module Pandas.

(** A row keeps the index label [read_csv] gave it (its line number), so a
    row can be followed through filters. *)
Record Row : Type := mkRow { label : nat; cells : list value }.

Record DataFrame : Type := mkDF { columns : list string; rows : list Row }.

(** A row taken out of a frame ([iloc], [iterrows]): column names with the
    row's cells. *)
Definition Series : Type := list (string * value).

(** [read_csv] gives every row one cell per column. *)
Definition rectangular (df : DataFrame) : Prop :=
  Forall (fun r => List.length (cells r) = List.length (columns df)) (rows df).

Fixpoint index_of (col : string) (cols : list string) : option nat :=
  match cols with
  | [] => None
  | c :: cols' =>
      if String.eqb c col then Some O else option_map S (index_of col cols')
  end.

(** [col in df.columns] *)
Definition has_column (df : DataFrame) (col : string) : bool :=
  match index_of col (columns df) with
  | Some _ => true
  | None => false
  end.

(** [df.columns.get_loc(col)] *)
Definition column_index (df : DataFrame) (col : string) : result nat :=
  match index_of col (columns df) with
  | Some i => Ok i
  | None => Raise (KeyError col)
  end.

Definition cell_at (i : nat) (r : Row) : value := nth i (cells r) VNaN.

(** The cell of a row under a column name, when the frame has the column. *)
Definition cell_of (df : DataFrame) (col : string) (r : Row) : option value :=
  option_map (fun i => cell_at i r) (index_of col (columns df)).

(** [df[col]] *)
Definition get_column (df : DataFrame) (col : string) : result (list value) :=
  (i <-? column_index df col ; Ok (map (cell_at i) (rows df)))%result.

Fixpoint set_nth {A : Type} (i : nat) (x : A) (l : list A) : list A :=
  match i, l with
  | _, [] => []
  | O, _ :: l' => x :: l'
  | S i', y :: l' => y :: set_nth i' x l'
  end.

(** The cells of one row after [df[col] = ..] put [v] there: the cell of an
    existing column is replaced, the cell of a new column is appended. *)
Definition set_cell (cols : list string) (col : string) (v : value) (r : Row) : Row :=
  match index_of col cols with
  | Some i => mkRow (label r) (set_nth i v (cells r))
  | None => mkRow (label r) (cells r ++ [v])
  end.

(** The column names after [df[col] = ..]. *)
Definition columns_with (cols : list string) (col : string) : list string :=
  match index_of col cols with
  | Some _ => cols
  | None => cols ++ [col]
  end.

(** [df[col] = vals]: an existing column is overwritten in place, a new one
    is appended. [vals] is always computed from a column of [df] itself, so
    the lengths agree. *)
Definition set_column (df : DataFrame) (col : string) (vals : list value) : DataFrame :=
  mkDF (columns_with (columns df) col)
       (map (fun rv => set_cell (columns df) col (snd rv) (fst rv))
            (combine (rows df) vals)).

(** [df[mask]] *)
Definition mask_rows (df : DataFrame) (mask : list bool) : DataFrame :=
  mkDF (columns df) (map fst (filter snd (combine (rows df) mask))).

(** [a & b] on boolean columns *)
Definition mask_and (a b : list bool) : list bool :=
  map (fun p => fst p && snd p) (combine a b).

(** [df.head(n)] *)
Definition head (n : nat) (df : DataFrame) : DataFrame :=
  mkDF (columns df) (firstn n (rows df)).

Definition row_series (df : DataFrame) (r : Row) : Series :=
  combine (columns df) (cells r).

(** [df.iloc[0]] *)
Definition iloc0 (df : DataFrame) : result Series :=
  match rows df with
  | [] => Raise (IndexError "single positional indexer is out-of-bounds")
  | r :: _ => Ok (row_series df r)
  end.

(** the rows of [df.iterrows()] *)
Definition iterrows (df : DataFrame) : list Series := map (row_series df) (rows df).

(** [key in s.index] *)
Definition in_index (s : Series) (key : string) : bool :=
  existsb (fun kv => String.eqb (fst kv) key) s.

(** [s[key]] *)
Fixpoint series_get (s : Series) (key : string) : result value :=
  match s with
  | [] => Raise (KeyError key)
  | kv :: s' => if String.eqb (fst kv) key then Ok (snd kv) else series_get s' key
  end.

(** [col.isin(vals)] *)
Definition isin (col vals : list value) : list bool :=
  map (fun v => existsb (same_key v) vals) col.

(** Distinct values in order of first appearance, for an equality [eqb]. *)
Fixpoint unique_by (eqb : value -> value -> bool) (l : list value) : list value :=
  match l with
  | [] => []
  | x :: l' => x :: filter (fun y => negb (eqb x y)) (unique_by eqb l')
  end.

(** [col.unique()] *)
Definition unique (col : list value) : list value := unique_by same_key col.

(** A stable insertion sort for a boolean [leb]. *)
Fixpoint insert_by {A : Type} (leb : A -> A -> bool) (x : A) (l : list A) : list A :=
  match l with
  | [] => [x]
  | y :: l' => if leb x y then x :: l else y :: insert_by leb x l'
  end.

Fixpoint sort_by {A : Type} (leb : A -> A -> bool) (l : list A) : list A :=
  match l with
  | [] => []
  | x :: l' => insert_by leb x (sort_by leb l')
  end.

(** The order of group keys: numbers by value, then strings by content. *)
Definition key_leb (a b : value) : bool :=
  match a, b with
  | VStr s, VStr t => String.leb s t
  | VStr _, _ => false
  | _, VStr _ => true
  | _, _ =>
      match py_num a, py_num b with
      | Some x, Some y => num_leb x y
      | None, _ => false
      | Some _, None => true
      end
  end.

(** A table of counts: column labels, and per row its index label and its
    cells. *)
Record Crosstab : Type := mkCT { ct_columns : list value; ct_rows : list (value * list Z) }.

(** One row of the frame as the pivot sees it. *)
Record Obs : Type := mkObs { obs_value : value; obs_index : value; obs_column : value }.

Definition count_where {A : Type} (p : A -> bool) (l : list A) : Z :=
  Z.of_nat (List.length (filter p l)).

(** The rows that take part in the grouping: [groupby] drops every row
    whose index key or column key is missing. *)
Definition grouped_obs (iv ig ic : nat) (df : DataFrame) : list Obs :=
  filter (fun o => notna (obs_index o) && notna (obs_column o))
         (map (fun r => mkObs (cell_at iv r) (cell_at ig r) (cell_at ic r)) (rows df)).

(** ['count'] of one group: its non-missing values. *)
Definition count_cell (obs : list Obs) (g c : value) : Z :=
  count_where (fun o => py_eqb (obs_index o) g && py_eqb (obs_column o) c
                        && notna (obs_value o)) obs.

Definition group_keys (keys : list value) : list value :=
  sort_by key_leb (unique_by py_eqb keys).

(** [pd.pivot_table(df, values=.., index=.., columns=.., aggfunc='count',
    fill_value=0)]: one row per index key, one column per column key, both
    sorted; a pair without rows counts 0. *)
Definition pivot_table_count (df : DataFrame) (values index cols : string) : result Crosstab :=
  (iv <-? column_index df values ;
   ig <-? column_index df index ;
   ic <-? column_index df cols ;
   let obs := grouped_obs iv ig ic df in
   let idx := group_keys (map obs_index obs) in
   let cls := group_keys (map obs_column obs) in
   Ok (mkCT cls (map (fun g => (g, map (count_cell obs g) cls)) idx)))%result.

Definition zsum (l : list Z) : Z := fold_right Z.add 0%Z l.

(** [ct.sum(axis=1)] *)
Definition sum_axis1 (ct : Crosstab) : list Z := map (fun r => zsum (snd r)) (ct_rows ct).

Fixpoint label_index (lbl : value) (lbls : list value) : option nat :=
  match lbls with
  | [] => None
  | c :: lbls' =>
      if same_key c lbl then Some O else option_map S (label_index lbl lbls')
  end.

(** The cells of one table row after [ct[lbl] = ..] put [v] there. *)
Definition ct_set_cell (lbls : list value) (lbl : value) (v : Z) (cs : list Z) : list Z :=
  match label_index lbl lbls with
  | Some i => set_nth i v cs
  | None => cs ++ [v]
  end.

(** The column labels after [ct[lbl] = ..]. *)
Definition labels_with (lbls : list value) (lbl : value) : list value :=
  match label_index lbl lbls with
  | Some _ => lbls
  | None => lbls ++ [lbl]
  end.

(** [ct[lbl] = vals]: as for a frame, a column of that label is
    overwritten, a new label is appended. *)
Definition ct_set_column (ct : Crosstab) (lbl : value) (vals : list Z) : Crosstab :=
  mkCT (labels_with (ct_columns ct) lbl)
       (map (fun rv => (fst (fst rv), ct_set_cell (ct_columns ct) lbl (snd rv) (snd (fst rv))))
            (combine (ct_rows ct) vals)).

(** The cell of a table row under a column label. *)
Definition ct_cell (ct : Crosstab) (lbl : value) (r : value * list Z) : option Z :=
  match label_index lbl (ct_columns ct) with
  | Some i => nth_error (snd r) i
  | None => None
  end.

(** [ct.sort_values(by, ascending=False)]. The sort of pandas is not stable
    in general; the model keeps tied rows in their order, which is one of
    the orders pandas may return. *)
Definition sort_values_desc (ct : Crosstab) (by_ : value) : result Crosstab :=
  match label_index by_ (ct_columns ct) with
  | Some i =>
      Ok (mkCT (ct_columns ct)
               (sort_by (fun a b => Z.leb (nth i (snd b) 0%Z) (nth i (snd a) 0%Z))
                        (ct_rows ct)))
  | None => Raise (KeyError (py_str by_))
  end.

(** The cell of the table for a group and a column label, [None] when the
    table has no such row or no such column. *)
Definition ct_lookup (ct : Crosstab) (g c : value) : option Z :=
  match find (fun r => same_key (fst r) g) (ct_rows ct) with
  | Some r => ct_cell ct c r
  | None => None
  end.

End Pandas.
Import Pandas.

(* ================================================================= *)
(** ** Streamlit and the file system *)

Module St.

(** What the page shows, in the order it is drawn. *)
Inductive widget : Type :=
| StTitle (s : string)
| StWarning (s : string)
| StError (s : string)
| StSubheader (s : string)
| StSidebarHeader (s : string)
| StImage (img : list byte)
| StTable (attr_df : list (string * value))
| StDataframe (t : Crosstab).

(** An uploaded image: [uploaded_file.name] and [uploaded_file.getbuffer()]. *)
Record UploadedFile : Type := mkUpload { name : string; getbuffer : list byte }.

(** An uploaded CSV, by what [pd.read_csv] makes of it. *)
Inductive UploadedCsv : Type :=
| CsvTable (df : DataFrame)
| CsvUnreadable (e : exn).

(** The outside world: which system calls fail, which stored bytes do not
    decode as an image, and which entry of a select box the user picks.
    Whether [open] or [write] fails may depend on what is stored so far, so
    that a path written once can fail later; a [write] that fails says how
    many bytes reached the file before. *)
Record Env : Type := mkEnv {
  mkdtemp : result string;
  makedirs_error : string -> option exn;
  open_wb_error : list (string * list byte) -> string -> option exn;
  write_error : list (string * list byte) -> string -> list byte -> option (exn * nat);
  decode_error : list byte -> option exn;
  pick_brand : list value -> nat;
  pick_image : list value -> nat
}.

(** The state the program changes: the files written and the page drawn,
    both in the order of the writes. A path holds what was last written
    under it. *)
Record World : Type := mkWorld { files : list (string * list byte); screen : list widget }.

(** A computation changes the world and returns or raises; an exception
    keeps what was written and drawn before it. *)
Definition M (A : Type) : Type := World -> result A * World.

Definition ret {A : Type} (a : A) : M A := fun w => (Ok a, w).

Definition bind {A B : Type} (m : M A) (k : A -> M B) : M B :=
  fun w =>
    match m w with
    | (Ok a, w') => k a w'
    | (Raise e, w') => (Raise e, w')
    end.

Definition lift {A : Type} (r : result A) : M A := fun w => (r, w).

(** [try: body except Exception as e: handler(e)] *)
Definition try_except {A : Type} (body : M A) (handler : exn -> M A) : M A :=
  fun w =>
    match body w with
    | (Ok a, w') => (Ok a, w')
    | (Raise e, w') => handler e w'
    end.

Definition draw (x : widget) : M unit :=
  fun w => (Ok tt, mkWorld (files w) (screen w ++ [x])).

Definition st_title (s : string) : M unit := draw (StTitle s).
Definition st_warning (s : string) : M unit := draw (StWarning s).
Definition st_error (s : string) : M unit := draw (StError s).
Definition st_subheader (s : string) : M unit := draw (StSubheader s).
Definition st_sidebar_header (s : string) : M unit := draw (StSidebarHeader s).
Definition st_image (img : list byte) : M unit := draw (StImage img).
Definition st_table (attr_df : list (string * value)) : M unit := draw (StTable attr_df).
Definition st_dataframe (t : Crosstab) : M unit := draw (StDataframe t).

(** [with open(path, "wb") as f: f.write(data)]. When [open] raises,
    nothing is stored. Else [open] has created the file, or emptied the
    one that was there, and [write] fills it: with [data], or, when it
    raises, with the bytes that reached the file before. *)
Definition write_file (env : Env) (path : string) (data : list byte) : M unit :=
  fun w =>
    match open_wb_error env (files w) path with
    | Some e => (Raise e, w)
    | None =>
        match write_error env (files w ++ [(path, [])]) path data with
        | Some (e, n) => (Raise e, mkWorld (files w ++ [(path, firstn n data)]) (screen w))
        | None => (Ok tt, mkWorld (files w ++ [(path, data)]) (screen w))
        end
    end.

(** The bytes stored under a path: the last write wins. *)
Definition read_file (w : World) (path : string) : option (list byte) :=
  option_map snd (find (fun f => String.eqb (fst f) path) (rev (files w))).

Definition FileNotFoundError (path : string) : exn :=
  mkExn "FileNotFoundError" ("[Errno 2] No such file or directory: '" ++ path ++ "'").

(** [Image.open(p)]; the image is stood for by its bytes. *)
Definition Image_open (env : Env) (p : value) : M (list byte) :=
  fun w =>
    match p with
    | VStr path =>
        match read_file w path with
        | None => (Raise (FileNotFoundError path), w)
        | Some data =>
            match decode_error env data with
            | Some e => (Raise e, w)
            | None => (Ok data, w)
            end
        end
    | _ => (Raise (mkExn "AttributeError" ("'" ++ type_name p ++ "' object has no attribute 'read'")), w)
    end.

(** [st.selectbox(_, options)]: the picked option, the first one when
    nothing is picked, [None] when there is no option. *)
Definition selectbox (pick : list value -> nat) (options : list value) : option value :=
  match options with
  | [] => None
  | d :: _ => Some (nth (pick options) options d)
  end.

End St.
Import St.

Declare Scope app_scope.
Delimit Scope app_scope with app.
Notation "x <- m ;; k" := (bind m (fun x => k))
  (at level 61, m at next level, right associativity) : app_scope.
Notation "m ;; k" := (bind m (fun _ => k))
  (at level 61, right associativity) : app_scope.
Local Open Scope app_scope.

(* ================================================================= *)
(** ** The application *)

(** [for x in l: body(x)] *)
Fixpoint for_each {A : Type} (l : list A) (body : A -> M unit) : M unit :=
  match l with
  | [] => ret tt
  | x :: l' => body x ;; for_each l' body
  end.

(** [[f(x) for x in l]] *)
Fixpoint collect {A B : Type} (f : A -> result B) (l : list A) : result (list B) :=
  match l with
  | [] => Ok []
  | x :: l' => (y <-? f x ; ys <-? collect f l' ; Ok (y :: ys))%result
  end.

(** The loop of lines 27-31: every upload is written under [images_path]
    and its name recorded. *)
Fixpoint save_uploads (env : Env) (images_path : string)
  (uploaded_images : list UploadedFile) (uploaded_image_names : list string)
  : M (list string) :=
  match uploaded_images with
  | [] => ret uploaded_image_names
  | uploaded_file :: rest =>
      let file_path := path_join images_path (name uploaded_file) in
      write_file env file_path (getbuffer uploaded_file) ;;
      save_uploads env images_path rest (uploaded_image_names ++ [name uploaded_file])
  end.

Definition read_csv (uploaded_csv : UploadedCsv) : M DataFrame :=
  lift (match uploaded_csv with
        | CsvTable df => Ok df
        | CsvUnreadable e => Raise e
        end).

(** The expected file name of an identifier, [f"{x}.png"]. *)
Definition image_name_of (x : value) : string := py_str x ++ ".png".

(** Lines 39-44: the join of the table with the uploaded names. *)
Definition join_images (images_path : string) (uploaded_image_names : list string)
  (df : DataFrame) : result DataFrame :=
  (ids <-? get_column df "ad_id" ;
   let df := set_column df "image_name" (map (fun x => VStr (image_name_of x)) ids) in
   image_name <-? get_column df "image_name" ;
   let df := mask_rows df (isin image_name (map VStr uploaded_image_names)) in
   ids <-? get_column df "ad_id" ;
   Ok (set_column df "image_path"
         (map (fun x => VStr (path_join images_path (image_name_of x))) ids)))%result.

Definition missing_ad_id : string := "The uploaded CSV file must contain an 'ad_id' column.".

Definition process_uploaded_files (env : Env) (uploaded_csv : UploadedCsv)
  (uploaded_images : list UploadedFile) : M (option DataFrame) :=
  try_except
    (temp_dir <- lift (mkdtemp env) ;;
     let images_path := path_join temp_dir "images" in
     lift (match makedirs_error env images_path with
           | Some e => Raise e
           | None => Ok tt
           end) ;;
     uploaded_image_names <- save_uploads env images_path uploaded_images [] ;;
     df <- read_csv uploaded_csv ;;
     if negb (has_column df "ad_id") then
       st_error missing_ad_id ;; ret None
     else
       df <- lift (join_images images_path uploaded_image_names df) ;;
       ret (Some df))
    (fun e => st_error ("Error processing files: " ++ exn_msg e) ;; ret None).

(** The loop body shared by [display_brand_images] and
    [display_cluster_images]: open the row's image and draw it, or report
    why not. *)
Definition show_image (env : Env) (row : Series) : M unit :=
  try_except
    (p <- lift (series_get row "image_path") ;;
     img <- Image_open env p ;;
     st_image img)
    (fun e => st_error ("Error loading image: " ++ exn_msg e)).

Definition display_brand_images (env : Env) (brand_df : DataFrame) : M unit :=
  for_each (iterrows (head 4 brand_df)) (show_image env).

Definition attributes : list string :=
  ["pagename"; "dominant_background_colour"; "logo_present"; "cluster"; "tier"].

Definition display_image_attributes (selected_row : Series) : M unit :=
  let missing_attrs := filter (fun attr => negb (in_index selected_row attr)) attributes in
  match missing_attrs with
  | _ :: _ =>
      st_error ("Missing attributes in the selected row: " ++ py_join ", " missing_attrs)
  | [] =>
      labels <- lift (collect (series_get selected_row) attributes) ;;
      st_table (combine attributes labels)
  end.

(** Lines 87-91: the rows of the selected row's cluster, the selected
    identifier left out, the first six. *)
Definition cluster_peers (df : DataFrame) (selected_row : Series) (selected_image : value)
  : result DataFrame :=
  (cluster <-? series_get selected_row "cluster" ;
   clusters <-? get_column df "cluster" ;
   ids <-? get_column df "ad_id" ;
   Ok (head 6 (mask_rows df
                 (mask_and (map (fun v => py_eqb v cluster) clusters)
                           (map (fun v => py_neb v selected_image) ids)))))%result.

Definition display_cluster_images (env : Env) (df : DataFrame) (selected_row : Series)
  (selected_image : value) : M unit :=
  if negb (has_column df "cluster") then
    st_error "The dataset must contain a 'Cluster' column to display cluster images."
  else
    cluster_df <- lift (cluster_peers df selected_row selected_image) ;;
    for_each (iterrows cluster_df) (show_image env).

Definition Total : value := VStr "Total".

(** Lines 109-116 *)
Definition cluster_pivot (df : DataFrame) : result Crosstab :=
  pivot_table_count df "ad_id" "pagename" "cluster".

(** Line 119 *)
Definition add_total (cluster_dist : Crosstab) : Crosstab :=
  ct_set_column cluster_dist Total (sum_axis1 cluster_dist).

(** Line 125 *)
Definition format_columns (cluster_dist : Crosstab) : Crosstab :=
  mkCT (map (fun col => if py_neb col Total then VStr ("Cluster " ++ py_str col) else col)
            (ct_columns cluster_dist))
       (ct_rows cluster_dist).

(** Lines 109-125: the table that is drawn. *)
Definition cluster_distribution (df : DataFrame) : result Crosstab :=
  (cluster_dist <-? cluster_pivot df ;
   cluster_dist <-? sort_values_desc (add_total cluster_dist) Total ;
   Ok (format_columns cluster_dist))%result.

Definition display_cluster_distribution (df : DataFrame) : M unit :=
  if negb (has_column df "cluster") || negb (has_column df "pagename") then
    st_error "The dataset must contain both 'cluster' and 'pagename' columns to display cluster distribution."
  else
    cluster_dist <- lift (cluster_distribution df) ;;
    st_subheader "Number of Ads in Each Cluster" ;;
    st_dataframe cluster_dist.

(** [col == x] where [x] may be [None], which equals no cell. *)
Definition eq_choice (x : option value) (v : value) : bool :=
  match x with
  | Some y => py_eqb v y
  | None => false
  end.

(** Lines 168-169: the row of the chosen identifier among the rows of the
    chosen brand. *)
Definition lookup_selected_row (brand_df : DataFrame) (selected_image : value)
  : result Series :=
  (ids <-? get_column brand_df "ad_id" ;
   iloc0 (mask_rows brand_df (map (fun v => py_eqb v selected_image) ids)))%result.

Definition preview (env : Env) (df brand_df : DataFrame) (selected_image : value) : M unit :=
  selected_row <- lift (lookup_selected_row brand_df selected_image) ;;
  try_except
    (p <- lift (series_get selected_row "image_path") ;;
     img <- Image_open env p ;;
     st_image img ;;
     st_subheader "Image Attributes" ;;
     display_image_attributes selected_row ;;
     st_subheader "Images in Same Cluster" ;;
     display_cluster_images env df selected_row selected_image)
    (fun e => st_error ("Error displaying selected image: " ++ exn_msg e)).

(** Lines 145-181: what [main] draws once it has a dataset. *)
Definition browse (env : Env) (df : DataFrame) : M unit :=
  display_cluster_distribution df ;;
  st_sidebar_header "Search By Brand" ;;
  if negb (has_column df "pagename") then
    st_error "The dataset must contain a 'Brand' column."
  else
    pagename <- lift (get_column df "pagename") ;;
    brands <- lift (py_sorted (unique pagename)) ;;
    let selected_brand := selectbox (pick_brand env) brands in
    let brand_df := mask_rows df (map (eq_choice selected_brand) pagename) in
    st_subheader "Images By Brand" ;;
    display_brand_images env brand_df ;;
    st_subheader "Image Preview" ;;
    ids <- lift (get_column brand_df "ad_id") ;;
    match selectbox (pick_image env) ids with
    | Some selected_image =>
        if truthy selected_image then preview env df brand_df selected_image
        else ret tt
    | None => ret tt
    end.

Definition main (env : Env) (uploaded_csv : option UploadedCsv)
  (uploaded_images : list UploadedFile) : M unit :=
  try_except
    (st_title "Brand Image Browser" ;;
     match uploaded_csv, uploaded_images with
     | Some csv, _ :: _ =>
         df <- process_uploaded_files env csv uploaded_images ;;
         match df with
         | None => ret tt
         | Some df => browse env df
         end
     | _, _ => st_warning "Please upload both CSV file and images to continue"
     end)
    (fun e => st_error ("An error occurred: " ++ exn_msg e)).

(* ================================================================= *)
(** ** Notions used to state the properties *)

(** The rows of a frame that satisfy [p], in the frame's order. *)
Definition rows_where (p : Row -> bool) (df : DataFrame) : list Row := filter p (rows df).

(** A row is a peer of the selection: its cluster equals the selected
    cluster and its identifier differs from the selected identifier. *)
Definition is_peer (df : DataFrame) (cluster selected_image : value) (r : Row) : bool :=
  match cell_of df "cluster" r, cell_of df "ad_id" r with
  | Some c, Some x => py_eqb c cluster && negb (py_eqb x selected_image)
  | _, _ => false
  end.

(** A row carries the chosen identifier. *)
Definition has_id (df : DataFrame) (selected_image : value) (r : Row) : bool :=
  match cell_of df "ad_id" r with
  | Some x => py_eqb x selected_image
  | None => false
  end.

(** The last row of the frame that carries the chosen identifier. *)
Definition last_matching_row (df : DataFrame) (selected_image : value) : option Row :=
  List.last (map Some (rows_where (has_id df selected_image) df)) None.

(** The first row of the frame that carries the chosen identifier. *)
Definition first_matching_row (df : DataFrame) (selected_image : value) : option Row :=
  List.hd_error (rows_where (has_id df selected_image) df).

(** The expected file name of a row's identifier is among the uploads. *)
Definition is_uploaded (df : DataFrame) (uploaded_images : list UploadedFile) (r : Row) : bool :=
  match cell_of df "ad_id" r with
  | Some x => existsb (String.eqb (image_name_of x)) (map name uploaded_images)
  | None => false
  end.

(** [s] ends in [suffix]. *)
Definition ends_in (suffix s : string) : Prop := exists p : string, s = (p ++ suffix)%string.

(** What one upload leaves in the file system. *)
Definition stored (images_path : string) (f : UploadedFile) : string * list byte :=
  (path_join images_path (name f), getbuffer f).

(** Every upload of the list can be written, one after the other, from
    the file system [fs] on: neither [open] nor [write] fails, each in the
    file system that the writes before it have left. *)
Fixpoint writes_ok (env : Env) (images_path : string) (fs : list (string * list byte))
  (uploaded_images : list UploadedFile) : Prop :=
  match uploaded_images with
  | [] => True
  | f :: rest =>
      open_wb_error env fs (path_join images_path (name f)) = None /\
      write_error env (fs ++ [(path_join images_path (name f), [])])
                  (path_join images_path (name f)) (getbuffer f) = None /\
      writes_ok env images_path (fs ++ [stored images_path f]) rest
  end.

(** No system call of the ingest fails when it starts from the file system
    [fs]: the temporary directory is [tmp] and every upload can be
    written. *)
Definition storage_ok (env : Env) (tmp : string) (fs : list (string * list byte))
  (uploaded_images : list UploadedFile) : Prop :=
  mkdtemp env = Ok tmp /\
  makedirs_error env (path_join tmp "images") = None /\
  writes_ok env (path_join tmp "images") fs uploaded_images.

(** The write of [f] in the file system [fs] fails with [e] and leaves
    [left]: nothing when [open] fails; when [write] fails, the file with
    the bytes that reached it. *)
Definition write_fails (env : Env) (images_path : string) (fs : list (string * list byte))
  (f : UploadedFile) (e : exn) (left : list (string * list byte)) : Prop :=
  (open_wb_error env fs (path_join images_path (name f)) = Some e /\ left = []) \/
  (open_wb_error env fs (path_join images_path (name f)) = None /\
   exists n,
     write_error env (fs ++ [(path_join images_path (name f), [])])
                 (path_join images_path (name f)) (getbuffer f) = Some (e, n) /\
     left = [(path_join images_path (name f), firstn n (getbuffer f))]).


(** The columns that the join appends to those of the CSV: the ones of
    image_name and image_path that the CSV does not have. *)
Definition new_columns (cols : list string) : list string :=
  filter (fun c => if in_dec string_dec c cols then false else true)
         ["image_name"; "image_path"].

(** The attributes that the row has no cell for, in the order of the
    list. *)
Definition lacking (selected_row : Series) : list string :=
  filter (fun attr => if in_dec string_dec attr (map fst selected_row) then false else true)
         attributes.

(** [v] is the cell of the row under the name [attr]: the row holds the pair,
    and no pair before it has that name (a row of a frame has every name
    once). *)
Definition attr_value (selected_row : Series) (attr : string) (v : value) : Prop :=
  exists pre post,
    selected_row = pre ++ (attr, v) :: post /\ ~ In attr (map fst pre).

(** The widgets past the title that show data: the views of the page. *)
Definition is_view (x : widget) : bool :=
  match x with
  | StTitle _ | StWarning _ | StError _ => false
  | _ => true
  end.

(** The Total of a table row and its cells under the other columns. *)
Definition row_total (t : Crosstab) (r : value * list Z) : Z :=
  match label_index Total (ct_columns t) with
  | Some i => nth i (snd r) 0%Z
  | None => 0%Z
  end.

Definition cluster_cells (t : Crosstab) (r : value * list Z) : list Z :=
  map snd (filter (fun p => py_neb (fst p) Total) (combine (ct_columns t) (snd r))).

(** A row takes part in the distribution table: its group and its cluster
    are there. *)
Definition keyed (df : DataFrame) (r : Row) : bool :=
  match cell_of df "pagename" r, cell_of df "cluster" r with
  | Some g, Some c => notna g && notna c
  | _, _ => false
  end.

(** A row is counted in the table: it is keyed and has an identifier. *)
Definition counted (df : DataFrame) (r : Row) : bool :=
  match cell_of df "ad_id" r with
  | Some x => keyed df r && notna x
  | None => false
  end.

(** A row has group [g] and cluster [c]. *)
Definition in_cell (df : DataFrame) (g c : value) (r : Row) : bool :=
  match cell_of df "pagename" r, cell_of df "cluster" r with
  | Some g', Some c' => py_eqb g' g && py_eqb c' c
  | _, _ => false
  end.

(** The header the table shows for a cluster. *)
Definition cluster_header (c : value) : value := VStr ("Cluster " ++ py_str c).

(** The cell of a row under a column name, NaN when there is no such
    column. *)
Definition cell_or_nan (df : DataFrame) (col : string) (r : Row) : value :=
  match cell_of df col r with
  | Some v => v
  | None => VNaN
  end.

(** The groups and the clusters of the rows that take part in the table. *)
Definition keyed_groups (df : DataFrame) : list value :=
  map (cell_or_nan df "pagename") (rows_where (keyed df) df).

Definition keyed_clusters (df : DataFrame) : list value :=
  map (cell_or_nan df "cluster") (rows_where (keyed df) df).

(** Exactly one element of [l] equals [k]. *)
Definition occurs_once (k : value) (l : list value) : Prop :=
  count_where (py_eqb k) l = 1%Z.

(** The rows of a table are in descending order of their Total. *)
Definition total_descending (t : Crosstab) : Prop :=
  StronglySorted (fun a b => (row_total t b <= row_total t a)%Z) (ct_rows t).


(** What the image loop draws for one row in a world: the image under the
    row's image_path, or the error of the step that failed. *)
Definition image_widget (env : Env) (w : World) (row : Series) : widget :=
  match series_get row "image_path" with
  | Ok p =>
      match fst (Image_open env p w) with
      | Ok img => StImage img
      | Raise e => StError ("Error loading image: " ++ exn_msg e)
      end
  | Raise e => StError ("Error loading image: " ++ exn_msg e)
  end.

(** A value is a string. *)
Definition is_str (v : value) : bool :=
  match v with
  | VStr _ => true
  | _ => false
  end.

(** A table has one cell per column in every row. *)
Definition ct_rectangular (t : Crosstab) : Prop :=
  Forall (fun r => List.length (snd r) = List.length (ct_columns t)) (ct_rows t).

(* ================================================================= *)
(** ** Inputs of the examples *)

Module Examples.

Definition env0 : Env :=
  mkEnv (Ok "/tmp/t") (fun _ => None) (fun _ _ => None) (fun _ _ _ => None)
        (fun _ => None) (fun _ => O) (fun _ => O).

Definition w0 : World := mkWorld [] [].

(** The scenario of the specification: three ads, images for 1 and 2. *)
Definition csv_scenario : DataFrame :=
  mkDF ["ad_id"; "pagename"; "cluster"]
       [mkRow 0 [VInt 1; VStr "A"; VInt 0];
        mkRow 1 [VInt 2; VStr "A"; VInt 0];
        mkRow 2 [VInt 3; VStr "B"; VInt 1]].

Definition uploads12 : list UploadedFile :=
  [mkUpload "1.png" [x01]; mkUpload "2.png" [x02]].

(** Two ads, the second one not yet assigned to a cluster (an empty cell
    of the CSV). *)
Definition csv_unclustered : DataFrame :=
  mkDF ["ad_id"; "pagename"; "cluster"]
       [mkRow 0 [VInt 1; VStr "A"; VStr "c0"];
        mkRow 1 [VInt 2; VStr "B"; VNaN]].

(** Two ads of one brand, one of them in a cluster that is named Total. *)
Definition dataset_cluster_Total : DataFrame :=
  mkDF ["ad_id"; "pagename"; "cluster"]
       [mkRow 0 [VInt 1; VStr "A"; VStr "Total"];
        mkRow 1 [VInt 2; VStr "A"; VStr "x"]].

(** Two lines with the same identifier. *)
Definition csv_duplicate : DataFrame :=
  mkDF ["ad_id"; "pagename"; "cluster"]
       [mkRow 0 [VInt 7; VStr "A"; VInt 0];
        mkRow 1 [VInt 7; VStr "A"; VInt 1]].

(** A CSV that already has a column named image_name. *)
Definition csv_with_image_name : DataFrame :=
  mkDF ["ad_id"; "image_name"]
       [mkRow 0 [VInt 1; VStr "original.jpg"]].

(** The dataset the ingest makes of [csv_unclustered] when both images are
    uploaded. *)
Definition dataset_unclustered : DataFrame :=
  mkDF ["ad_id"; "pagename"; "cluster"; "image_name"; "image_path"]
       [mkRow 0 [VInt 1; VStr "A"; VStr "c0"; VStr "1.png"; VStr "/tmp/t/images/1.png"];
        mkRow 1 [VInt 2; VStr "B"; VNaN; VStr "2.png"; VStr "/tmp/t/images/2.png"]].

Definition ENOSPC : exn := mkExn "OSError" "[Errno 28] No space left on device".

(** The first write fails: 1.png cannot be opened. *)
Definition env_disk_full : Env :=
  mkEnv (Ok "/tmp/t") (fun _ => None)
        (fun _ path => if String.eqb path "/tmp/t/images/1.png" then Some ENOSPC else None)
        (fun _ _ _ => None)
        (fun _ => None) (fun _ => O) (fun _ => O).

(** The disk fills up: once a file is stored, a write stops after its
    first byte. *)
Definition env_disk_fills : Env :=
  mkEnv (Ok "/tmp/t") (fun _ => None)
        (fun _ _ => None)
        (fun fs _ _ => match fs with
                       | _ :: _ :: _ => Some (ENOSPC, 1%nat)
                       | _ => None
                       end)
        (fun _ => None) (fun _ => O) (fun _ => O).

(** A CSV with an empty ad_id cell: [read_csv] makes the column float64,
    so the identifier 1 is the float 1.0. *)
Definition csv_float_ids : DataFrame :=
  mkDF ["ad_id"; "pagename"; "cluster"]
       [mkRow 0 [VFloat (FFin false 1 0); VStr "A"; VInt 0];
        mkRow 1 [VNaN; VStr "B"; VInt 1]].

(** A CSV with an empty cluster cell: the clusters 0 and 1 are the floats
    0.0 and 1.0. *)
Definition csv_float_clusters : DataFrame :=
  mkDF ["ad_id"; "pagename"; "cluster"]
       [mkRow 0 [VInt 1; VStr "A"; VFloat (FZero false)];
        mkRow 1 [VInt 2; VStr "A"; VFloat (FFin false 1 0)];
        mkRow 2 [VInt 3; VStr "B"; VNaN]].

(** A row of a dataset with every attribute, and one without logo_present
    and tier. *)
Definition row_complete : Series :=
  [("ad_id", VInt 1); ("pagename", VStr "A"); ("dominant_background_colour", VStr "red");
   ("logo_present", VBool true); ("cluster", VInt 0); ("tier", VStr "gold");
   ("image_name", VStr "1.png"); ("image_path", VStr "/tmp/t/images/1.png")].

Definition row_incomplete : Series :=
  [("ad_id", VInt 1); ("pagename", VStr "A"); ("dominant_background_colour", VStr "red");
   ("cluster", VInt 0)].

(** Two uploads under one name. *)
Definition uploads_same_name : list UploadedFile :=
  [mkUpload "1.png" [x01; x02]; mkUpload "1.png" [x03; x04]].

End Examples.

(* ================================================================= *)
(** ** Lists, masks and columns *)

Section ListFacts.

Context {A B : Type}.

Lemma mask_of_map (f : A -> bool) (l : list A) :
  map fst (filter snd (combine l (map f l))) = filter f l.
Proof.
  induction l as [|x l IH]; simpl; [reflexivity|].
  destruct (f x); simpl; now rewrite IH.
Qed.

Lemma combine_map_same (f : A -> B) (l : list A) :
  combine l (map f l) = map (fun x => (x, f x)) l.
Proof.
  induction l as [|x l IH]; simpl; [reflexivity|]. now rewrite IH.
Qed.

Lemma filter_map_comm (p : B -> bool) (f : A -> B) (l : list A) :
  filter p (map f l) = map f (filter (fun x => p (f x)) l).
Proof.
  induction l as [|x l IH]; simpl; [reflexivity|].
  destruct (p (f x)); simpl; now rewrite IH.
Qed.

Lemma Forall2_map_right (R : A -> B -> Prop) (f : A -> B) (l : list A) :
  (forall x, In x l -> R x (f x)) -> Forall2 R l (map f l).
Proof.
  induction l as [|x l IH]; simpl; intros H; constructor.
  - apply H. now left.
  - apply IH. intros y Hy. apply H. now right.
Qed.

Lemma In_firstn (n : nat) (l : list A) (x : A) : In x (firstn n l) -> In x l.
Proof.
  revert l. induction n as [|n IH]; intros [|y l]; simpl; try tauto.
  intros [H|H]; [now left|right; now apply IH].
Qed.

End ListFacts.

Lemma mask_and_map {A : Type} (f g : A -> bool) (l : list A) :
  mask_and (map f l) (map g l) = map (fun x => f x && g x) l.
Proof.
  unfold mask_and. induction l as [|x l IH]; simpl; [reflexivity|]. now rewrite IH.
Qed.

Lemma mask_rows_map (df : DataFrame) (f : Row -> bool) :
  mask_rows df (map f (rows df)) = mkDF (columns df) (filter f (rows df)).
Proof. unfold mask_rows. now rewrite mask_of_map. Qed.

Lemma mask_rows_frame (cols : list string) (l : list Row) (f : Row -> bool) :
  mask_rows (mkDF cols l) (map f l) = mkDF cols (filter f l).
Proof. apply (mask_rows_map (mkDF cols l)). Qed.

Lemma has_column_index (df : DataFrame) (col : string) :
  has_column df col = true -> exists i, index_of col (columns df) = Some i.
Proof.
  unfold has_column. destruct (index_of col (columns df)) as [i|]; [eauto|discriminate].
Qed.

Lemma get_column_index (df : DataFrame) (col : string) (i : nat) :
  index_of col (columns df) = Some i ->
  get_column df col = Ok (map (cell_at i) (rows df)).
Proof. intros H. unfold get_column, column_index. now rewrite H. Qed.

(** Equality of numbers is an equivalence. *)
Lemma Qeq_bool_swap (p q : Q) : Qeq_bool p q = Qeq_bool q p.
Proof.
  destruct (Qeq_bool p q) eqn:E, (Qeq_bool q p) eqn:F; try reflexivity.
  - apply Qeq_bool_sym in E. congruence.
  - apply Qeq_bool_sym in F. congruence.
Qed.

Lemma num_eqb_sym (x y : number) : num_eqb x y = num_eqb y x.
Proof. destruct x, y; simpl; try reflexivity. apply Qeq_bool_swap. Qed.

Lemma num_eqb_refl (x : number) : num_eqb x x = true.
Proof. destruct x; simpl; try reflexivity. apply Qeq_bool_refl. Qed.

Lemma num_eqb_trans (x y z : number) :
  num_eqb x y = true -> num_eqb y z = true -> num_eqb x z = true.
Proof.
  destruct x, y, z; simpl; try discriminate; try reflexivity.
  apply Qeq_bool_trans.
Qed.

(** Python's [==] is symmetric and transitive, and reflexive on everything
    but NaN. *)
Lemma py_eqb_sym (a b : value) : py_eqb a b = py_eqb b a.
Proof.
  destruct a as [x|s|bx| |f], b as [y|t|by'| |g];
    cbv beta iota delta [py_eqb py_num]; try reflexivity;
    try apply num_eqb_sym; apply String.eqb_sym.
Qed.

Lemma py_eqb_trans (a b c : value) :
  py_eqb a b = true -> py_eqb b c = true -> py_eqb a c = true.
Proof.
  destruct a as [x|s|bx| |f], b as [y|t|by'| |g], c as [z|u|bz| |h];
    cbv beta iota delta [py_eqb py_num];
    try discriminate; try reflexivity;
    try apply num_eqb_trans;
    rewrite ?String.eqb_eq; intros; subst; congruence.
Qed.

Lemma py_eqb_refl (a : value) : notna a = true -> py_eqb a a = true.
Proof.
  destruct a as [x|s|bx| |f]; cbv beta iota delta [py_eqb py_num notna isna negb];
    try discriminate; intros _;
    try apply num_eqb_refl; apply String.eqb_refl.
Qed.

Lemma py_eqb_notna (a b : value) : py_eqb a b = true -> notna a = true /\ notna b = true.
Proof.
  destruct a as [x|s|bx| |f], b as [y|t|by'| |g];
    cbv beta iota delta [py_eqb py_num notna isna negb]; try discriminate; auto.
Qed.

Lemma same_key_notna (a b : value) : notna b = true -> same_key a b = py_eqb a b.
Proof.
  unfold same_key. destruct b; try discriminate; intros _;
    rewrite andb_false_r, orb_false_r; reflexivity.
Qed.

(* ================================================================= *)
(** ** Float cells *)

(** [repr] on some floats: 1.0, 0.1, 1e23, 1e16, -123456789012345680.0,
    the least positive float, 0.0001, 0.00001, -2.5, a tie between two
    shortest decimals, and the greatest float. *)
Lemma float_str_examples :
  map float_str
      [FFin false 1 0; FFin false 3602879701896397 (-55); FFin false 2980232238769531 25;
       FFin false 152587890625 16; FFin true 7716049313271605 4; FFin false 1 (-1074);
       FFin false 7378697629483821 (-66); FFin false 5902958103587057 (-69);
       FFin true 5 (-1); FFin false 4503599627370497 (-2);
       FFin false 9007199254740991 971; FZero true; FInf false]
  = ["1.0"; "0.1"; "1e+23"; "1e+16"; "-1.2345678901234568e+17"; "5e-324";
     "0.0001"; "1e-05"; "-2.5"; "1125899906842624.2";
     "1.7976931348623157e+308"; "-0.0"; "inf"].
Proof. vm_compute. reflexivity. Qed.

(** An integer, a float and a boolean of the same value are equal; a float
    zero is false. *)
Lemma float_eq_examples :
  py_eqb (VInt 1) (VFloat (FFin false 1 0)) = true /\
  py_eqb (VFloat (FFin false 2 (-1))) (VBool true) = true /\
  py_eqb (VFloat (FFin false 3 (-1))) (VInt 1) = false /\
  truthy (VFloat (FZero true)) = false.
Proof. repeat split; vm_compute; reflexivity. Qed.

(** The file name of the float identifier 1.0 is "1.0.png": the upload
    "1.png" does not match its row, which is dropped, and the upload
    "1.0.png" does. *)
Lemma float_identifier_file_name :
  image_name_of (VFloat (FFin false 1 0)) = "1.0.png" /\
  (exists out w',
     process_uploaded_files Examples.env0 (CsvTable Examples.csv_float_ids)
       [mkUpload "1.png" [x01]] Examples.w0 = (Ok (Some out), w') /\
     rows out = []) /\
  (exists out w',
     process_uploaded_files Examples.env0 (CsvTable Examples.csv_float_ids)
       [mkUpload "1.0.png" [x01]] Examples.w0 = (Ok (Some out), w') /\
     rows out = [mkRow 0 [VFloat (FFin false 1 0); VStr "A"; VInt 0; VStr "1.0.png";
                          VStr "/tmp/t/images/1.0.png"]]).
Proof.
  split; [vm_compute; reflexivity|].
  split; do 2 eexists; (split; [vm_compute; reflexivity|reflexivity]).
Qed.

(** The header of a float cluster shows the float: "Cluster 0.0". *)
Lemma float_cluster_header :
  cluster_distribution Examples.csv_float_clusters
  = Ok (mkCT [VStr "Cluster 0.0"; VStr "Cluster 1.0"; Total] [(VStr "A", [1; 1; 2]%Z)]).
Proof. vm_compute. reflexivity. Qed.

(* ================================================================= *)
(** ** The attribute table *)

Lemma collect_in_index (s : Series) (l : list string) :
  filter (fun attr => negb (in_index s attr)) l = [] ->
  exists labels,
    collect (series_get s) l = Ok labels /\
    Forall2 (fun attr v => series_get s attr = Ok v) l labels.
Proof.
  induction l as [|a l IH]; simpl; intros H.
  - exists []. split; [reflexivity|constructor].
  - destruct (in_index s a) eqn:Ha; simpl in H; [|discriminate].
    destruct (IH H) as [labels [Hc Hf]].
    assert (Hget : exists v, series_get s a = Ok v).
    { clear -Ha. induction s as [|kv s IHs]; simpl in *; [discriminate|].
      destruct (String.eqb (fst kv) a); [eauto|]. apply IHs. exact Ha. }
    destruct Hget as [v Hv]. exists (v :: labels). rewrite Hv, Hc. simpl.
    split; [reflexivity|]. constructor; assumption.
Qed.

Lemma in_index_In (s : Series) (key : string) :
  in_index s key = true <-> In key (map fst s).
Proof.
  unfold in_index. rewrite existsb_exists. split.
  - intros [kv [Hin Heq]]. apply String.eqb_eq in Heq. subst. now apply in_map.
  - intros H. apply in_map_iff in H. destruct H as [kv [<- Hin]].
    exists kv. split; [exact Hin|apply String.eqb_refl].
Qed.

Lemma missing_attrs_lacking (s : Series) :
  filter (fun attr => negb (in_index s attr)) attributes = lacking s.
Proof.
  unfold lacking. apply filter_ext. intros a.
  destruct (in_dec string_dec a (map fst s)) as [H|H].
  - apply in_index_In in H. now rewrite H.
  - destruct (in_index s a) eqn:E; [|reflexivity].
    apply in_index_In in E. contradiction.
Qed.

Lemma In_lacking (s : Series) (attr : string) :
  In attr (lacking s) <-> In attr attributes /\ ~ In attr (map fst s).
Proof.
  unfold lacking. rewrite filter_In.
  destruct (in_dec string_dec attr (map fst s)) as [H|H]; split; intros [H1 H2];
    try discriminate; try contradiction; split; auto.
Qed.

Lemma series_get_value (s : Series) (attr : string) (v : value) :
  series_get s attr = Ok v -> attr_value s attr v.
Proof.
  induction s as [|[k x] s IH]; simpl; [discriminate|].
  destruct (String.eqb k attr) eqn:E.
  - intros H. injection H as <-. apply String.eqb_eq in E. subst k.
    exists [], s. split; [reflexivity|]. intros [].
  - intros H. destruct (IH H) as [pre [post [-> Hn]]].
    exists ((k, x) :: pre), post. split; [reflexivity|].
    simpl. intros [->|Hin]; [|contradiction].
    rewrite String.eqb_refl in E. discriminate.
Qed.

(** C9. [display_image_attributes] checks the five attributes pagename,
    dominant_background_colour, logo_present, cluster and tier against the
    row and draws one widget. When the row has no cell for some of them,
    the widget is one error that lists every such name, in the order of
    the list, and there is no table; when the row has a cell for each, the
    widget is the table of the five names, in that order, each with the
    cell the row holds under it. *)
Theorem display_image_attributes_spec (selected_row : Series) (w : World) :
  attributes = ["pagename"; "dominant_background_colour"; "logo_present"; "cluster"; "tier"] /\
  (forall attr, In attr (lacking selected_row) <->
                In attr attributes /\ ~ In attr (map fst selected_row)) /\
  exists drawn,
    display_image_attributes selected_row w =
    (Ok tt, mkWorld (files w) (screen w ++ [drawn])) /\
    ((exists attr, In attr attributes /\ ~ In attr (map fst selected_row)) ->
     drawn = StError ("Missing attributes in the selected row: "
                        ++ String.concat ", " (lacking selected_row))) /\
    ((forall attr, In attr attributes -> In attr (map fst selected_row)) ->
     exists labels,
       drawn = StTable (combine attributes labels) /\
       Forall2 (attr_value selected_row) attributes labels).
Proof.
  split; [reflexivity|]. split; [apply In_lacking|].
  pose proof (missing_attrs_lacking selected_row) as Hm.
  pose proof (In_lacking selected_row) as Hin.
  unfold display_image_attributes. rewrite Hm.
  destruct (lacking selected_row) as [|m ms].
  - destruct (collect_in_index selected_row attributes Hm) as [labels [Hc Hf]].
    exists (StTable (combine attributes labels)). split; [|split].
    + unfold bind, lift. rewrite Hc. reflexivity.
    + intros [attr Hattr]. apply Hin in Hattr. destruct Hattr.
    + intros _. exists labels. split; [reflexivity|].
      eapply Forall2_impl; [|exact Hf]. intros attr v. apply series_get_value.
  - eexists. split; [reflexivity|]. split.
    + intros _. reflexivity.
    + intros Hall. exfalso.
      destruct (proj1 (Hin m) (or_introl eq_refl)) as [Hm1 Hm2].
      apply Hm2, Hall, Hm1.
Qed.

Lemma display_image_attributes_spec_witness :
  (exists labels,
     display_image_attributes Examples.row_complete Examples.w0 =
     (Ok tt, mkWorld [] [StTable (combine attributes labels)]) /\
     Forall2 (attr_value Examples.row_complete) attributes labels) /\
  display_image_attributes Examples.row_incomplete Examples.w0 =
  (Ok tt, mkWorld [] [StError "Missing attributes in the selected row: logo_present, tier"]).
Proof.
  split.
  - destruct (display_image_attributes_spec Examples.row_complete Examples.w0)
      as [_ [_ [drawn [Hrun [_ Htable]]]]].
    destruct Htable as [labels [-> Hf]].
    + intros attr Hattr. simpl in Hattr. simpl. intuition (subst; auto 10).
    + exists labels. split; [exact Hrun|exact Hf].
  - destruct (display_image_attributes_spec Examples.row_incomplete Examples.w0)
      as [_ [_ [drawn [Hrun [Herr _]]]]].
    rewrite Herr in Hrun; [exact Hrun|].
    exists "tier". split; [simpl; auto 10|].
    simpl. intros H. repeat (destruct H as [H|H]; [discriminate|]). exact H.
Defined.

(* ================================================================= *)
(** ** The cluster peers *)

Lemma is_peer_cells (df : DataFrame) (ic ii : nat) (cluster selected_image : value) :
  index_of "cluster" (columns df) = Some ic ->
  index_of "ad_id" (columns df) = Some ii ->
  forall r, is_peer df cluster selected_image r =
            py_eqb (cell_at ic r) cluster && py_neb (cell_at ii r) selected_image.
Proof. intros Hc Hi r. unfold is_peer, cell_of. rewrite Hc, Hi. reflexivity. Qed.

(** C3. On a dataset with the columns cluster and ad_id and a selected row
    with a cluster, the peer lookup of [display_cluster_images] returns the
    first six rows, in the order of the dataset, among those whose cluster
    equals the selected cluster and whose identifier differs from the
    selected one: at most six rows, none with the selected identifier, all
    of the selected cluster. *)
Theorem cluster_peers_spec (df : DataFrame) (selected_row : Series)
  (selected_image cluster : value) :
  has_column df "cluster" = true ->
  has_column df "ad_id" = true ->
  series_get selected_row "cluster" = Ok cluster ->
  exists cluster_df,
    cluster_peers df selected_row selected_image = Ok cluster_df /\
    columns cluster_df = columns df /\
    rows cluster_df = firstn 6 (rows_where (is_peer df cluster selected_image) df) /\
    (List.length (rows cluster_df) <= 6)%nat /\
    (forall r, In r (rows cluster_df) ->
       In r (rows df) /\
       exists c x, cell_of df "cluster" r = Some c /\ cell_of df "ad_id" r = Some x /\
                   py_eqb c cluster = true /\ py_eqb x selected_image = false /\
                   (notna selected_image = true -> x <> selected_image)).
Proof.
  intros Hc Hi Hs.
  destruct (has_column_index _ _ Hc) as [ic Hic].
  destruct (has_column_index _ _ Hi) as [ii Hii].
  unfold cluster_peers. rewrite Hs. cbn [rbind].
  rewrite (get_column_index _ _ _ Hic), (get_column_index _ _ _ Hii). cbn [rbind].
  rewrite !map_map, mask_and_map, mask_rows_map.
  eexists. split; [reflexivity|]. unfold head. cbn [columns rows].
  assert (Hrows : firstn 6 (filter (fun x => py_eqb (cell_at ic x) cluster
                                     && py_neb (cell_at ii x) selected_image) (rows df))
                  = firstn 6 (rows_where (is_peer df cluster selected_image) df)).
  { unfold rows_where. f_equal. apply filter_ext. intros r.
    now rewrite (is_peer_cells df ic ii). }
  rewrite Hrows. split; [reflexivity|]. split; [reflexivity|]. split.
  - apply firstn_le_length.
  - intros r Hr. apply In_firstn in Hr. unfold rows_where in Hr.
    apply filter_In in Hr. destruct Hr as [Hin Hp]. split; [exact Hin|].
    rewrite (is_peer_cells df ic ii _ _ Hic Hii) in Hp.
    apply andb_true_iff in Hp. destruct Hp as [Hp1 Hp2].
    exists (cell_at ic r), (cell_at ii r). unfold cell_of. rewrite Hic, Hii. simpl.
    unfold py_neb in Hp2. apply negb_true_iff in Hp2.
    repeat split; try assumption.
    intros Hna Heq. rewrite Heq, py_eqb_refl in Hp2; [discriminate|exact Hna].
Qed.

Lemma cluster_peers_spec_witness :
  exists cluster_df,
    cluster_peers Examples.csv_scenario [("ad_id", VInt 1); ("cluster", VInt 0)] (VInt 1)
    = Ok cluster_df /\
    map label (rows cluster_df) = [1%nat].
Proof.
  destruct (cluster_peers_spec Examples.csv_scenario
              [("ad_id", VInt 1); ("cluster", VInt 0)] (VInt 1) (VInt 0)
              eq_refl eq_refl eq_refl) as [cluster_df [H [_ [Hr _]]]].
  exists cluster_df. split; [exact H|]. rewrite Hr. reflexivity.
Defined.

(* ================================================================= *)
(** ** The selected row *)

Lemma has_id_cells (df : DataFrame) (i : nat) (selected_image : value) :
  index_of "ad_id" (columns df) = Some i ->
  forall r, has_id df selected_image r = py_eqb (cell_at i r) selected_image.
Proof. intros H r. unfold has_id, cell_of. now rewrite H. Qed.

Lemma hd_error_filter_split {A : Type} (p : A -> bool) (l : list A) (x : A) :
  List.hd_error (filter p l) = Some x ->
  exists pre post, l = pre ++ x :: post /\ p x = true /\
                   Forall (fun y => p y = false) pre.
Proof.
  induction l as [|y l IH]; simpl; [discriminate|].
  destruct (p y) eqn:Hy; simpl.
  - intros H. injection H as ->. exists [], l. repeat split; [exact Hy|constructor].
  - intros H. destruct (IH H) as [pre [post [-> [Hx Hpre]]]].
    exists (y :: pre), post. repeat split; [exact Hx|]. constructor; assumption.
Qed.

(** C7, as the code has it. The row shown for a chosen identifier is the
    first row, in the order of the brand's rows, whose ad_id equals the
    identifier: no row before it carries the identifier. When no row
    carries it, the lookup raises IndexError. *)
Theorem lookup_selected_row_first_match (brand_df : DataFrame) (selected_image : value) :
  has_column brand_df "ad_id" = true ->
  lookup_selected_row brand_df selected_image =
    match first_matching_row brand_df selected_image with
    | Some r => Ok (row_series brand_df r)
    | None => Raise (IndexError "single positional indexer is out-of-bounds")
    end /\
  (forall r, first_matching_row brand_df selected_image = Some r ->
     exists pre post,
       rows brand_df = pre ++ r :: post /\
       has_id brand_df selected_image r = true /\
       Forall (fun p => has_id brand_df selected_image p = false) pre).
Proof.
  intros H. destruct (has_column_index _ _ H) as [i Hi]. split.
  - unfold lookup_selected_row. rewrite (get_column_index _ _ _ Hi). cbn [rbind].
    rewrite map_map, mask_rows_map. unfold iloc0, first_matching_row, rows_where.
    cbn [rows columns].
    rewrite (filter_ext _ _ (has_id_cells brand_df i selected_image Hi)).
    destruct (filter _ (rows brand_df)); reflexivity.
  - intros r Hr. unfold first_matching_row, rows_where in Hr.
    now apply hd_error_filter_split.
Qed.

Lemma lookup_selected_row_first_match_witness :
  lookup_selected_row Examples.csv_duplicate (VInt 7) =
  Ok [("ad_id", VInt 7); ("pagename", VStr "A"); ("cluster", VInt 0)].
Proof.
  destruct (lookup_selected_row_first_match Examples.csv_duplicate (VInt 7) eq_refl)
    as [H _].
  rewrite H. reflexivity.
Defined.

(** C7, as the claim has it, fails: with two lines of identifier 7 the
    lookup returns the first line (cluster 0), not the last (cluster 1). *)
Lemma lookup_selected_row_not_last :
  last_matching_row Examples.csv_duplicate (VInt 7)
  = Some (mkRow 1 [VInt 7; VStr "A"; VInt 1]) /\
  lookup_selected_row Examples.csv_duplicate (VInt 7)
  = Ok (row_series Examples.csv_duplicate (mkRow 0 [VInt 7; VStr "A"; VInt 0])) /\
  lookup_selected_row Examples.csv_duplicate (VInt 7)
  <> Ok (row_series Examples.csv_duplicate (mkRow 1 [VInt 7; VStr "A"; VInt 1])).
Proof.
  split; [reflexivity|]. split; [reflexivity|]. vm_compute. discriminate.
Qed.

(* ================================================================= *)
(** ** Column assignment *)

Lemma index_of_lt (c : string) (cols : list string) (i : nat) :
  index_of c cols = Some i -> (i < List.length cols)%nat.
Proof.
  revert i. induction cols as [|d cols IH]; simpl; intros i; [discriminate|].
  destruct (String.eqb d c).
  - intros H. injection H as <-. lia.
  - destruct (index_of c cols) as [j|]; simpl; [|discriminate].
    intros H. injection H as <-. specialize (IH j eq_refl). lia.
Qed.

Lemma index_of_app_some (c : string) (cols l : list string) (i : nat) :
  index_of c cols = Some i -> index_of c (cols ++ l) = Some i.
Proof.
  revert i. induction cols as [|d cols IH]; simpl; intros i; [discriminate|].
  destruct (String.eqb d c); [tauto|].
  destruct (index_of c cols) as [j|]; simpl; [|discriminate].
  intros H. now rewrite (IH j eq_refl).
Qed.

Lemma index_of_app_none (c col : string) (cols : list string) :
  index_of c cols = None ->
  index_of c (cols ++ [col]) =
  if String.eqb col c then Some (List.length cols) else None.
Proof.
  induction cols as [|d cols IH]; simpl.
  - intros _. destruct (String.eqb col c); reflexivity.
  - destruct (String.eqb d c); [discriminate|].
    destruct (index_of c cols) as [j|]; simpl; [discriminate|].
    intros _. rewrite (IH eq_refl). destruct (String.eqb col c); reflexivity.
Qed.

Lemma index_of_inj (c c' : string) (cols : list string) (i : nat) :
  index_of c cols = Some i -> index_of c' cols = Some i -> c = c'.
Proof.
  revert i. induction cols as [|d cols IH]; simpl; intros i; [discriminate|].
  destruct (String.eqb d c) eqn:Hc, (String.eqb d c') eqn:Hc'.
  - apply String.eqb_eq in Hc, Hc'. congruence.
  - intros H. injection H as <-. destruct (index_of c' cols); discriminate.
  - destruct (index_of c cols); simpl; [|discriminate]. intros H H'.
    injection H' as <-. discriminate.
  - destruct (index_of c cols) as [j|]; simpl; [|discriminate].
    destruct (index_of c' cols) as [j'|]; simpl; [|discriminate].
    intros H H'. injection H as <-. injection H' as H'. subst j'.
    now apply (IH j).
Qed.

Lemma length_set_nth {A : Type} (i : nat) (x : A) (l : list A) :
  List.length (set_nth i x l) = List.length l.
Proof.
  revert i. induction l as [|y l IH]; intros [|i]; simpl; try reflexivity.
  now rewrite IH.
Qed.

Lemma nth_set_nth_same {A : Type} (i : nat) (x d : A) (l : list A) :
  (i < List.length l)%nat -> nth i (set_nth i x l) d = x.
Proof.
  revert i. induction l as [|y l IH]; intros [|i]; simpl; try lia; try reflexivity.
  intros H. apply IH. lia.
Qed.

Lemma nth_set_nth_other {A : Type} (i j : nat) (x d : A) (l : list A) :
  i <> j -> nth i (set_nth j x l) d = nth i l d.
Proof.
  revert i j. induction l as [|y l IH]; intros [|i] [|j]; simpl;
    try reflexivity; try congruence.
  intros H. apply IH. congruence.
Qed.

Lemma length_set_cell (cols : list string) (col : string) (v : value) (r : Row) :
  List.length (cells r) = List.length cols ->
  List.length (cells (set_cell cols col v r)) = List.length (columns_with cols col).
Proof.
  intros H. unfold set_cell, columns_with.
  destruct (index_of col cols); simpl.
  - now rewrite length_set_nth.
  - rewrite !length_app. simpl. lia.
Qed.

(** After [df[col] = ..] a row has the new value under [col] and its old
    cells under every other name. *)
Lemma cell_of_set_cell (cols : list string) (col c : string) (v : value) (r : Row) :
  List.length (cells r) = List.length cols ->
  option_map (fun i => cell_at i (set_cell cols col v r)) (index_of c (columns_with cols col))
  = if String.eqb col c then Some v
    else option_map (fun i => cell_at i r) (index_of c cols).
Proof.
  intros L. unfold set_cell, columns_with, cell_at.
  destruct (index_of col cols) as [j|] eqn:Hj.
  - destruct (String.eqb col c) eqn:E.
    + apply String.eqb_eq in E. subst c. rewrite Hj. simpl.
      rewrite nth_set_nth_same; [reflexivity|].
      rewrite L. now apply index_of_lt with (c := col).
    + destruct (index_of c cols) as [i|] eqn:Hi; simpl; [|reflexivity].
      rewrite nth_set_nth_other; [reflexivity|].
      intros ->. apply String.eqb_neq in E. apply E.
      now apply (index_of_inj col c cols j).
  - destruct (index_of c cols) as [i|] eqn:Hi.
    + rewrite (index_of_app_some _ _ _ _ Hi). simpl.
      destruct (String.eqb col c) eqn:E.
      * apply String.eqb_eq in E. congruence.
      * rewrite app_nth1; [reflexivity|]. rewrite L. now apply index_of_lt with (c := c).
    + rewrite (index_of_app_none _ _ _ Hi).
      destruct (String.eqb col c); simpl; [|reflexivity].
      rewrite app_nth2; [|lia]. rewrite L, Nat.sub_diag. reflexivity.
Qed.

Lemma index_of_columns_with (cols : list string) (col c : string) (i : nat) :
  index_of c cols = Some i -> index_of c (columns_with cols col) = Some i.
Proof.
  intros H. unfold columns_with. destruct (index_of col cols); [exact H|].
  now apply index_of_app_some.
Qed.

Lemma index_of_columns_with_same (cols : list string) (col : string) :
  exists j, index_of col (columns_with cols col) = Some j.
Proof.
  unfold columns_with. destruct (index_of col cols) as [j|] eqn:H.
  - eauto.
  - rewrite (index_of_app_none _ _ _ H), String.eqb_refl. eauto.
Qed.

Lemma set_column_map (df : DataFrame) (col : string) (g : Row -> value) :
  set_column df col (map g (rows df))
  = mkDF (columns_with (columns df) col)
         (map (fun r => set_cell (columns df) col (g r) r) (rows df)).
Proof.
  unfold set_column. now rewrite combine_map_same, map_map.
Qed.

Lemma set_column_frame (cols : list string) (l : list Row) (col : string)
  (g : Row -> value) :
  set_column (mkDF cols l) col (map g l)
  = mkDF (columns_with cols col) (map (fun r => set_cell cols col (g r) r) l).
Proof. apply (set_column_map (mkDF cols l)). Qed.

(* ================================================================= *)
(** ** The join *)

Lemma existsb_same_key_str (n : string) (names : list string) :
  existsb (same_key (VStr n)) (map VStr names) = existsb (String.eqb n) names.
Proof.
  induction names as [|m names IH]; simpl; [reflexivity|].
  rewrite IH. unfold same_key. simpl. now rewrite orb_false_r.
Qed.

Lemma label_set_cell (cols : list string) (col : string) (v : value) (r : Row) :
  label (set_cell cols col v r) = label r.
Proof. unfold set_cell. destruct (index_of col cols); reflexivity. Qed.

(** Lines 39-44 on a table with an ad_id column: the rows kept are those
    whose expected file name is among [names], in their order; a kept row
    has its path under image_path, its expected name under image_name and
    its old cells under every other column name. *)
Lemma join_images_rows (images_path : string) (names : list string) (df : DataFrame)
  (i : nat) :
  rectangular df ->
  index_of "ad_id" (columns df) = Some i ->
  exists out,
    join_images images_path names df = Ok out /\
    columns out = columns_with (columns_with (columns df) "image_name") "image_path" /\
    Forall2
      (fun r r' =>
         label r' = label r /\
         forall c, cell_of out c r' =
                   if String.eqb "image_path" c
                   then Some (VStr (path_join images_path (image_name_of (cell_at i r))))
                   else if String.eqb "image_name" c
                        then Some (VStr (image_name_of (cell_at i r)))
                        else cell_of df c r)
      (filter (fun r => existsb (String.eqb (image_name_of (cell_at i r))) names) (rows df))
      (rows out).
Proof.
  intros Hrect Hi.
  set (cols0 := columns df).
  set (cols1 := columns_with cols0 "image_name").
  set (row1 := fun r => set_cell cols0 "image_name" (VStr (image_name_of (cell_at i r))) r).
  set (row2 := fun r => set_cell cols1 "image_path"
                          (VStr (path_join images_path (image_name_of (cell_at i r)))) r).
  destruct (index_of_columns_with_same cols0 "image_name") as [j Hj]. fold cols1 in Hj.
  assert (Hi1 : index_of "ad_id" cols1 = Some i)
    by (now apply index_of_columns_with).
  (* what a row looks like after the first assignment *)
  assert (Hrow1 : forall r, In r (rows df) ->
            List.length (cells (row1 r)) = List.length cols1 /\
            cell_at j (row1 r) = VStr (image_name_of (cell_at i r)) /\
            cell_at i (row1 r) = cell_at i r /\
            forall c, option_map (fun k => cell_at k (row1 r)) (index_of c cols1)
                      = if String.eqb "image_name" c
                        then Some (VStr (image_name_of (cell_at i r)))
                        else cell_of df c r).
  { intros r Hr. unfold rectangular in Hrect. rewrite Forall_forall in Hrect.
    specialize (Hrect r Hr). fold cols0 in Hrect.
    assert (Hc := cell_of_set_cell cols0 "image_name").
    split; [now apply length_set_cell|]. split; [|split].
    - specialize (Hc "image_name" (VStr (image_name_of (cell_at i r))) r Hrect).
      fold cols1 in Hc. rewrite Hj in Hc. simpl in Hc. now injection Hc.
    - specialize (Hc "ad_id" (VStr (image_name_of (cell_at i r))) r Hrect).
      fold cols1 in Hc. rewrite Hi1 in Hc. unfold cols0 in Hc. rewrite Hi in Hc.
      simpl in Hc. now injection Hc.
    - intros c. apply (Hc c _ r Hrect). }
  unfold join_images.
  rewrite (get_column_index _ _ _ Hi). cbn [rbind].
  rewrite map_map, (set_column_map df "image_name"
                      (fun r => VStr (image_name_of (cell_at i r)))).
  fold cols0 cols1 row1.
  rewrite (get_column_index (mkDF cols1 (map row1 (rows df))) "image_name" j Hj).
  cbn [rbind rows]. unfold isin. rewrite (map_map (cell_at j)).
  rewrite (mask_rows_frame cols1).
  rewrite (get_column_index (mkDF cols1 _) "ad_id" i Hi1). cbn [rbind rows].
  rewrite (map_map (cell_at i)).
  rewrite (set_column_frame cols1 _ "image_path"
             (fun r => VStr (path_join images_path (image_name_of (cell_at i r))))).
  fold row2.
  eexists. split; [reflexivity|]. cbn [rows columns]. split; [reflexivity|].
  rewrite filter_map_comm, map_map.
  assert (Hfilter :
    filter (fun x => existsb (same_key (cell_at j (row1 x))) (map VStr names)) (rows df)
    = filter (fun r => existsb (String.eqb (image_name_of (cell_at i r))) names) (rows df)).
  { apply filter_ext_in. intros r Hr.
    destruct (Hrow1 r Hr) as [_ [Hjr _]]. rewrite Hjr. apply existsb_same_key_str. }
  rewrite Hfilter. apply Forall2_map_right.
  intros r Hr. apply filter_In in Hr. destruct Hr as [Hr _].
  destruct (Hrow1 r Hr) as [Hlen [_ [Hir Hcells]]].
  split.
  - unfold row2, row1. now rewrite !label_set_cell.
  - intros c. unfold cell_of. cbn [columns]. unfold row2.
    rewrite (cell_of_set_cell cols1 "image_path" c _ (row1 r) Hlen).
    rewrite Hir. destruct (String.eqb "image_path" c); [reflexivity|]. apply Hcells.
Qed.

(* ================================================================= *)
(** ** Writing the uploads *)

Lemma world_eta (w : World) : mkWorld (files w) (screen w) = w.
Proof. destruct w; reflexivity. Qed.

Lemma save_uploads_ok (env : Env) (images_path : string) (uploaded_images : list UploadedFile) :
  forall acc w,
    writes_ok env images_path (files w) uploaded_images ->
    save_uploads env images_path uploaded_images acc w =
    (Ok (acc ++ map name uploaded_images),
     mkWorld (files w ++ map (stored images_path) uploaded_images) (screen w)).
Proof.
  induction uploaded_images as [|f l IH]; intros acc w; simpl.
  - intros _. now rewrite !app_nil_r, world_eta.
  - intros [Ho [Hw Hl]]. unfold bind, write_file. rewrite Ho, Hw.
    rewrite IH by exact Hl. cbn [files screen]. unfold stored.
    now rewrite <- !app_assoc.
Qed.

(** The first write that fails ends the loop: the uploads before it are
    stored, then what the failed write leaves; the ones after it are not
    tried. *)
Lemma save_uploads_fail (env : Env) (images_path : string)
  (pre post : list UploadedFile) (f : UploadedFile) (e : exn)
  (left : list (string * list byte)) :
  forall acc w,
    writes_ok env images_path (files w) pre ->
    write_fails env images_path (files w ++ map (stored images_path) pre) f e left ->
    save_uploads env images_path (pre ++ f :: post) acc w =
    (Raise e, mkWorld (files w ++ map (stored images_path) pre ++ left) (screen w)).
Proof.
  induction pre as [|g l IH]; intros acc w; simpl.
  - intros _. rewrite app_nil_r. unfold bind, write_file.
    intros [[Ho ->]|[Ho [n [Hw ->]]]].
    + rewrite Ho. now rewrite app_nil_r, world_eta.
    + rewrite Ho, Hw. reflexivity.
  - intros [Ho [Hw Hl]] Hf. unfold bind, write_file. rewrite Ho, Hw.
    fold (stored images_path g).
    rewrite (IH (acc ++ [name g]) (mkWorld (files w ++ [stored images_path g]) (screen w)) Hl);
      cbn [files screen].
    + now rewrite <- !app_assoc.
    + cbn [files]. now rewrite <- app_assoc.
Qed.

(** Writing the uploads draws nothing. *)
Lemma save_uploads_screen (env : Env) (images_path : string)
  (uploaded_images : list UploadedFile) :
  forall acc w,
    screen (snd (save_uploads env images_path uploaded_images acc w)) = screen w.
Proof.
  induction uploaded_images as [|f l IH]; intros acc w; simpl; [reflexivity|].
  unfold bind, write_file.
  destruct (open_wb_error env (files w) (path_join images_path (name f))); [reflexivity|].
  destruct (write_error env _ _ _) as [[e n]|]; [reflexivity|].
  specialize (IH (acc ++ [name f]) (mkWorld (files w ++ [(path_join images_path (name f), getbuffer f)]) (screen w))).
  destruct (save_uploads env images_path l _ _) as [[a|e] w']; exact IH.
Qed.

(** With a working file system and a table that has an ad_id column, the
    ingest stores every upload, draws nothing and returns the join. *)
Lemma process_uploaded_files_ok (env : Env) (tmp : string)
  (uploaded_images : list UploadedFile) (df out : DataFrame) (w : World) :
  storage_ok env tmp (files w) uploaded_images ->
  join_images (path_join tmp "images") (map name uploaded_images) df = Ok out ->
  has_column df "ad_id" = true ->
  process_uploaded_files env (CsvTable df) uploaded_images w =
  (Ok (Some out),
   mkWorld (files w ++ map (stored (path_join tmp "images")) uploaded_images) (screen w)).
Proof.
  intros [Htmp [Hmk Hw]] Hjoin Hcol.
  unfold process_uploaded_files, try_except, bind, lift. rewrite Htmp, Hmk.
  rewrite (save_uploads_ok env _ _ _ _ Hw). simpl. rewrite Hcol. simpl.
  rewrite Hjoin. reflexivity.
Qed.

(* ================================================================= *)
(** ** Paths and stored files *)

Lemma append_assoc (a b c : string) : ((a ++ b) ++ c = a ++ (b ++ c))%string.
Proof. induction a as [|x a IH]; simpl; [reflexivity|]. now rewrite IH. Qed.

(** [os.path.join(a, b)] always ends in [b]. *)
Lemma path_join_ends_in (a b : string) : ends_in b (path_join a b).
Proof.
  unfold path_join, ends_in.
  destruct (String.prefix "/" b).
  - exists ""%string. reflexivity.
  - destruct (String.eqb a "" || endswith_sep a).
    + exists a. reflexivity.
    + exists (a ++ "/")%string. now rewrite append_assoc.
Qed.

(** A path that was written can be read back. *)
Lemma read_file_written (fs : list (string * list byte)) (s : list widget)
  (path : string) (data : list byte) :
  In (path, data) fs -> exists data', read_file (mkWorld fs s) path = Some data'.
Proof.
  intros Hin. unfold read_file. cbn [files].
  destruct (find (fun f => String.eqb (fst f) path) (rev fs)) as [f|] eqn:Hf.
  - exists (snd f). reflexivity.
  - apply find_none with (x := (path, data)) in Hf.
    + simpl in Hf. now rewrite String.eqb_refl in Hf.
    + now apply in_rev in Hin.
Qed.

(** Reading after one more write: the path written holds the new bytes,
    every other path what it held. *)
Lemma read_file_last (fs : list (string * list byte)) (s : list widget)
  (path : string) (data : list byte) :
  read_file (mkWorld (fs ++ [(path, data)]) s) path = Some data.
Proof.
  unfold read_file. cbn [files]. rewrite rev_app_distr. simpl.
  now rewrite String.eqb_refl.
Qed.

Lemma read_file_other (fs : list (string * list byte)) (s s' : list widget)
  (path path' : string) (data : list byte) :
  path' <> path ->
  read_file (mkWorld (fs ++ [(path, data)]) s) path' = read_file (mkWorld fs s') path'.
Proof.
  intros H. unfold read_file. cbn [files]. rewrite rev_app_distr. simpl.
  apply String.eqb_neq in H. rewrite String.eqb_sym in H. now rewrite H.
Qed.

Lemma is_uploaded_cells (df : DataFrame) (uploaded_images : list UploadedFile) (i : nat) :
  index_of "ad_id" (columns df) = Some i ->
  forall r, is_uploaded df uploaded_images r
            = existsb (String.eqb (image_name_of (cell_at i r))) (map name uploaded_images).
Proof. intros H r. unfold is_uploaded, cell_of. now rewrite H. Qed.

Lemma index_of_none_iff (c : string) (cols : list string) :
  index_of c cols = None <-> ~ In c cols.
Proof.
  induction cols as [|d cols IH]; simpl.
  - split; [intros _ []|reflexivity].
  - destruct (String.eqb d c) eqn:E.
    + apply String.eqb_eq in E. subst d.
      split; [discriminate|]. intros H. exfalso. apply H. now left.
    + apply String.eqb_neq in E.
      destruct (index_of c cols) as [j|]; simpl.
      * split; [discriminate|]. intros H. exfalso.
        destruct (in_dec string_dec c cols) as [Hin|Hin].
        -- apply H. now right.
        -- apply IH in Hin. discriminate.
      * split; [|reflexivity]. intros _ [Hd|Hin]; [contradiction|].
        now apply (proj1 IH).
Qed.

Lemma columns_with_in (cols : list string) (col : string) :
  In col cols -> columns_with cols col = cols.
Proof.
  intros H. unfold columns_with. destruct (index_of col cols) eqn:E; [reflexivity|].
  apply index_of_none_iff in E. contradiction.
Qed.

Lemma columns_with_notin (cols : list string) (col : string) :
  ~ In col cols -> columns_with cols col = cols ++ [col].
Proof.
  intros H. unfold columns_with. apply index_of_none_iff in H. now rewrite H.
Qed.

(** The two assignments of the join append the columns the CSV lacks. *)
Lemma join_columns (cols : list string) :
  columns_with (columns_with cols "image_name") "image_path" = cols ++ new_columns cols.
Proof.
  unfold new_columns. cbn [filter].
  destruct (in_dec string_dec "image_name" cols) as [H1|H1],
           (in_dec string_dec "image_path" cols) as [H2|H2].
  - rewrite (columns_with_in _ _ H1), (columns_with_in _ _ H2). now rewrite app_nil_r.
  - rewrite (columns_with_in _ _ H1), (columns_with_notin _ _ H2). reflexivity.
  - rewrite (columns_with_notin _ _ H1). rewrite columns_with_in.
    + reflexivity.
    + apply in_or_app. now left.
  - rewrite (columns_with_notin _ _ H1). rewrite columns_with_notin.
    + now rewrite <- app_assoc.
    + intros H. apply in_app_or in H. destruct H as [H|[H|[]]]; [contradiction|discriminate].
Qed.

(* ================================================================= *)
(** ** The ingest *)

(** C1. With a working file system, on a CSV table that has an ad_id
    column, [process_uploaded_files] returns a dataset whose rows are, one
    for one and in order, the rows of the table whose file name
    "{ad_id}.png" is the name of an upload: no such row is dropped and no
    other row is kept. Each row of the dataset keeps its ad_id and carries
    under image_path a path that ends in "{ad_id}.png" and under which an
    upload was stored. *)
Theorem process_uploaded_files_joins (env : Env) (tmp : string)
  (uploaded_images : list UploadedFile) (df : DataFrame) (w : World) :
  storage_ok env tmp (files w) uploaded_images ->
  rectangular df ->
  has_column df "ad_id" = true ->
  exists out w',
    process_uploaded_files env (CsvTable df) uploaded_images w = (Ok (Some out), w') /\
    map label (rows out) = map label (rows_where (is_uploaded df uploaded_images) df) /\
    (forall r, In r (rows df) ->
       is_uploaded df uploaded_images r = true <->
       In r (rows_where (is_uploaded df uploaded_images) df)) /\
    Forall2
      (fun r r' =>
         label r' = label r /\
         exists x p,
           cell_of df "ad_id" r = Some x /\
           cell_of out "ad_id" r' = Some x /\
           cell_of out "image_path" r' = Some (VStr p) /\
           ends_in (image_name_of x) p /\
           exists data, read_file w' p = Some data)
      (rows_where (is_uploaded df uploaded_images) df) (rows out).
Proof.
  intros Hst Hrect Hcol.
  destruct (has_column_index _ _ Hcol) as [i Hi].
  destruct (join_images_rows (path_join tmp "images") (map name uploaded_images)
              df i Hrect Hi) as [out [Hjoin [_ Hrows]]].
  exists out. eexists.
  split; [exact (process_uploaded_files_ok env tmp _ df out w Hst Hjoin Hcol)|].
  unfold rows_where.
  rewrite (filter_ext _ _ (is_uploaded_cells df uploaded_images i Hi)).
  split; [|split].
  - clear -Hrows. induction Hrows as [|r r' l l' [Hl _] _ IH]; simpl; [reflexivity|].
    now rewrite Hl, IH.
  - intros r Hr. rewrite filter_In, (is_uploaded_cells df uploaded_images i Hi). tauto.
  - assert (Hup : forall r, In r (filter (fun r => existsb (String.eqb (image_name_of (cell_at i r)))
                                     (map name uploaded_images)) (rows df)) ->
                  existsb (String.eqb (image_name_of (cell_at i r)))
                          (map name uploaded_images) = true)
      by (intros r Hr; now apply filter_In in Hr).
    revert Hup. induction Hrows as [|r r' l l' [Hl Hc] _ IH]; intros Hup; constructor.
    + split; [exact Hl|].
      exists (cell_at i r),
             (path_join (path_join tmp "images") (image_name_of (cell_at i r))).
      split; [unfold cell_of; now rewrite Hi|].
      split; [rewrite (Hc "ad_id"); simpl; unfold cell_of; now rewrite Hi|].
      split; [rewrite (Hc "image_path"); reflexivity|].
      split; [apply path_join_ends_in|].
      specialize (Hup r (or_introl eq_refl)).
      apply existsb_exists in Hup. destruct Hup as [n [Hn Heq]].
      apply String.eqb_eq in Heq. apply in_map_iff in Hn. destruct Hn as [f [Hf Hin]].
      apply (read_file_written _ _ _ (getbuffer f)).
      apply in_or_app. right. apply in_map_iff. exists f. split; [|exact Hin].
      unfold stored. now rewrite Hf, <- Heq.
    + apply IH. intros r0 Hr0. apply Hup. now right.
Qed.

Lemma process_uploaded_files_joins_witness :
  exists out w',
    process_uploaded_files Examples.env0 (CsvTable Examples.csv_scenario)
      Examples.uploads12 Examples.w0 = (Ok (Some out), w') /\
    map label (rows out) = [0%nat; 1%nat].
Proof.
  assert (Hst : storage_ok Examples.env0 "/tmp/t" [] Examples.uploads12).
  { repeat split. }
  assert (Hrect : rectangular Examples.csv_scenario) by (repeat constructor).
  destruct (process_uploaded_files_joins Examples.env0 "/tmp/t" Examples.uploads12
              Examples.csv_scenario Examples.w0 Hst Hrect eq_refl)
    as [out [w' [H [Hl _]]]].
  exists out, w'. split; [exact H|]. rewrite Hl. reflexivity.
Defined.

(** C10, as the code has it. The join keeps the surviving rows in their
    order and leaves unchanged the cells of every column other than
    image_name and image_path. It writes both of these in every row: the
    file name "{ad_id}.png" of the row, and that name under the images
    directory. The columns of the dataset are those of the CSV followed by
    the ones of image_name, image_path that the CSV did not have; a column
    of that name that the CSV had keeps its place and is overwritten. *)
Theorem process_uploaded_files_frame (env : Env) (tmp : string)
  (uploaded_images : list UploadedFile) (df : DataFrame) (w : World) :
  storage_ok env tmp (files w) uploaded_images ->
  rectangular df ->
  has_column df "ad_id" = true ->
  exists out w',
    process_uploaded_files env (CsvTable df) uploaded_images w = (Ok (Some out), w') /\
    columns out = columns df ++ new_columns (columns df) /\
    Forall2
      (fun r r' =>
         label r' = label r /\
         (forall c, c <> "image_name" -> c <> "image_path" ->
                    cell_of out c r' = cell_of df c r) /\
         exists x,
           cell_of df "ad_id" r = Some x /\
           cell_of out "image_name" r' = Some (VStr (image_name_of x)) /\
           cell_of out "image_path" r'
           = Some (VStr (path_join (path_join tmp "images") (image_name_of x))))
      (rows_where (is_uploaded df uploaded_images) df) (rows out).
Proof.
  intros Hst Hrect Hcol.
  destruct (has_column_index _ _ Hcol) as [i Hi].
  destruct (join_images_rows (path_join tmp "images") (map name uploaded_images)
              df i Hrect Hi) as [out [Hjoin [Hcols Hrows]]].
  exists out. eexists.
  split; [exact (process_uploaded_files_ok env tmp _ df out w Hst Hjoin Hcol)|].
  split.
  - rewrite Hcols. apply join_columns.
  - unfold rows_where.
    rewrite (filter_ext _ _ (is_uploaded_cells df uploaded_images i Hi)).
    induction Hrows as [|r r' l l' [Hl Hc] _ IH]; constructor; [|exact IH].
    split; [exact Hl|]. split.
    + intros c Hn Hp. rewrite (Hc c).
      apply String.eqb_neq in Hn, Hp.
      rewrite String.eqb_sym in Hn. rewrite String.eqb_sym in Hp.
      now rewrite Hn, Hp.
    + exists (cell_at i r). split; [unfold cell_of; now rewrite Hi|].
      split; [rewrite (Hc "image_name")|rewrite (Hc "image_path")]; reflexivity.
Qed.

Lemma process_uploaded_files_frame_witness :
  exists out w',
    process_uploaded_files Examples.env0 (CsvTable Examples.csv_scenario)
      Examples.uploads12 Examples.w0 = (Ok (Some out), w') /\
    columns out = ["ad_id"; "pagename"; "cluster"; "image_name"; "image_path"] /\
    Forall2 (fun r r' => cell_of out "image_name" r' = Some (VStr (image_name_of (cell_at 0 r))))
            [mkRow 0 [VInt 1; VStr "A"; VInt 0]; mkRow 1 [VInt 2; VStr "A"; VInt 0]]
            (rows out).
Proof.
  assert (Hst : storage_ok Examples.env0 "/tmp/t" [] Examples.uploads12).
  { repeat split. }
  assert (Hrect : rectangular Examples.csv_scenario) by (repeat constructor).
  destruct (process_uploaded_files_frame Examples.env0 "/tmp/t" Examples.uploads12
              Examples.csv_scenario Examples.w0 Hst Hrect eq_refl)
    as [out [w' [H [Hcols Hrows]]]].
  exists out, w'. split; [exact H|]. split; [exact Hcols|].
  eapply Forall2_impl; [|exact Hrows].
  intros r r' [_ [_ [x [Hx [Hn _]]]]]. rewrite Hn.
  unfold cell_of in Hx. simpl in Hx. injection Hx as <-. reflexivity.
Defined.

(** C10, as the claim has it, fails: a CSV that has a column image_name
    gets the cells of that column overwritten. *)
Lemma process_uploaded_files_overwrites_image_name :
  In "image_name" (columns Examples.csv_with_image_name) /\
  cell_of Examples.csv_with_image_name "image_name" (mkRow 0 [VInt 1; VStr "original.jpg"])
  = Some (VStr "original.jpg") /\
  exists out w',
    process_uploaded_files Examples.env0 (CsvTable Examples.csv_with_image_name)
      [mkUpload "1.png" [x01]] Examples.w0 = (Ok (Some out), w') /\
    exists r', rows out = [r'] /\ label r' = 0%nat /\
               cell_of out "image_name" r' = Some (VStr "1.png").
Proof.
  split; [right; now left|]. split; [reflexivity|].
  eexists. eexists. split; [vm_compute; reflexivity|].
  eexists. split; [reflexivity|]. split; reflexivity.
Qed.

(* ================================================================= *)
(** ** Failures of the ingest *)

(** C4, as the code has it. The uploads are written inside the one [try]
    of [process_uploaded_files]: the first write that fails ends the
    ingest, whatever the CSV holds. One error is drawn and no dataset is
    returned. The file system then holds the uploads before the failing
    one, in their order, followed by what the failed write leaves: nothing
    when [open] failed, else the file of the failing upload with the bytes
    that reached it. So the uploads after it are not written; under the
    path of the failing upload is the partial file, also when an earlier
    upload had been stored there; every other path reads as it did after
    the uploads before the failure. *)
Theorem write_failure_aborts_ingest (env : Env) (tmp : string)
  (pre post : list UploadedFile) (f : UploadedFile) (e : exn)
  (left : list (string * list byte)) (uploaded_csv : UploadedCsv) (w : World) :
  mkdtemp env = Ok tmp ->
  makedirs_error env (path_join tmp "images") = None ->
  writes_ok env (path_join tmp "images") (files w) pre ->
  write_fails env (path_join tmp "images")
              (files w ++ map (stored (path_join tmp "images")) pre) f e left ->
  exists w',
    process_uploaded_files env uploaded_csv (pre ++ f :: post) w = (Ok None, w') /\
    screen w' = screen w ++ [StError ("Error processing files: " ++ exn_msg e)] /\
    files w' = files w ++ map (stored (path_join tmp "images")) pre ++ left /\
    (forall data, left = [(path_join (path_join tmp "images") (name f), data)] ->
       read_file w' (path_join (path_join tmp "images") (name f)) = Some data) /\
    (forall path, path <> path_join (path_join tmp "images") (name f) \/ left = [] ->
       read_file w' path
       = read_file (mkWorld (files w ++ map (stored (path_join tmp "images")) pre) []) path).
Proof.
  intros Htmp Hmk Hpre Hf.
  eexists. split.
  - unfold process_uploaded_files, try_except, bind, lift. rewrite Htmp, Hmk.
    rewrite (save_uploads_fail env _ pre post f e left _ _ Hpre Hf). reflexivity.
  - cbn [files screen]. split; [reflexivity|]. split; [reflexivity|]. split.
    + intros data ->. rewrite app_assoc. apply read_file_last.
    + intros path Hpath. destruct Hf as [[_ ->]|[_ [n [_ ->]]]].
      * now rewrite app_nil_r.
      * destruct Hpath as [Hpath|Hnil]; [|discriminate].
        rewrite app_assoc. now apply read_file_other.
Qed.

Lemma write_failure_aborts_ingest_witness :
  exists w',
    process_uploaded_files Examples.env_disk_fills (CsvTable Examples.csv_scenario)
      (Examples.uploads_same_name ++ [mkUpload "2.png" [x02]]) Examples.w0 = (Ok None, w') /\
    files w' = [("/tmp/t/images/1.png", [x01; x02]); ("/tmp/t/images/1.png", [x03])] /\
    read_file w' "/tmp/t/images/1.png" = Some [x03].
Proof.
  destruct (write_failure_aborts_ingest Examples.env_disk_fills "/tmp/t"
              [mkUpload "1.png" [x01; x02]] [mkUpload "2.png" [x02]]
              (mkUpload "1.png" [x03; x04]) Examples.ENOSPC
              [("/tmp/t/images/1.png", [x03])]
              (CsvTable Examples.csv_scenario) Examples.w0
              eq_refl eq_refl)
    as [w' [Hrun [_ [Hfiles [Hread _]]]]].
  - repeat split.
  - right. split; [reflexivity|]. exists 1%nat. split; reflexivity.
  - exists w'. split; [exact Hrun|]. split; [exact Hfiles|]. exact (Hread [x03] eq_refl).
Defined.

(** C4, as the claim has it, fails: when the write of 1.png fails, 2.png,
    which could be written, is not written, and no dataset is produced
    although the row of ad 2 has its image among the uploads. *)
Lemma write_failure_is_not_per_file :
  (forall fs, open_wb_error Examples.env_disk_full fs "/tmp/t/images/2.png" = None) /\
  (forall fs data, write_error Examples.env_disk_full fs "/tmp/t/images/2.png" data = None) /\
  exists w',
    process_uploaded_files Examples.env_disk_full (CsvTable Examples.csv_scenario)
      Examples.uploads12 Examples.w0 = (Ok None, w') /\
    read_file w' "/tmp/t/images/2.png" = None /\
    files w' = [].
Proof.
  split; [reflexivity|]. split; [reflexivity|].
  eexists. split; [vm_compute; reflexivity|].
  split; reflexivity.
Qed.

(** Whatever the file system does, a CSV table without ad_id column gives
    no dataset and exactly one error. *)
Lemma process_uploaded_files_no_ad_id (env : Env) (df : DataFrame)
  (uploaded_images : list UploadedFile) (w : World) :
  has_column df "ad_id" = false ->
  exists msg fs,
    process_uploaded_files env (CsvTable df) uploaded_images w =
    (Ok None, mkWorld fs (screen w ++ [StError msg])) /\
    (forall tmp, storage_ok env tmp (files w) uploaded_images -> msg = missing_ad_id).
Proof.
  intros Hcol. unfold process_uploaded_files, try_except, bind, lift.
  destruct (mkdtemp env) as [tmp|e] eqn:Htmp.
  - destruct (makedirs_error env (path_join tmp "images")) as [e|] eqn:Hmk.
    + do 2 eexists. split; [reflexivity|].
      intros tmp' [Htmp' [Hmk' _]]. congruence.
    + pose proof (save_uploads_screen env (path_join tmp "images") uploaded_images [] w)
        as Hscr.
      destruct (save_uploads env (path_join tmp "images") uploaded_images [] w)
        as [[names|e] w1] eqn:Hsave; simpl in Hscr.
      * simpl. rewrite Hcol. simpl. unfold st_error, draw. rewrite Hscr.
        do 2 eexists. split; [reflexivity|]. reflexivity.
      * unfold st_error, draw. rewrite Hscr.
        do 2 eexists. split; [reflexivity|].
        intros tmp' [Htmp' [_ Hw]]. assert (tmp' = tmp) by congruence. subst tmp'.
        rewrite (save_uploads_ok env _ _ _ _ Hw) in Hsave. discriminate.
  - do 2 eexists. split; [reflexivity|]. intros tmp [Htmp' _]. congruence.
Qed.

(** C5. On a CSV table without ad_id column [process_uploaded_files]
    returns no dataset and draws one error, which is the missing-column
    message when the file system works; [main] then draws its title and
    that error and nothing else: no distribution table, no brand view, no
    preview. *)
Theorem missing_ad_id_stops_the_page (env : Env) (df : DataFrame)
  (uploaded_images : list UploadedFile) (w : World) :
  has_column df "ad_id" = false ->
  (exists msg fs,
     process_uploaded_files env (CsvTable df) uploaded_images w =
     (Ok None, mkWorld fs (screen w ++ [StError msg])) /\
     (forall tmp, storage_ok env tmp (files w) uploaded_images -> msg = missing_ad_id)) /\
  (uploaded_images <> [] ->
   exists msg fs,
     main env (Some (CsvTable df)) uploaded_images w =
     (Ok tt, mkWorld fs (screen w ++ [StTitle "Brand Image Browser"; StError msg])) /\
     (forall tmp, storage_ok env tmp (files w) uploaded_images -> msg = missing_ad_id)) /\
  (forall fs drawn,
     main env (Some (CsvTable df)) uploaded_images w
     = (Ok tt, mkWorld fs (screen w ++ drawn)) ->
     forallb (fun x => negb (is_view x)) drawn = true).
Proof.
  intros Hcol. split; [now apply process_uploaded_files_no_ad_id|].
  assert (Hmain : uploaded_images <> [] ->
    exists msg fs,
     main env (Some (CsvTable df)) uploaded_images w =
     (Ok tt, mkWorld fs (screen w ++ [StTitle "Brand Image Browser"; StError msg])) /\
     (forall tmp, storage_ok env tmp (files w) uploaded_images -> msg = missing_ad_id)).
  { intros Hne. destruct uploaded_images as [|f l]; [congruence|].
    destruct (process_uploaded_files_no_ad_id env df (f :: l)
                (mkWorld (files w) (screen w ++ [StTitle "Brand Image Browser"])) Hcol)
      as [msg [fs [Hp Hmsg]]].
    exists msg, fs. split; [|exact Hmsg].
    unfold main, try_except, bind, st_title, draw. rewrite Hp. cbn [screen].
    unfold ret. now rewrite <- app_assoc. }
  split; [exact Hmain|].
  intros fs drawn Hrun. destruct uploaded_images as [|f l].
  - unfold main, try_except, bind, st_title, st_warning, draw in Hrun. cbn in Hrun.
    injection Hrun as _ Hscr. rewrite <- app_assoc in Hscr.
    apply app_inv_head in Hscr. subst drawn. reflexivity.
  - destruct (Hmain ltac:(discriminate)) as [msg [fs' [Hm _]]].
    rewrite Hm in Hrun. injection Hrun as _ Hscr.
    apply app_inv_head in Hscr. subst drawn. reflexivity.
Qed.

Lemma missing_ad_id_stops_the_page_witness :
  exists fs,
    main Examples.env0 (Some (CsvTable (mkDF ["pagename"] [mkRow 0 [VStr "A"]])))
      Examples.uploads12 Examples.w0 =
    (Ok tt, mkWorld fs [StTitle "Brand Image Browser"; StError missing_ad_id]).
Proof.
  destruct (missing_ad_id_stops_the_page Examples.env0
              (mkDF ["pagename"] [mkRow 0 [VStr "A"]]) Examples.uploads12 Examples.w0
              eq_refl) as [_ [H _]].
  destruct (H ltac:(discriminate)) as [msg [fs [Hm Hmsg]]].
  assert (Hst : storage_ok Examples.env0 "/tmp/t" [] Examples.uploads12).
  { repeat split. }
  rewrite (Hmsg "/tmp/t" Hst) in Hm.
  exists fs. exact Hm.
Defined.

(* ================================================================= *)
(** ** Sorting and sums *)

Section Sorting.

Context {A : Type} (leb : A -> A -> bool).

Lemma insert_by_perm (x : A) (l : list A) : Permutation (insert_by leb x l) (x :: l).
Proof.
  induction l as [|y l IH]; simpl; [apply Permutation_refl|].
  destruct (leb x y); [apply Permutation_refl|].
  eapply Permutation_trans; [apply perm_skip, IH|apply perm_swap].
Qed.

Lemma sort_by_perm (l : list A) : Permutation (sort_by leb l) l.
Proof.
  induction l as [|x l IH]; simpl; [constructor|].
  eapply Permutation_trans; [apply insert_by_perm|now apply perm_skip].
Qed.

Hypothesis leb_total : forall a b, leb a b = false -> leb b a = true.

Lemma insert_by_sorted (x : A) (l : list A) :
  Sorted (fun a b => leb a b = true) l ->
  Sorted (fun a b => leb a b = true) (insert_by leb x l).
Proof.
  induction 1 as [|y l Hs IH Hhd]; simpl.
  - repeat constructor.
  - destruct (leb x y) eqn:E.
    + constructor; [now constructor|now constructor].
    + constructor; [exact IH|].
      destruct l as [|z l]; simpl.
      * constructor. now apply leb_total.
      * destruct (leb x z); constructor; [now apply leb_total|].
        now inversion Hhd.
Qed.

Lemma sort_by_sorted (l : list A) : Sorted (fun a b => leb a b = true) (sort_by leb l).
Proof.
  induction l as [|x l IH]; simpl; [constructor|now apply insert_by_sorted].
Qed.

End Sorting.

Lemma zsum_app (l l' : list Z) : zsum (l ++ l') = (zsum l + zsum l')%Z.
Proof. induction l as [|x l IH]; simpl; [reflexivity|]. rewrite IH. lia. Qed.

Lemma zsum_perm (l l' : list Z) : Permutation l l' -> zsum l = zsum l'.
Proof. induction 1; simpl; lia. Qed.

Lemma zsum_map_add {A : Type} (f g : A -> Z) (l : list A) :
  zsum (map (fun x => (f x + g x)%Z) l) = (zsum (map f l) + zsum (map g l))%Z.
Proof. induction l as [|x l IH]; simpl; [reflexivity|]. rewrite IH. lia. Qed.

Lemma zsum_map_scale {A : Type} (k : Z) (f : A -> Z) (l : list A) :
  zsum (map (fun x => (k * f x)%Z) l) = (k * zsum (map f l))%Z.
Proof. induction l as [|x l IH]; simpl; [lia|]. rewrite IH. lia. Qed.

Lemma zsum_map_ext_in {A : Type} (f g : A -> Z) (l : list A) :
  (forall x, In x l -> f x = g x) -> zsum (map f l) = zsum (map g l).
Proof. intros H. f_equal. now apply map_ext_in. Qed.

Lemma count_where_cons {A : Type} (p : A -> bool) (x : A) (l : list A) :
  count_where p (x :: l) = (Z.b2z (p x) + count_where p l)%Z.
Proof.
  unfold count_where. simpl. destruct (p x); simpl List.length; simpl Z.b2z; lia.
Qed.

Lemma count_where_b2z {A : Type} (p : A -> bool) (l : list A) :
  count_where p l = zsum (map (fun x => Z.b2z (p x)) l).
Proof.
  induction l as [|x l IH]; [reflexivity|].
  rewrite count_where_cons, IH. reflexivity.
Qed.

Lemma count_where_perm {A : Type} (p : A -> bool) (l l' : list A) :
  Permutation l l' -> count_where p l = count_where p l'.
Proof.
  intros H. rewrite !count_where_b2z. apply zsum_perm. now apply Permutation_map.
Qed.

Lemma count_where_none {A : Type} (p : A -> bool) (l : list A) :
  (forall x, In x l -> p x = false) -> count_where p l = 0%Z.
Proof.
  induction l as [|x l IH]; intros H; [reflexivity|].
  rewrite count_where_cons, IH, (H x); [reflexivity|now left|].
  intros y Hy. apply H. now right.
Qed.

Lemma count_where_filter {A : Type} (p q : A -> bool) (l : list A) :
  count_where p (filter q l) = count_where (fun x => q x && p x) l.
Proof.
  induction l as [|x l IH]; [reflexivity|]. simpl filter.
  destruct (q x) eqn:E; rewrite ?count_where_cons, IH, ?E; reflexivity.
Qed.

Lemma count_where_ext {A : Type} (p q : A -> bool) (l : list A) :
  (forall x, p x = q x) -> count_where p l = count_where q l.
Proof. intros H. unfold count_where. now rewrite (filter_ext _ _ H). Qed.

Lemma count_where_pos {A : Type} (p : A -> bool) (l : list A) :
  (0 < count_where p l)%Z -> exists x, In x l /\ p x = true.
Proof.
  induction l as [|x l IH]; [unfold count_where; simpl; lia|].
  rewrite count_where_cons. destruct (p x) eqn:E.
  - intros _. exists x. split; [now left|exact E].
  - simpl. intros H. destruct (IH H) as [y [Hy Hp]]. exists y. split; [now right|exact Hp].
Qed.

(* ================================================================= *)
(** ** Group keys *)

Lemma unique_by_incl (eqb : value -> value -> bool) (l : list value) (x : value) :
  In x (unique_by eqb l) -> In x l.
Proof.
  induction l as [|y l IH]; simpl; [tauto|].
  intros [H|H]; [now left|]. apply filter_In in H. right. now apply IH.
Qed.

(** Among the distinct values of [l], exactly one equals a key of [l]. *)
Lemma unique_by_once (k : value) (l : list value) :
  count_where (py_eqb k) (unique_by py_eqb l) = Z.b2z (existsb (py_eqb k) l).
Proof.
  induction l as [|a l IH]; [reflexivity|].
  simpl unique_by. simpl existsb. rewrite count_where_cons, count_where_filter.
  destruct (py_eqb k a) eqn:E; simpl.
  - rewrite count_where_none; [reflexivity|].
    intros y _. destruct (py_eqb a y) eqn:Ea; [reflexivity|]. simpl.
    destruct (py_eqb k y) eqn:Ek; [|reflexivity].
    rewrite py_eqb_sym in E. now rewrite (py_eqb_trans a k y E Ek) in Ea.
  - rewrite <- IH. apply count_where_ext. intros y.
    destruct (py_eqb k y) eqn:Ek; [|now rewrite andb_false_r].
    destruct (py_eqb a y) eqn:Ea; [|reflexivity].
    rewrite py_eqb_sym in Ea. now rewrite (py_eqb_trans k y a Ek Ea) in E.
Qed.

Lemma existsb_py_eqb_in (k : value) (l : list value) :
  In k l -> notna k = true -> existsb (py_eqb k) l = true.
Proof.
  intros Hin Hna. apply existsb_exists. exists k. split; [exact Hin|].
  now apply py_eqb_refl.
Qed.

Lemma group_keys_once (k : value) (keys : list value) :
  In k keys -> notna k = true -> occurs_once k (group_keys keys).
Proof.
  intros Hin Hna. unfold occurs_once, group_keys.
  rewrite (count_where_perm _ _ _ (sort_by_perm key_leb _)), unique_by_once.
  now rewrite existsb_py_eqb_in.
Qed.

Lemma group_keys_incl (k : value) (keys : list value) :
  In k (group_keys keys) -> In k keys.
Proof.
  intros H. unfold group_keys in H.
  apply (Permutation_in _ (sort_by_perm key_leb _)) in H.
  now apply unique_by_incl in H.
Qed.

(* ================================================================= *)
(** ** Counting by group and cluster *)

Lemma zsum_map_zero {A : Type} (f : A -> Z) (l : list A) :
  (forall x, f x = 0%Z) -> zsum (map f l) = 0%Z.
Proof. intros H. induction l as [|x l IH]; simpl; [reflexivity|]. rewrite H, IH. lia. Qed.

Lemma count_where_map {A B : Type} (p : B -> bool) (f : A -> B) (l : list A) :
  count_where p (map f l) = count_where (fun x => p (f x)) l.
Proof.
  unfold count_where. now rewrite filter_map_comm, length_map.
Qed.

Lemma count_cell_cons (o : Obs) (L : list Obs) (g c : value) :
  count_cell (o :: L) g c
  = (Z.b2z (py_eqb (obs_index o) g) * (Z.b2z (notna (obs_value o))
       * Z.b2z (py_eqb (obs_column o) c)) + count_cell L g c)%Z.
Proof.
  unfold count_cell. rewrite count_where_cons. f_equal.
  destruct (py_eqb (obs_index o) g), (py_eqb (obs_column o) c), (notna (obs_value o));
    reflexivity.
Qed.

(** Every observation falls in exactly one cell of the table, so the cells
    add up to the observations that have a value. *)
Lemma double_count (G C : list value) (L : list Obs) :
  (forall o, In o L -> occurs_once (obs_index o) G /\ occurs_once (obs_column o) C) ->
  zsum (map (fun g => zsum (map (count_cell L g) C)) G)
  = count_where (fun o => notna (obs_value o)) L.
Proof.
  induction L as [|o L IH]; intros H.
  - apply zsum_map_zero. intros g. now apply zsum_map_zero.
  - rewrite count_where_cons, <- IH by (intros o' Ho'; apply H; now right).
    destruct (H o (or_introl eq_refl)) as [HG HC].
    unfold occurs_once in HG, HC. rewrite count_where_b2z in HG, HC.
    rewrite (zsum_map_ext_in _
               (fun g => (Z.b2z (notna (obs_value o)) * Z.b2z (py_eqb (obs_index o) g)
                          + zsum (map (count_cell L g) C))%Z)).
    + rewrite zsum_map_add, zsum_map_scale, HG. lia.
    + intros g _.
      rewrite (zsum_map_ext_in _
                 (fun c => ((Z.b2z (py_eqb (obs_index o) g) * Z.b2z (notna (obs_value o)))
                              * Z.b2z (py_eqb (obs_column o) c)
                            + count_cell L g c)%Z)).
      * rewrite zsum_map_add, zsum_map_scale, HC. lia.
      * intros c _. rewrite count_cell_cons. lia.
Qed.

Section Pivot.

Variable df : DataFrame.
Variables iv ig ic : nat.
Hypothesis Hv : index_of "ad_id" (columns df) = Some iv.
Hypothesis Hg : index_of "pagename" (columns df) = Some ig.
Hypothesis Hc : index_of "cluster" (columns df) = Some ic.

Lemma keyed_cells (r : Row) :
  keyed df r = notna (cell_at ig r) && notna (cell_at ic r).
Proof. unfold keyed, cell_of. now rewrite Hg, Hc. Qed.

Lemma counted_cells (r : Row) :
  counted df r = notna (cell_at ig r) && notna (cell_at ic r) && notna (cell_at iv r).
Proof. unfold counted. rewrite keyed_cells. unfold cell_of. now rewrite Hv. Qed.

Lemma in_cell_cells (g c : value) (r : Row) :
  in_cell df g c r = py_eqb (cell_at ig r) g && py_eqb (cell_at ic r) c.
Proof. unfold in_cell, cell_of. now rewrite Hg, Hc. Qed.

Lemma grouped_obs_rows :
  grouped_obs iv ig ic df
  = map (fun r => mkObs (cell_at iv r) (cell_at ig r) (cell_at ic r))
        (rows_where (keyed df) df).
Proof.
  unfold grouped_obs, rows_where. rewrite filter_map_comm. f_equal.
  apply filter_ext. intros r. now rewrite keyed_cells.
Qed.

Lemma obs_index_keyed : map obs_index (grouped_obs iv ig ic df) = keyed_groups df.
Proof.
  rewrite grouped_obs_rows, map_map. unfold keyed_groups. apply map_ext.
  intros r. unfold cell_or_nan, cell_of. now rewrite Hg.
Qed.

Lemma obs_column_keyed : map obs_column (grouped_obs iv ig ic df) = keyed_clusters df.
Proof.
  rewrite grouped_obs_rows, map_map. unfold keyed_clusters. apply map_ext.
  intros r. unfold cell_or_nan, cell_of. now rewrite Hc.
Qed.

Lemma keyed_groups_notna (g : value) : In g (keyed_groups df) -> notna g = true.
Proof.
  unfold keyed_groups, rows_where. rewrite in_map_iff.
  intros [r [<- Hr]]. apply filter_In in Hr. destruct Hr as [_ Hk].
  rewrite keyed_cells in Hk. apply andb_true_iff in Hk.
  unfold cell_or_nan, cell_of. rewrite Hg. apply Hk.
Qed.

Lemma keyed_clusters_notna (c : value) : In c (keyed_clusters df) -> notna c = true.
Proof.
  unfold keyed_clusters, rows_where. rewrite in_map_iff.
  intros [r [<- Hr]]. apply filter_In in Hr. destruct Hr as [_ Hk].
  rewrite keyed_cells in Hk. apply andb_true_iff in Hk.
  unfold cell_or_nan, cell_of. rewrite Hc. apply Hk.
Qed.

(** A cell of the pivot counts the rows of its group and cluster that have
    an identifier. *)
Lemma count_cell_rows (g c : value) :
  count_cell (grouped_obs iv ig ic df) g c
  = count_where (fun r => in_cell df g c r && notna (cell_at iv r)) (rows df).
Proof.
  unfold count_cell, grouped_obs. rewrite count_where_filter, count_where_map.
  apply count_where_ext. intros r. cbn [obs_index obs_column obs_value].
  rewrite in_cell_cells.
  destruct (py_eqb (cell_at ig r) g) eqn:E1; [|now rewrite andb_false_r].
  destruct (py_eqb (cell_at ic r) c) eqn:E2; [|now rewrite andb_false_r].
  apply py_eqb_notna in E1, E2. destruct E1 as [-> _], E2 as [-> _]. reflexivity.
Qed.

Lemma cluster_pivot_eq :
  cluster_pivot df =
  Ok (mkCT (group_keys (keyed_clusters df))
           (map (fun g => (g, map (count_cell (grouped_obs iv ig ic df) g)
                                  (group_keys (keyed_clusters df))))
                (group_keys (keyed_groups df)))).
Proof.
  unfold cluster_pivot, pivot_table_count, column_index. rewrite Hv, Hg, Hc.
  cbn [rbind]. now rewrite obs_index_keyed, obs_column_keyed.
Qed.

(** The cells of the pivot add up to the counted rows. *)
Lemma pivot_cells_total :
  zsum (map (fun g => zsum (map (count_cell (grouped_obs iv ig ic df) g)
                                (group_keys (keyed_clusters df))))
            (group_keys (keyed_groups df)))
  = Z.of_nat (List.length (rows_where (counted df) df)).
Proof.
  rewrite double_count.
  - unfold grouped_obs. rewrite count_where_filter, count_where_map.
    unfold count_where, rows_where. do 2 f_equal. apply filter_ext. intros r.
    cbn [obs_index obs_column obs_value]. now rewrite counted_cells.
  - intros o Ho. split.
    + apply group_keys_once.
      * rewrite <- obs_index_keyed. now apply in_map.
      * apply keyed_groups_notna. rewrite <- obs_index_keyed. now apply in_map.
    + apply group_keys_once.
      * rewrite <- obs_column_keyed. now apply in_map.
      * apply keyed_clusters_notna. rewrite <- obs_column_keyed. now apply in_map.
Qed.

End Pivot.

(* ================================================================= *)
(** ** Labels of a table *)

Lemma same_key_refl (a : value) : same_key a a = true.
Proof.
  unfold same_key. destruct (notna a) eqn:E.
  - now rewrite py_eqb_refl.
  - destruct a; try discriminate. reflexivity.
Qed.

Lemma label_index_lt (lbl : value) (ls : list value) (i : nat) :
  label_index lbl ls = Some i -> (i < List.length ls)%nat.
Proof.
  revert i. induction ls as [|x ls IH]; simpl; intros i; [discriminate|].
  destruct (same_key x lbl).
  - intros H. injection H as <-. lia.
  - destruct (label_index lbl ls) as [j|]; simpl; [|discriminate].
    intros H. injection H as <-. specialize (IH j eq_refl). lia.
Qed.

Lemma label_index_none_in (lbl : value) (ls : list value) :
  label_index lbl ls = None -> forall x, In x ls -> same_key x lbl = false.
Proof.
  induction ls as [|y ls IH]; simpl; [tauto|].
  destruct (same_key y lbl) eqn:E; [discriminate|].
  destruct (label_index lbl ls); simpl; [discriminate|].
  intros _ x [<-|Hx]; [exact E|now apply IH].
Qed.

Lemma label_index_app_none (lbl : value) (ls : list value) :
  label_index lbl ls = None -> label_index lbl (ls ++ [lbl]) = Some (List.length ls).
Proof.
  induction ls as [|y ls IH]; simpl.
  - intros _. now rewrite same_key_refl.
  - destruct (same_key y lbl); [discriminate|].
    destruct (label_index lbl ls); simpl; [discriminate|].
    intros _. now rewrite (IH eq_refl).
Qed.

Lemma label_index_some_nth (lbl : value) (ls : list value) (i : nat) :
  label_index lbl ls = Some i ->
  exists x, nth_error ls i = Some x /\ same_key x lbl = true.
Proof.
  revert i. induction ls as [|y ls IH]; simpl; intros i; [discriminate|].
  destruct (same_key y lbl) eqn:E.
  - intros H. injection H as <-. exists y. split; [reflexivity|exact E].
  - destruct (label_index lbl ls) as [j|]; simpl; [|discriminate].
    intros H. injection H as <-. apply (IH j eq_refl).
Qed.

Lemma label_index_exists (lbl : value) (ls : list value) (x : value) :
  In x ls -> same_key x lbl = true -> exists i, label_index lbl ls = Some i.
Proof.
  intros Hin Hx. destruct (label_index lbl ls) as [i|] eqn:E; [eauto|].
  now rewrite (label_index_none_in _ _ E x Hin) in Hx.
Qed.

Lemma find_map_pair {B : Type} (p : value -> bool) (F : value -> B) (l : list value) :
  find (fun r => p (fst r)) (map (fun g => (g, F g)) l)
  = option_map (fun g => (g, F g)) (find p l).
Proof.
  induction l as [|x l IH]; simpl; [reflexivity|].
  destruct (p x); [reflexivity|exact IH].
Qed.

Lemma find_exists {A : Type} (p : A -> bool) (l : list A) (x : A) :
  In x l -> p x = true -> exists y, find p l = Some y /\ In y l /\ p y = true.
Proof.
  intros Hin Hp. destruct (find p l) as [y|] eqn:E.
  - exists y. destruct (find_some _ _ E). auto.
  - now rewrite (find_none _ _ E x Hin) in Hp.
Qed.

(* ================================================================= *)
(** ** The Total column and the order of the rows *)

Lemma add_total_rows (ct : Crosstab) :
  add_total ct =
  mkCT (labels_with (ct_columns ct) Total)
       (map (fun r => (fst r, ct_set_cell (ct_columns ct) Total (zsum (snd r)) (snd r)))
            (ct_rows ct)).
Proof.
  unfold add_total, ct_set_column, sum_axis1. now rewrite combine_map_same, map_map.
Qed.

Lemma label_index_labels_with (ls : list value) (lbl : value) :
  exists i, label_index lbl (labels_with ls lbl) = Some i.
Proof.
  unfold labels_with. destruct (label_index lbl ls) as [i|] eqn:E; [eauto|].
  rewrite (label_index_app_none _ _ E). eauto.
Qed.

(** After [ct[lbl] = ..] a row has the new value under [lbl]. *)
Lemma total_cell (ls : list value) (lbl : value) (v : Z) (cs : list Z) (i : nat) :
  List.length cs = List.length ls ->
  label_index lbl (labels_with ls lbl) = Some i ->
  nth i (ct_set_cell ls lbl v cs) 0%Z = v.
Proof.
  intros L. unfold labels_with, ct_set_cell.
  destruct (label_index lbl ls) as [j|] eqn:E.
  - intros H. assert (i = j) by congruence. subst i.
    apply nth_set_nth_same. rewrite L. now apply label_index_lt with (lbl := lbl).
  - rewrite (label_index_app_none _ _ E). intros H. injection H as <-.
    rewrite app_nth2, L, Nat.sub_diag; [reflexivity|lia].
Qed.

Lemma same_key_Total (x : value) : same_key x Total = true -> x = Total.
Proof.
  unfold same_key, Total. destruct x as [n|s|[]| |f]; simpl; try discriminate.
  rewrite orb_false_r. intros H. apply String.eqb_eq in H. now subst.
Qed.

Lemma format_same_key (c : value) :
  same_key (if py_neb c Total then VStr ("Cluster " ++ py_str c) else c) Total
  = same_key c Total.
Proof.
  unfold py_neb. destruct (py_eqb c Total) eqn:E; [reflexivity|]. cbn [negb].
  unfold same_key. rewrite E. unfold Total. cbn [isna]. rewrite !andb_false_r.
  reflexivity.
Qed.

Lemma format_label_index (cols : list value) (rws : list (value * list Z)) :
  label_index Total (ct_columns (format_columns (mkCT cols rws)))
  = label_index Total cols.
Proof.
  unfold format_columns. cbn [ct_columns]. induction cols as [|c cols IH]; [reflexivity|].
  cbn [map label_index]. rewrite format_same_key, IH. reflexivity.
Qed.

Lemma Sorted_impl {A : Type} (R R' : A -> A -> Prop) (l : list A) :
  (forall a b, R a b -> R' a b) -> Sorted R l -> Sorted R' l.
Proof.
  intros H. induction 1 as [|x l Hs IH Hhd]; constructor; [exact IH|].
  destruct Hhd; constructor. now apply H.
Qed.

(** The table that is drawn, from the pivot: the Total is set, the rows
    are sorted by it and the labels are rewritten. *)
Lemma distribution_of_pivot (df : DataFrame) (ct : Crosstab) :
  cluster_pivot df = Ok ct ->
  exists i,
    label_index Total (labels_with (ct_columns ct) Total) = Some i /\
    cluster_distribution df =
    Ok (format_columns
          (mkCT (labels_with (ct_columns ct) Total)
                (sort_by (fun a b => Z.leb (nth i (snd b) 0%Z) (nth i (snd a) 0%Z))
                   (map (fun r => (fst r, ct_set_cell (ct_columns ct) Total
                                            (zsum (snd r)) (snd r)))
                        (ct_rows ct))))).
Proof.
  intros Hp. destruct (label_index_labels_with (ct_columns ct) Total) as [i Hi].
  exists i. split; [exact Hi|].
  unfold cluster_distribution. rewrite Hp. cbn [rbind]. rewrite add_total_rows.
  unfold sort_values_desc. cbn [ct_columns ct_rows]. rewrite Hi. reflexivity.
Qed.

Section Drawn.

Variables (cols : list value) (rws : list (value * list Z)) (i : nat).
Hypothesis Hi : label_index Total cols = Some i.

Let t : Crosstab :=
  format_columns
    (mkCT cols (sort_by (fun a b => Z.leb (nth i (snd b) 0%Z) (nth i (snd a) 0%Z)) rws)).

Lemma drawn_row_total (r : value * list Z) : row_total t r = nth i (snd r) 0%Z.
Proof.
  unfold row_total, t. now rewrite format_label_index, Hi.
Qed.

Lemma drawn_rows_perm : Permutation (ct_rows t) rws.
Proof. unfold t, format_columns. cbn [ct_rows]. apply sort_by_perm. Qed.

Lemma drawn_total_descending : total_descending t.
Proof.
  unfold total_descending. apply Sorted_StronglySorted.
  - intros a b c Hab Hbc. lia.
  - apply Sorted_impl
      with (R := fun a b => Z.leb (nth i (snd b) 0%Z) (nth i (snd a) 0%Z) = true).
    + intros a b H. rewrite !drawn_row_total. now apply Z.leb_le.
    + unfold t, format_columns. cbn [ct_rows]. apply sort_by_sorted.
      intros a b H. apply Z.leb_gt in H. apply Z.leb_le. lia.
Qed.

Lemma drawn_totals_sum :
  zsum (map (row_total t) (ct_rows t)) = zsum (map (fun r => nth i (snd r) 0%Z) rws).
Proof.
  rewrite (zsum_perm _ _ (Permutation_map _ drawn_rows_perm)).
  apply zsum_map_ext_in. intros r _. apply drawn_row_total.
Qed.

End Drawn.

Lemma cluster_header_not_Total (s : string) :
  py_neb (VStr ("Cluster " ++ s)) Total = true.
Proof. reflexivity. Qed.

(** The cells of a row under the cluster headers, when the Total was
    appended. *)
Lemma cluster_cells_appended (cls : list value) (counts : list Z) (s : Z)
  (rws : list (value * list Z)) (g : value) :
  List.length counts = List.length cls ->
  (forall c, In c cls -> same_key c Total = false) ->
  cluster_cells (format_columns (mkCT (cls ++ [Total]) rws)) (g, counts ++ [s]) = counts.
Proof.
  unfold cluster_cells, format_columns. cbn [ct_columns snd].
  revert counts. induction cls as [|c cls IH]; intros [|x counts] L Hc;
    try discriminate; [reflexivity|].
  cbn [map app combine filter fst].
  assert (Ec : py_neb c Total = true).
  { specialize (Hc c (or_introl eq_refl)). unfold same_key in Hc.
    apply orb_false_iff in Hc. unfold py_neb. now rewrite (proj1 Hc). }
  rewrite Ec. rewrite cluster_header_not_Total.
  cbn [map snd]. f_equal. apply IH.
  - simpl in L. lia.
  - intros c' Hc'. apply Hc. now right.
Qed.

(* ================================================================= *)
(** ** The distribution table *)

Lemma no_Total_label (df : DataFrame) :
  (forall c, In c (keyed_clusters df) -> c <> Total) ->
  label_index Total (group_keys (keyed_clusters df)) = None.
Proof.
  intros Hno. destruct (label_index Total (group_keys (keyed_clusters df))) as [j|] eqn:E;
    [|reflexivity].
  destruct (label_index_some_nth _ _ _ E) as [x [Hx Hk]].
  apply same_key_Total in Hk. subst x. apply nth_error_In in Hx.
  apply group_keys_incl in Hx. now apply Hno in Hx.
Qed.

Lemma map_fst_pairs {B : Type} (F : value -> B) (l : list value) :
  map fst (map (fun g => (g, F g)) l) = l.
Proof. rewrite map_map. simpl. apply map_id. Qed.

(** On a dataset with the columns cluster and pagename the table is
    computed and drawn under its subheader. *)
Lemma display_cluster_distribution_draws (df : DataFrame) (t : Crosstab) (w : World) :
  has_column df "pagename" = true ->
  has_column df "cluster" = true ->
  cluster_distribution df = Ok t ->
  display_cluster_distribution df w =
  (Ok tt, mkWorld (files w)
            (screen w ++ [StSubheader "Number of Ads in Each Cluster"; StDataframe t])).
Proof.
  intros Hg Hc Ht. unfold display_cluster_distribution. rewrite Hg, Hc. cbn [negb orb].
  unfold bind, lift, st_subheader, st_dataframe, draw. rewrite Ht. cbn [files screen].
  now rewrite <- app_assoc.
Qed.

(** C2, as the code has it. In the table that [display_cluster_distribution]
    draws, the Totals add up to the number of rows of the dataset that
    have a group, a cluster and an identifier, hence to the number of rows
    when no such cell is missing; and, when no cluster of the dataset is
    the string Total, the cluster cells of every row add up to the Total
    of the row. *)
Theorem distribution_totals (df : DataFrame) (w : World) :
  has_column df "ad_id" = true ->
  has_column df "pagename" = true ->
  has_column df "cluster" = true ->
  exists t,
    cluster_distribution df = Ok t /\
    display_cluster_distribution df w =
    (Ok tt, mkWorld (files w)
              (screen w ++ [StSubheader "Number of Ads in Each Cluster"; StDataframe t])) /\
    ((forall c, In c (keyed_clusters df) -> c <> Total) ->
     Forall (fun r => zsum (cluster_cells t r) = row_total t r) (ct_rows t)) /\
    zsum (map (row_total t) (ct_rows t))
    = Z.of_nat (List.length (rows_where (counted df) df)) /\
    ((forall r, In r (rows df) -> counted df r = true) ->
     zsum (map (row_total t) (ct_rows t)) = Z.of_nat (List.length (rows df))).
Proof.
  intros Hv Hg Hc.
  destruct (has_column_index _ _ Hv) as [iv Hiv].
  destruct (has_column_index _ _ Hg) as [ig Hig].
  destruct (has_column_index _ _ Hc) as [ic Hic].
  pose proof (cluster_pivot_eq df iv ig ic Hiv Hig Hic) as Hp.
  destruct (distribution_of_pivot df _ Hp) as [i [Hi Hdist]].
  cbn [ct_columns ct_rows] in Hi, Hdist. rewrite map_map in Hdist.
  cbn [fst snd] in Hdist.
  set (obs := grouped_obs iv ig ic df) in *.
  set (cls := group_keys (keyed_clusters df)) in *.
  set (idx := group_keys (keyed_groups df)) in *.
  eexists. split; [exact Hdist|].
  split; [now apply display_cluster_distribution_draws|].
  assert (Hsum :
    zsum (map (fun r : value * list Z => nth i (snd r) 0%Z)
              (map (fun g => (g, ct_set_cell cls Total (zsum (map (count_cell obs g) cls))
                                   (map (count_cell obs g) cls))) idx))
    = Z.of_nat (List.length (rows_where (counted df) df))).
  { rewrite map_map. cbn [snd].
    rewrite <- (pivot_cells_total df iv ig ic Hiv Hig Hic).
    apply zsum_map_ext_in. intros g _. apply total_cell; [apply length_map|exact Hi]. }
  split; [|split].
  - intros Hno. apply Forall_forall. intros r Hr.
    apply (Permutation_in _ (drawn_rows_perm _ _ i)) in Hr.
    apply in_map_iff in Hr. destruct Hr as [g [<- _]].
    rewrite (drawn_row_total _ _ i Hi). cbn [snd].
    rewrite (total_cell cls Total _ _ i (length_map _ _) Hi).
    pose proof (no_Total_label df Hno) as Hnone. fold cls in Hnone.
    unfold ct_set_cell, labels_with. rewrite Hnone.
    rewrite cluster_cells_appended; [reflexivity|apply length_map|].
    now apply label_index_none_in.
  - rewrite (drawn_totals_sum _ _ i Hi). exact Hsum.
  - intros Hall. rewrite (drawn_totals_sum _ _ i Hi), Hsum.
    unfold rows_where. rewrite forallb_filter_id; [reflexivity|].
    apply forallb_forall. exact Hall.
Qed.

Lemma distribution_totals_witness :
  exists t,
    cluster_distribution Examples.csv_scenario = Ok t /\
    zsum (map (row_total t) (ct_rows t)) = 3%Z.
Proof.
  destruct (distribution_totals Examples.csv_scenario Examples.w0 eq_refl eq_refl eq_refl)
    as [t [Ht [_ [_ [_ Hall]]]]].
  exists t. split; [exact Ht|]. rewrite Hall; [reflexivity|].
  intros r [<-|[<-|[<-|[]]]]; reflexivity.
Defined.

(** C2, as the claim has it, fails: in the dataset of two ads where ad 2
    has no cluster the Totals add up to 1, not to the 2 rows of the
    dataset; and in the dataset with a cluster named Total the count of
    that cluster is overwritten by the Total, so that the one cluster cell
    left adds up to 1 while the Total is 2. *)
Lemma totals_miss_unclustered_rows :
  (process_uploaded_files Examples.env0 (CsvTable Examples.csv_unclustered)
     Examples.uploads12 Examples.w0
   = (Ok (Some Examples.dataset_unclustered),
      mkWorld [("/tmp/t/images/1.png", [x01]); ("/tmp/t/images/2.png", [x02])] []) /\
   exists t,
     cluster_distribution Examples.dataset_unclustered = Ok t /\
     t = mkCT [VStr "Cluster c0"; VStr "Total"] [(VStr "A", [1%Z; 1%Z])] /\
     zsum (map (row_total t) (ct_rows t)) = 1%Z /\
     List.length (rows Examples.dataset_unclustered) = 2%nat) /\
  (exists t,
     cluster_distribution Examples.dataset_cluster_Total = Ok t /\
     t = mkCT [VStr "Total"; VStr "Cluster x"] [(VStr "A", [2%Z; 1%Z])] /\
     zsum (cluster_cells t (VStr "A", [2%Z; 1%Z])) = 1%Z /\
     row_total t (VStr "A", [2%Z; 1%Z]) = 2%Z).
Proof.
  split.
  - split; [reflexivity|]. eexists. split; [reflexivity|].
    split; [reflexivity|]. split; reflexivity.
  - eexists. split; [reflexivity|]. split; [reflexivity|]. split; reflexivity.
Qed.

(** C6, as the code has it. The table has one row for each group that
    occurs in a row of the dataset with a cluster, and no other row; its
    rows are in descending order of their Total; and, when no cluster of
    the dataset is the string Total, its columns are one header per cluster
    that occurs in a row with a group, followed by Total. When no group and
    no cluster is missing these are all the groups and all the clusters of
    the dataset. *)
Theorem distribution_shape (df : DataFrame) :
  has_column df "ad_id" = true ->
  has_column df "pagename" = true ->
  has_column df "cluster" = true ->
  exists t,
    cluster_distribution df = Ok t /\
    (forall g, In g (map fst (ct_rows t)) -> In g (keyed_groups df)) /\
    (forall g, In g (keyed_groups df) -> occurs_once g (map fst (ct_rows t))) /\
    total_descending t /\
    ((forall c, In c (keyed_clusters df) -> c <> Total) ->
     exists cls,
       ct_columns t = map cluster_header cls ++ [Total] /\
       (forall c, In c cls -> In c (keyed_clusters df)) /\
       (forall c, In c (keyed_clusters df) -> occurs_once c cls)) /\
    ((forall r, In r (rows df) -> keyed df r = true) ->
     get_column df "pagename" = Ok (keyed_groups df) /\
     get_column df "cluster" = Ok (keyed_clusters df)).
Proof.
  intros Hv Hg Hc.
  destruct (has_column_index _ _ Hv) as [iv Hiv].
  destruct (has_column_index _ _ Hg) as [ig Hig].
  destruct (has_column_index _ _ Hc) as [ic Hic].
  pose proof (cluster_pivot_eq df iv ig ic Hiv Hig Hic) as Hp.
  destruct (distribution_of_pivot df _ Hp) as [i [Hi Hdist]].
  cbn [ct_columns ct_rows] in Hi, Hdist. rewrite map_map in Hdist.
  cbn [fst snd] in Hdist.
  set (obs := grouped_obs iv ig ic df) in *.
  set (cls := group_keys (keyed_clusters df)) in *.
  set (idx := group_keys (keyed_groups df)) in *.
  eexists. split; [exact Hdist|].
  assert (Hlabels : Permutation
            (map fst (ct_rows (format_columns
               (mkCT (labels_with cls Total)
                  (sort_by (fun a b => Z.leb (nth i (snd b) 0%Z) (nth i (snd a) 0%Z))
                     (map (fun g => (g, ct_set_cell cls Total
                                          (zsum (map (count_cell obs g) cls))
                                          (map (count_cell obs g) cls))) idx))))))
            idx).
  { eapply Permutation_trans;
      [apply Permutation_map, (drawn_rows_perm _ _ i)|].
    rewrite map_fst_pairs. apply Permutation_refl. }
  split; [|split; [|split; [|split]]].
  - intros g Hin. apply (Permutation_in _ Hlabels) in Hin.
    now apply group_keys_incl in Hin.
  - intros g Hin. unfold occurs_once. rewrite (count_where_perm _ _ _ Hlabels).
    apply group_keys_once; [exact Hin|].
    now apply (keyed_groups_notna df ig ic Hig Hic).
  - apply (drawn_total_descending _ _ i Hi).
  - intros Hno. exists cls.
    pose proof (no_Total_label df Hno) as Hnone. fold cls in Hnone.
    split; [|split].
    + unfold format_columns, labels_with. cbn [ct_columns]. rewrite Hnone.
      rewrite map_app. f_equal.
      apply map_ext_in. intros c Hin.
      pose proof (label_index_none_in _ _ Hnone c Hin) as Hk.
      unfold same_key in Hk. apply orb_false_iff in Hk.
      unfold py_neb. now rewrite (proj1 Hk).
    + intros c Hin. now apply group_keys_incl in Hin.
    + intros c Hin. apply group_keys_once; [exact Hin|].
      now apply (keyed_clusters_notna df ig ic Hig Hic).
  - intros Hall.
    assert (Hrows : rows_where (keyed df) df = rows df).
    { unfold rows_where. apply forallb_filter_id. apply forallb_forall. exact Hall. }
    rewrite (get_column_index _ _ _ Hig), (get_column_index _ _ _ Hic).
    unfold keyed_groups, keyed_clusters. rewrite Hrows. split; f_equal.
    + apply map_ext. intros r. unfold cell_or_nan, cell_of. now rewrite Hig.
    + apply map_ext. intros r. unfold cell_or_nan, cell_of. now rewrite Hic.
Qed.

Lemma distribution_shape_witness :
  exists t,
    cluster_distribution Examples.csv_scenario = Ok t /\
    occurs_once (VStr "B") (map fst (ct_rows t)) /\
    total_descending t.
Proof.
  destruct (distribution_shape Examples.csv_scenario eq_refl eq_refl eq_refl)
    as [t [Ht [_ [Honce [Hdesc _]]]]].
  exists t. split; [exact Ht|]. split; [|exact Hdesc].
  apply Honce. right. right. left. reflexivity.
Defined.

(** C6, as the claim has it, fails: in the dataset of two ads where ad 2
    has no cluster there are the two groups A and B, and the table has one
    row, for A; and in the dataset with the clusters Total and x the table
    has two columns, the Total and the column of x, and none for the
    cluster Total. *)
Lemma table_has_no_row_for_unclustered_group :
  (process_uploaded_files Examples.env0 (CsvTable Examples.csv_unclustered)
     Examples.uploads12 Examples.w0
   = (Ok (Some Examples.dataset_unclustered),
      mkWorld [("/tmp/t/images/1.png", [x01]); ("/tmp/t/images/2.png", [x02])] []) /\
   (pagename <-? get_column Examples.dataset_unclustered "pagename" ;
    Ok (unique pagename))%result = Ok [VStr "A"; VStr "B"] /\
   exists t,
     cluster_distribution Examples.dataset_unclustered = Ok t /\
     map fst (ct_rows t) = [VStr "A"] /\
     ~ In (VStr "B") (map fst (ct_rows t))) /\
  ((cluster <-? get_column Examples.dataset_cluster_Total "cluster" ;
    Ok (unique cluster))%result = Ok [VStr "Total"; VStr "x"] /\
   exists t,
     cluster_distribution Examples.dataset_cluster_Total = Ok t /\
     ct_columns t = [VStr "Total"; VStr "Cluster x"]).
Proof.
  split.
  - split; [reflexivity|]. split; [reflexivity|].
    eexists. split; [reflexivity|]. split; [reflexivity|].
    intros [H|[]]. discriminate.
  - split; [reflexivity|]. eexists. split; reflexivity.
Qed.

(* ================================================================= *)
(** ** The empty cells of the pivot *)

(** When no cluster is the string Total, the table that is drawn has the
    cells of the pivot, each row followed by its Total. *)
Lemma distribution_appends_total (df : DataFrame) (ct : Crosstab) :
  cluster_pivot df = Ok ct ->
  label_index Total (ct_columns ct) = None ->
  exists t,
    cluster_distribution df = Ok t /\
    ct_columns t = map cluster_header (ct_columns ct) ++ [Total] /\
    Permutation (ct_rows t) (map (fun r => (fst r, snd r ++ [zsum (snd r)])) (ct_rows ct)).
Proof.
  intros Hp Hnone. destruct (distribution_of_pivot df ct Hp) as [i [Hi Hdist]].
  eexists. split; [exact Hdist|]. split.
  - unfold format_columns, labels_with. cbn [ct_columns]. rewrite Hnone.
    rewrite map_app. f_equal. apply map_ext_in. intros c Hin.
    pose proof (label_index_none_in _ _ Hnone c Hin) as Hk.
    unfold same_key in Hk. apply orb_false_iff in Hk.
    unfold py_neb. now rewrite (proj1 Hk).
  - eapply Permutation_trans; [apply (drawn_rows_perm _ _ i)|].
    unfold ct_set_cell. rewrite Hnone. apply Permutation_refl.
Qed.

(** C8, as the code has it. In the pivot of lines 109-116, for a group
    that occurs in a row with a cluster and a cluster that occurs in a row
    with a group, when no row has the two together, the cell of the pair is
    there and is the number 0; and, when no cluster is the string Total,
    the table that is drawn has the cells of the pivot. *)
Theorem pivot_missing_cell_is_zero (df : DataFrame) :
  has_column df "ad_id" = true ->
  has_column df "pagename" = true ->
  has_column df "cluster" = true ->
  exists ct,
    cluster_pivot df = Ok ct /\
    (forall g c,
      In g (keyed_groups df) ->
      In c (keyed_clusters df) ->
      (forall r, In r (rows df) -> in_cell df g c r = false) ->
      ct_lookup ct g c = Some 0%Z) /\
    ((forall c, In c (keyed_clusters df) -> c <> Total) ->
     exists t,
       cluster_distribution df = Ok t /\
       ct_columns t = map cluster_header (ct_columns ct) ++ [Total] /\
       Permutation (ct_rows t)
                   (map (fun r => (fst r, snd r ++ [zsum (snd r)])) (ct_rows ct))).
Proof.
  intros Hv Hg Hc.
  destruct (has_column_index _ _ Hv) as [iv Hiv].
  destruct (has_column_index _ _ Hg) as [ig Hig].
  destruct (has_column_index _ _ Hc) as [ic Hic].
  eexists. split; [apply (cluster_pivot_eq df iv ig ic Hiv Hig Hic)|].
  split; [|intros Hno;
           apply (distribution_appends_total df _
                    (cluster_pivot_eq df iv ig ic Hiv Hig Hic));
           exact (no_Total_label df Hno)].
  intros g c Hgin Hcin Hnone.
  pose proof (keyed_groups_notna df ig ic Hig Hic g Hgin) as Hgna.
  pose proof (keyed_clusters_notna df ig ic Hig Hic c Hcin) as Hcna.
  (* the row of the group *)
  pose proof (group_keys_once g _ Hgin Hgna) as Hgo.
  destruct (count_where_pos (py_eqb g) (group_keys (keyed_groups df))) as [g0 [Hg0 Eg0]];
    [unfold occurs_once in Hgo; lia|].
  destruct (find_exists (fun x => same_key x g) _ g0 Hg0) as [g' [Hfind [_ Eg']]];
    [rewrite same_key_notna, py_eqb_sym by exact Hgna; exact Eg0|].
  rewrite same_key_notna in Eg' by exact Hgna.
  (* the column of the cluster *)
  pose proof (group_keys_once c _ Hcin Hcna) as Hco.
  destruct (count_where_pos (py_eqb c) (group_keys (keyed_clusters df))) as [c0 [Hc0 Ec0]];
    [unfold occurs_once in Hco; lia|].
  destruct (label_index_exists c _ c0 Hc0) as [j Hj];
    [rewrite same_key_notna, py_eqb_sym by exact Hcna; exact Ec0|].
  destruct (label_index_some_nth _ _ _ Hj) as [c' [Hnth Ec']].
  rewrite same_key_notna in Ec' by exact Hcna.
  unfold ct_lookup. cbn [ct_rows].
  rewrite (find_map_pair (fun x => same_key x g)), Hfind. cbn [option_map].
  unfold ct_cell. cbn [ct_columns snd]. rewrite Hj.
  rewrite (map_nth_error _ _ _ Hnth). f_equal.
  rewrite (count_cell_rows df iv ig ic Hig Hic).
  apply count_where_none. intros r Hr.
  destruct (in_cell df g' c' r) eqn:E; [|reflexivity].
  rewrite (in_cell_cells df ig ic Hig Hic) in E. apply andb_true_iff in E.
  destruct E as [E1 E2].
  specialize (Hnone r Hr). rewrite (in_cell_cells df ig ic Hig Hic) in Hnone.
  rewrite (py_eqb_trans _ _ _ E1 Eg'), (py_eqb_trans _ _ _ E2 Ec') in Hnone.
  discriminate.
Qed.

Lemma pivot_missing_cell_is_zero_witness :
  exists ct,
    cluster_pivot Examples.csv_scenario = Ok ct /\
    ct_lookup ct (VStr "A") (VInt 1) = Some 0%Z.
Proof.
  destruct (pivot_missing_cell_is_zero Examples.csv_scenario eq_refl eq_refl eq_refl)
    as [ct [Hct [Hz _]]].
  exists ct. split; [exact Hct|]. apply Hz.
  - left. reflexivity.
  - right. right. left. reflexivity.
  - intros r [<-|[<-|[<-|[]]]]; reflexivity.
Defined.

(** C8, as the claim has it, fails: in the dataset of two ads where ad 2
    has no cluster, the group B and the cluster c0 both occur and no row has
    the two together, yet the pivot has no cell for the pair, because it
    has no row for B. *)
Lemma pivot_cell_absent_for_unclustered_group :
  process_uploaded_files Examples.env0 (CsvTable Examples.csv_unclustered)
    Examples.uploads12 Examples.w0
  = (Ok (Some Examples.dataset_unclustered),
     mkWorld [("/tmp/t/images/1.png", [x01]); ("/tmp/t/images/2.png", [x02])] []) /\
  get_column Examples.dataset_unclustered "pagename" = Ok [VStr "A"; VStr "B"] /\
  get_column Examples.dataset_unclustered "cluster" = Ok [VStr "c0"; VNaN] /\
  (forall r, In r (rows Examples.dataset_unclustered) ->
             in_cell Examples.dataset_unclustered (VStr "B") (VStr "c0") r = false) /\
  cluster_pivot Examples.dataset_unclustered
  = Ok (mkCT [VStr "c0"] [(VStr "A", [1%Z])]) /\
  ct_lookup (mkCT [VStr "c0"] [(VStr "A", [1%Z])]) (VStr "B") (VStr "c0") = None.
Proof.
  split; [reflexivity|]. split; [reflexivity|]. split; [reflexivity|].
  split; [intros r [<-|[<-|[]]]; reflexivity|]. split; reflexivity.
Qed.

(* ================================================================= *)
(** ** The scenario of the specification *)

(** Three ads, images for ads 1 and 2: the dataset has the two rows of
    brand A, the table has the one row A with 2 ads in cluster 0, the
    brand view shows both images, the preview shows ad 1 and its peer is
    ad 2. The CSV has no tier, logo or colour column, so the attribute
    table is replaced by the error that lists them. *)
Example scenario_page :
  main Examples.env0 (Some (CsvTable Examples.csv_scenario)) Examples.uploads12 Examples.w0
  = (Ok tt,
     mkWorld [("/tmp/t/images/1.png", [x01]); ("/tmp/t/images/2.png", [x02])]
       [StTitle "Brand Image Browser";
        StSubheader "Number of Ads in Each Cluster";
        StDataframe (mkCT [VStr "Cluster 0"; VStr "Total"] [(VStr "A", [2%Z; 2%Z])]);
        StSidebarHeader "Search By Brand";
        StSubheader "Images By Brand"; StImage [x01]; StImage [x02];
        StSubheader "Image Preview"; StImage [x01];
        StSubheader "Image Attributes";
        StError "Missing attributes in the selected row: dominant_background_colour, logo_present, tier";
        StSubheader "Images in Same Cluster"; StImage [x02]]).
Proof. reflexivity. Qed.

(** A brand column with a missing cell cannot be sorted: the page stops
    after the table with the error of [sorted]. *)
Example unsortable_brands :
  py_sorted (unique [VStr "A"; VNaN])
  = Raise (TypeError "'<' not supported between instances of 'float' and 'str'").
Proof. reflexivity. Qed.

(* ================================================================= *)
(** ** What the drawing functions leave alone *)

Section KeepsFiles.

Context {A B : Type}.





End KeepsFiles.


Lemma Image_open_world (env : Env) (p : value) (w : World) :
  snd (Image_open env p w) = w.
Proof.
  unfold Image_open. destruct p; try reflexivity.
  destruct (read_file w s); [|reflexivity].
  destruct (decode_error env l); reflexivity.
Qed.

(** Opening an image depends on the stored files only, not on the page. *)
Lemma Image_open_files (env : Env) (p : value) (w1 w2 : World) :
  files w1 = files w2 -> fst (Image_open env p w1) = fst (Image_open env p w2).
Proof.
  intros H. unfold Image_open, read_file. rewrite H. destruct p; try reflexivity.
  destruct (option_map snd _); [|reflexivity].
  destruct (decode_error env l); reflexivity.
Qed.



(** One turn of the image loop draws exactly one widget, the image or the
    error, and goes on. *)
Lemma show_image_draws (env : Env) (row : Series) (w : World) :
  show_image env row w =
  (Ok tt, mkWorld (files w) (screen w ++ [image_widget env w row])).
Proof.
  unfold show_image, image_widget, try_except, bind, lift.
  destruct (series_get row "image_path") as [p|e]; [|reflexivity].
  pose proof (Image_open_world env p w) as Hw.
  destruct (Image_open env p w) as [[img|e] w1]; simpl in *; subst w1; reflexivity.
Qed.

Lemma image_widget_files (env : Env) (w1 w2 : World) (row : Series) :
  files w1 = files w2 -> image_widget env w1 row = image_widget env w2 row.
Proof.
  intros H. unfold image_widget. destruct (series_get row "image_path"); [|reflexivity].
  now rewrite (Image_open_files env a w1 w2 H).
Qed.

Lemma for_each_show_image (env : Env) (l : list Series) (w : World) :
  for_each l (show_image env) w =
  (Ok tt, mkWorld (files w) (screen w ++ map (image_widget env w) l)).
Proof.
  revert w. induction l as [|row l IH]; intros w; simpl.
  - unfold ret. now rewrite app_nil_r, world_eta.
  - unfold bind. rewrite show_image_draws, IH. cbn [files screen].
    rewrite <- app_assoc. cbn [app]. do 4 f_equal.
    apply map_ext. intros r. now apply image_widget_files.
Qed.

(** X1. [display_brand_images] never raises and never stops at a row it
    cannot show: it draws one widget for each of the first four rows of the
    brand, the row's image or the row's own error, and stores nothing. *)
Theorem display_brand_images_isolates_failures (env : Env) (brand_df : DataFrame)
  (w : World) :
  display_brand_images env brand_df w =
  (Ok tt, mkWorld (files w)
            (screen w ++ map (image_widget env w) (iterrows (head 4 brand_df)))) /\
  List.length (iterrows (head 4 brand_df)) = Nat.min 4 (List.length (rows brand_df)) /\
  iterrows (head 4 brand_df) = firstn 4 (iterrows brand_df).
Proof.
  split; [apply for_each_show_image|]. unfold iterrows, head. cbn [rows columns].
  split.
  - now rewrite length_map, length_firstn.
  - now rewrite firstn_map.
Qed.

(** X2. On a dataset with the columns cluster and ad_id,
    [display_cluster_images] never raises for a selected row that has a
    cluster: it draws one widget, image or error, for each of the at most
    six peers; on a dataset without cluster column it draws its one error
    instead. *)
Theorem display_cluster_images_draws_peers (env : Env) (df : DataFrame)
  (selected_row : Series) (selected_image cluster : value) (w : World) :
  has_column df "ad_id" = true ->
  series_get selected_row "cluster" = Ok cluster ->
  (has_column df "cluster" = false ->
   display_cluster_images env df selected_row selected_image w =
   (Ok tt, mkWorld (files w)
             (screen w ++ [StError "The dataset must contain a 'Cluster' column to display cluster images."]))) /\
  (has_column df "cluster" = true ->
   exists cluster_df,
     cluster_peers df selected_row selected_image = Ok cluster_df /\
     (List.length (iterrows cluster_df) <= 6)%nat /\
     display_cluster_images env df selected_row selected_image w =
     (Ok tt, mkWorld (files w)
               (screen w ++ map (image_widget env w) (iterrows cluster_df)))).
Proof.
  intros Hi Hs. split; intros Hc; unfold display_cluster_images; rewrite Hc; cbn [negb].
  - reflexivity.
  - destruct (has_column_index _ _ Hc) as [ic Hic].
    destruct (has_column_index _ _ Hi) as [ii Hii].
    assert (Hp : exists cluster_df,
               cluster_peers df selected_row selected_image = Ok cluster_df /\
               (List.length (rows cluster_df) <= 6)%nat).
    { unfold cluster_peers. rewrite Hs. cbn [rbind].
      rewrite (get_column_index _ _ _ Hic), (get_column_index _ _ _ Hii). cbn [rbind].
      eexists. split; [reflexivity|]. unfold head. cbn [rows]. apply firstn_le_length. }
    destruct Hp as [cluster_df [Hp Hlen]]. exists cluster_df.
    split; [exact Hp|]. split; [unfold iterrows; now rewrite length_map|].
    unfold bind, lift. rewrite Hp. apply for_each_show_image.
Qed.

Lemma display_cluster_images_draws_peers_witness :
  display_cluster_images Examples.env0 Examples.csv_scenario
    [("ad_id", VInt 1); ("cluster", VInt 0)] (VInt 1) Examples.w0
  = (Ok tt, mkWorld [] [StError "Error loading image: 'image_path'"]).
Proof.
  destruct (display_cluster_images_draws_peers Examples.env0 Examples.csv_scenario
              [("ad_id", VInt 1); ("cluster", VInt 0)] (VInt 1) (VInt 0) Examples.w0
              eq_refl eq_refl) as [_ H].
  destruct (H eq_refl) as [cluster_df [Hp [_ Hd]]].
  rewrite Hd. vm_compute in Hp. injection Hp as <-. reflexivity.
Defined.

(* ================================================================= *)
(** ** The ingest, whatever happens *)

(** Lines 39-44 written out: on a table with an ad_id column the join
    always returns. *)
Lemma join_images_explicit (images_path : string) (names : list string) (df : DataFrame)
  (i : nat) :
  index_of "ad_id" (columns df) = Some i ->
  exists j,
    index_of "image_name" (columns_with (columns df) "image_name") = Some j /\
    join_images images_path names df =
    Ok (mkDF (columns_with (columns_with (columns df) "image_name") "image_path")
          (map (fun r => set_cell (columns_with (columns df) "image_name") "image_path"
                           (VStr (path_join images_path (image_name_of (cell_at i r)))) r)
             (filter (fun r => existsb (same_key (cell_at j r)) (map VStr names))
                (map (fun r => set_cell (columns df) "image_name"
                                 (VStr (image_name_of (cell_at i r))) r)
                     (rows df))))).
Proof.
  intros Hi.
  destruct (index_of_columns_with_same (columns df) "image_name") as [j Hj].
  exists j. split; [exact Hj|].
  unfold join_images.
  rewrite (get_column_index _ _ _ Hi). cbn [rbind].
  rewrite map_map, (set_column_map df "image_name"
                      (fun r => VStr (image_name_of (cell_at i r)))).
  rewrite (get_column_index (mkDF _ _) "image_name" j Hj).
  cbn [rbind rows]. unfold isin. rewrite (map_map (cell_at j)).
  rewrite (mask_rows_frame (columns_with (columns df) "image_name")).
  rewrite (get_column_index (mkDF (columns_with (columns df) "image_name") _) "ad_id" i
             (index_of_columns_with _ "image_name" _ _ Hi)).
  cbn [rbind rows]. rewrite (map_map (cell_at i)).
  rewrite (set_column_frame (columns_with (columns df) "image_name") _ "image_path"
             (fun r => VStr (path_join images_path (image_name_of (cell_at i r))))).
  reflexivity.
Qed.

Lemma has_column_columns_with (cols : list string) (col c : string) (rws : list Row) :
  has_column (mkDF cols rws) c = true ->
  has_column (mkDF (columns_with cols col) rws) c = true.
Proof.
  unfold has_column. cbn [columns]. destruct (index_of c cols) as [k|] eqn:E; [|discriminate].
  intros _. now rewrite (index_of_columns_with _ col _ _ E).
Qed.

Lemma has_column_columns_with_same (cols : list string) (col : string) (rws : list Row) :
  has_column (mkDF (columns_with cols col) rws) col = true.
Proof.
  unfold has_column. cbn [columns].
  destruct (index_of_columns_with_same cols col) as [j ->]. reflexivity.
Qed.

(** X3. The join keeps the shape of the table: the dataset has one cell per
    column in every row, it has the columns ad_id, image_name and
    image_path, and it has no more rows than the CSV. *)
Theorem join_images_keeps_shape (images_path : string) (names : list string)
  (df out : DataFrame) :
  rectangular df ->
  join_images images_path names df = Ok out ->
  rectangular out /\
  has_column out "ad_id" = true /\
  has_column out "image_name" = true /\
  has_column out "image_path" = true /\
  (List.length (rows out) <= List.length (rows df))%nat.
Proof.
  intros Hrect Hjoin.
  destruct (index_of "ad_id" (columns df)) as [i|] eqn:Hi.
  2:{ unfold join_images, get_column, column_index in Hjoin. rewrite Hi in Hjoin.
      discriminate. }
  destruct (join_images_explicit images_path names df i Hi) as [j [Hj Heq]].
  rewrite Heq in Hjoin. injection Hjoin as <-.
  split; [|split; [|split; [|split]]].
  - unfold rectangular. cbn [rows columns]. apply Forall_forall. intros r Hr.
    apply in_map_iff in Hr. destruct Hr as [r1 [<- Hr1]].
    apply filter_In in Hr1. destruct Hr1 as [Hr1 _].
    apply in_map_iff in Hr1. destruct Hr1 as [r0 [<- Hr0]].
    apply length_set_cell, length_set_cell.
    unfold rectangular in Hrect. rewrite Forall_forall in Hrect. now apply Hrect.
  - apply has_column_columns_with.
    apply (has_column_columns_with (columns df) "image_name" "ad_id").
    unfold has_column. cbn [columns]. now rewrite Hi.
  - apply has_column_columns_with. apply has_column_columns_with_same.
  - apply has_column_columns_with_same.
  - cbn [rows]. rewrite length_map.
    eapply Nat.le_trans; [apply filter_length_le|]. now rewrite length_map.
Qed.

Lemma join_images_keeps_shape_witness :
  rectangular Examples.dataset_unclustered /\
  has_column Examples.dataset_unclustered "image_path" = true.
Proof.
  assert (Hrect : rectangular Examples.csv_unclustered) by (repeat constructor).
  destruct (join_images_keeps_shape "/tmp/t/images" ["1.png"; "2.png"]
              Examples.csv_unclustered Examples.dataset_unclustered Hrect eq_refl)
    as [H1 [_ [_ [H2 _]]]].
  split; assumption.
Defined.

(** X4. [process_uploaded_files] never raises: it returns a dataset and
    draws nothing, or it returns no dataset and draws exactly one error. *)
Theorem process_uploaded_files_never_raises (env : Env) (uploaded_csv : UploadedCsv)
  (uploaded_images : list UploadedFile) (w : World) :
  exists r w',
    process_uploaded_files env uploaded_csv uploaded_images w = (Ok r, w') /\
    match r with
    | Some _ => screen w' = screen w
    | None => exists msg, screen w' = screen w ++ [StError msg]
    end.
Proof.
  unfold process_uploaded_files, try_except, bind, lift.
  destruct (mkdtemp env) as [tmp|e]; [|do 2 eexists; split; [reflexivity|]; simpl; eauto].
  destruct (makedirs_error env (path_join tmp "images")) as [e|];
    [do 2 eexists; split; [reflexivity|]; simpl; eauto|].
  pose proof (save_uploads_screen env (path_join tmp "images") uploaded_images [] w) as Hscr.
  destruct (save_uploads env (path_join tmp "images") uploaded_images [] w)
    as [[names|e] w1]; simpl in Hscr;
    [|do 2 eexists; split; [reflexivity|]; simpl; rewrite Hscr; eauto].
  destruct uploaded_csv as [df|e]; simpl;
    [|do 2 eexists; split; [reflexivity|]; simpl; rewrite Hscr; eauto].
  destruct (has_column df "ad_id") eqn:Hcol; simpl.
  - destruct (has_column_index _ _ Hcol) as [i Hi].
    destruct (join_images_explicit (path_join tmp "images") names df i Hi) as [j [_ ->]].
    do 2 eexists. split; [reflexivity|]. exact Hscr.
  - do 2 eexists. split; [reflexivity|]. simpl. rewrite Hscr. eauto.
Qed.


(** X5. The uploads are written before the CSV is read, so a CSV that
    cannot be parsed or that has no ad_id column leaves every upload
    stored, while the ingest returns no dataset and draws the one error of
    that failure. *)
Theorem bad_csv_leaves_uploads_stored (env : Env) (tmp : string)
  (uploaded_images : list UploadedFile) (w : World) :
  storage_ok env tmp (files w) uploaded_images ->
  (forall e,
     process_uploaded_files env (CsvUnreadable e) uploaded_images w =
     (Ok None,
      mkWorld (files w ++ map (stored (path_join tmp "images")) uploaded_images)
              (screen w ++ [StError ("Error processing files: " ++ exn_msg e)]))) /\
  (forall df,
     has_column df "ad_id" = false ->
     process_uploaded_files env (CsvTable df) uploaded_images w =
     (Ok None,
      mkWorld (files w ++ map (stored (path_join tmp "images")) uploaded_images)
              (screen w ++ [StError missing_ad_id]))).
Proof.
  intros [Htmp [Hmk Hw]]. split.
  - intros e. unfold process_uploaded_files, try_except, bind, lift. rewrite Htmp, Hmk.
    rewrite (save_uploads_ok env _ _ _ _ Hw). reflexivity.
  - intros df Hcol. unfold process_uploaded_files, try_except, bind, lift.
    rewrite Htmp, Hmk. rewrite (save_uploads_ok env _ _ _ _ Hw). simpl. rewrite Hcol.
    reflexivity.
Qed.

Lemma bad_csv_leaves_uploads_stored_witness :
  process_uploaded_files Examples.env0
    (CsvUnreadable (mkExn "ParserError" "Error tokenizing data")) Examples.uploads12
    Examples.w0 =
  (Ok None,
   mkWorld [("/tmp/t/images/1.png", [x01]); ("/tmp/t/images/2.png", [x02])]
           [StError "Error processing files: Error tokenizing data"]).
Proof.
  assert (Hst : storage_ok Examples.env0 "/tmp/t" [] Examples.uploads12).
  { repeat split. }
  destruct (bad_csv_leaves_uploads_stored Examples.env0 "/tmp/t" Examples.uploads12
              Examples.w0 Hst) as [H _].
  exact (H (mkExn "ParserError" "Error tokenizing data")).
Defined.

(* ================================================================= *)
(** ** Stored uploads *)




Lemma image_name_of_png (x : value) : ends_in ".png" (image_name_of x).
Proof. exists (py_str x). reflexivity. Qed.

(** X7. The file name of a row is always "{ad_id}.png", so uploads under
    other names never match: when no uploaded name ends in ".png" (the
    page also accepts jpg and jpeg), the dataset is returned with no
    row. *)
Theorem only_png_names_join (env : Env) (tmp : string)
  (uploaded_images : list UploadedFile) (df : DataFrame) (w : World) :
  storage_ok env tmp (files w) uploaded_images ->
  rectangular df ->
  has_column df "ad_id" = true ->
  (forall f, In f uploaded_images -> ~ ends_in ".png" (name f)) ->
  exists out w',
    process_uploaded_files env (CsvTable df) uploaded_images w = (Ok (Some out), w') /\
    rows out = [].
Proof.
  intros Hst Hrect Hcol Hnames.
  destruct (has_column_index _ _ Hcol) as [i Hi].
  destruct (join_images_rows (path_join tmp "images") (map name uploaded_images)
              df i Hrect Hi) as [out [Hjoin [_ Hrows]]].
  exists out. eexists.
  split; [exact (process_uploaded_files_ok env tmp _ df out w Hst Hjoin Hcol)|].
  assert (Hnone : filter (fun r => existsb (String.eqb (image_name_of (cell_at i r)))
                                     (map name uploaded_images)) (rows df) = []).
  { clear -Hnames. induction (rows df) as [|r l IH]; [reflexivity|]. simpl.
    destruct (existsb _ _) eqn:E; [|exact IH].
    apply existsb_exists in E. destruct E as [n [Hn Heq]].
    apply String.eqb_eq in Heq. apply in_map_iff in Hn. destruct Hn as [f [Hf Hin]].
    exfalso. apply (Hnames f Hin). rewrite Hf, <- Heq. apply image_name_of_png. }
  rewrite Hnone in Hrows. now inversion Hrows.
Qed.

Lemma only_png_names_join_witness :
  exists out w',
    process_uploaded_files Examples.env0 (CsvTable Examples.csv_scenario)
      [mkUpload "1.jpg" [x01]] Examples.w0 = (Ok (Some out), w') /\
    rows out = [].
Proof.
  apply (only_png_names_join Examples.env0 "/tmp/t" [mkUpload "1.jpg" [x01]]
           Examples.csv_scenario Examples.w0).
  - repeat split.
  - repeat constructor.
  - reflexivity.
  - intros f [<-|[]] [p Hp]. cbn [name] in Hp.
    do 5 (destruct p as [|? p]; cbn [append] in Hp; [discriminate|injection Hp as _ Hp]).
    destruct p; discriminate.
Defined.

(* ================================================================= *)
(** ** The cells of the table *)

Lemma py_eqb_right (x a b : value) : py_eqb a b = true -> py_eqb x a = py_eqb x b.
Proof.
  intros H. destruct (py_eqb x a) eqn:E1.
  - symmetry. now apply (py_eqb_trans x a b).
  - destruct (py_eqb x b) eqn:E2; [|reflexivity].
    rewrite py_eqb_sym in H. now rewrite (py_eqb_trans x b a E2 H) in E1.
Qed.

(** X8. A cell of the pivot is the number of rows of the dataset that have
    the group and the cluster of the cell and an identifier. *)
Theorem pivot_cell_counts_rows (df : DataFrame) :
  has_column df "ad_id" = true ->
  has_column df "pagename" = true ->
  has_column df "cluster" = true ->
  exists ct,
    cluster_pivot df = Ok ct /\
    forall g c,
      In g (keyed_groups df) ->
      In c (keyed_clusters df) ->
      ct_lookup ct g c
      = Some (count_where (fun r => in_cell df g c r && counted df r) (rows df)).
Proof.
  intros Hv Hg Hc.
  destruct (has_column_index _ _ Hv) as [iv Hiv].
  destruct (has_column_index _ _ Hg) as [ig Hig].
  destruct (has_column_index _ _ Hc) as [ic Hic].
  eexists. split; [apply (cluster_pivot_eq df iv ig ic Hiv Hig Hic)|].
  intros g c Hgin Hcin.
  pose proof (keyed_groups_notna df ig ic Hig Hic g Hgin) as Hgna.
  pose proof (keyed_clusters_notna df ig ic Hig Hic c Hcin) as Hcna.
  pose proof (group_keys_once g _ Hgin Hgna) as Hgo.
  destruct (count_where_pos (py_eqb g) (group_keys (keyed_groups df))) as [g0 [Hg0 Eg0]];
    [unfold occurs_once in Hgo; lia|].
  destruct (find_exists (fun x => same_key x g) _ g0 Hg0) as [g' [Hfind [_ Eg']]];
    [rewrite same_key_notna, py_eqb_sym by exact Hgna; exact Eg0|].
  rewrite same_key_notna in Eg' by exact Hgna.
  pose proof (group_keys_once c _ Hcin Hcna) as Hco.
  destruct (count_where_pos (py_eqb c) (group_keys (keyed_clusters df))) as [c0 [Hc0 Ec0]];
    [unfold occurs_once in Hco; lia|].
  destruct (label_index_exists c _ c0 Hc0) as [j Hj];
    [rewrite same_key_notna, py_eqb_sym by exact Hcna; exact Ec0|].
  destruct (label_index_some_nth _ _ _ Hj) as [c' [Hnth Ec']].
  rewrite same_key_notna in Ec' by exact Hcna.
  unfold ct_lookup. cbn [ct_rows].
  rewrite (find_map_pair (fun x => same_key x g)), Hfind. cbn [option_map].
  unfold ct_cell. cbn [ct_columns snd]. rewrite Hj.
  rewrite (map_nth_error _ _ _ Hnth). f_equal.
  rewrite (count_cell_rows df iv ig ic Hig Hic).
  apply count_where_ext. intros r.
  rewrite !(in_cell_cells df ig ic Hig Hic), (counted_cells df iv ig ic Hiv Hig Hic).
  rewrite (py_eqb_right (cell_at ig r) g' g Eg'), (py_eqb_right (cell_at ic r) c' c Ec').
  destruct (py_eqb (cell_at ig r) g) eqn:E1; [|reflexivity].
  destruct (py_eqb (cell_at ic r) c) eqn:E2; [|reflexivity].
  apply py_eqb_notna in E1, E2. destruct E1 as [-> _], E2 as [-> _]. reflexivity.
Qed.

Lemma pivot_cell_counts_rows_witness :
  exists ct,
    cluster_pivot Examples.csv_scenario = Ok ct /\
    ct_lookup ct (VStr "A") (VInt 0) = Some 2%Z.
Proof.
  destruct (pivot_cell_counts_rows Examples.csv_scenario eq_refl eq_refl eq_refl)
    as [ct [Hct Hcell]].
  exists ct. split; [exact Hct|]. rewrite Hcell; [reflexivity| |].
  - left. reflexivity.
  - left. reflexivity.
Defined.

Lemma zsum_nonneg (l : list Z) : Forall (fun z => (0 <= z)%Z) l -> (0 <= zsum l)%Z.
Proof. induction 1; simpl; lia. Qed.

Lemma Forall_set_nth {A : Type} (P : A -> Prop) (i : nat) (x : A) (l : list A) :
  P x -> Forall P l -> Forall P (set_nth i x l).
Proof.
  intros Hx. revert i. induction l as [|y l IH]; intros i H; destruct i; simpl; auto.
  - inversion H; subst. now constructor.
  - inversion H; subst. constructor; [assumption|]. now apply IH.
Qed.

Lemma length_ct_set_cell (ls : list value) (lbl : value) (v : Z) (cs : list Z) :
  List.length cs = List.length ls ->
  List.length (ct_set_cell ls lbl v cs) = List.length (labels_with ls lbl).
Proof.
  intros L. unfold ct_set_cell, labels_with. destruct (label_index lbl ls).
  - now rewrite length_set_nth.
  - rewrite !length_app. simpl. lia.
Qed.

(** X9. The table that is drawn is well formed: every row has one cell per
    column and no cell is negative. *)
Theorem distribution_is_rectangular (df : DataFrame) :
  has_column df "ad_id" = true ->
  has_column df "pagename" = true ->
  has_column df "cluster" = true ->
  exists t,
    cluster_distribution df = Ok t /\
    ct_rectangular t /\
    Forall (fun r => Forall (fun z => (0 <= z)%Z) (snd r)) (ct_rows t).
Proof.
  intros Hv Hg Hc.
  destruct (has_column_index _ _ Hv) as [iv Hiv].
  destruct (has_column_index _ _ Hg) as [ig Hig].
  destruct (has_column_index _ _ Hc) as [ic Hic].
  pose proof (cluster_pivot_eq df iv ig ic Hiv Hig Hic) as Hp.
  destruct (distribution_of_pivot df _ Hp) as [i [Hi Hdist]].
  cbn [ct_columns ct_rows] in Hi, Hdist. rewrite map_map in Hdist.
  cbn [fst snd] in Hdist.
  eexists. split; [exact Hdist|].
  assert (Hcounts : forall g,
            Forall (fun z => (0 <= z)%Z)
                   (map (count_cell (grouped_obs iv ig ic df) g)
                        (group_keys (keyed_clusters df)))).
  { intros g. apply Forall_forall. intros z Hz. apply in_map_iff in Hz.
    destruct Hz as [c [<- _]]. unfold count_cell, count_where. lia. }
  split.
  - unfold ct_rectangular. apply Forall_forall. intros r Hr.
    apply (Permutation_in _ (drawn_rows_perm _ _ i)) in Hr.
    apply in_map_iff in Hr. destruct Hr as [g [<- _]].
    unfold format_columns. cbn [ct_columns snd]. rewrite length_map.
    apply length_ct_set_cell. apply length_map.
  - apply Forall_forall. intros r Hr.
    apply (Permutation_in _ (drawn_rows_perm _ _ i)) in Hr.
    apply in_map_iff in Hr. destruct Hr as [g [<- _]]. cbn [snd].
    unfold ct_set_cell. destruct (label_index Total (group_keys (keyed_clusters df))).
    + apply Forall_set_nth; [apply zsum_nonneg|]; apply Hcounts.
    + apply Forall_app. split; [apply Hcounts|].
      constructor; [apply zsum_nonneg, Hcounts|constructor].
Qed.

Lemma distribution_is_rectangular_witness :
  exists t, cluster_distribution Examples.dataset_cluster_Total = Ok t /\ ct_rectangular t.
Proof.
  destruct (distribution_is_rectangular Examples.dataset_cluster_Total
              eq_refl eq_refl eq_refl) as [t [Ht [Hr _]]].
  exists t. split; assumption.
Defined.

(** With an ad_id column the table is always computed. *)
Lemma cluster_distribution_total (df : DataFrame) :
  has_column df "ad_id" = true ->
  has_column df "pagename" = true ->
  has_column df "cluster" = true ->
  exists t, cluster_distribution df = Ok t.
Proof.
  intros Hv Hg Hc.
  destruct (has_column_index _ _ Hv) as [iv Hiv].
  destruct (has_column_index _ _ Hg) as [ig Hig].
  destruct (has_column_index _ _ Hc) as [ic Hic].
  destruct (distribution_of_pivot df _ (cluster_pivot_eq df iv ig ic Hiv Hig Hic))
    as [i [_ Hdist]].
  eauto.
Qed.

(** On a dataset with an ad_id column the table view never raises and
    stores nothing. *)
Lemma display_cluster_distribution_ok (df : DataFrame) (w : World) :
  has_column df "ad_id" = true ->
  exists d, display_cluster_distribution df w = (Ok tt, mkWorld (files w) (screen w ++ d)).
Proof.
  intros Hv. unfold display_cluster_distribution.
  destruct (has_column df "cluster") eqn:Hc; cbn [negb orb];
    [|eexists; reflexivity].
  destruct (has_column df "pagename") eqn:Hg; cbn [negb];
    [|eexists; reflexivity].
  destruct (cluster_distribution_total df Hv Hg Hc) as [t Ht].
  unfold bind, lift, st_subheader, st_dataframe, draw. rewrite Ht. cbn [files screen].
  eexists. now rewrite <- app_assoc.
Qed.

(** X10. What [display_cluster_distribution] does with the columns it finds:
    without cluster or pagename column it draws its one error and no
    table; with both and an ad_id column it draws the subheader and the
    table; with both and no ad_id column the pivot raises KeyError for
    ad_id and nothing is drawn. *)
Theorem display_cluster_distribution_by_columns (df : DataFrame) (w : World) :
  (has_column df "cluster" = false \/ has_column df "pagename" = false ->
   display_cluster_distribution df w =
   (Ok tt, mkWorld (files w)
             (screen w ++ [StError "The dataset must contain both 'cluster' and 'pagename' columns to display cluster distribution."]))) /\
  (has_column df "cluster" = true -> has_column df "pagename" = true ->
   has_column df "ad_id" = true ->
   exists t,
     cluster_distribution df = Ok t /\
     display_cluster_distribution df w =
     (Ok tt, mkWorld (files w)
               (screen w ++ [StSubheader "Number of Ads in Each Cluster"; StDataframe t]))) /\
  (has_column df "cluster" = true -> has_column df "pagename" = true ->
   has_column df "ad_id" = false ->
   display_cluster_distribution df w = (Raise (KeyError "ad_id"), w)).
Proof.
  split; [|split].
  - intros H. unfold display_cluster_distribution.
    destruct H as [H|H]; rewrite H; cbn [negb orb]; [reflexivity|].
    now rewrite orb_true_r.
  - intros Hc Hg Hv. destruct (cluster_distribution_total df Hv Hg Hc) as [t Ht].
    exists t. split; [exact Ht|]. now apply display_cluster_distribution_draws.
  - intros Hc Hg Hv. unfold display_cluster_distribution. rewrite Hc, Hg. cbn [negb orb].
    unfold bind, lift, cluster_distribution, cluster_pivot, pivot_table_count, column_index.
    unfold has_column in Hv. destruct (index_of "ad_id" (columns df)); [discriminate|].
    reflexivity.
Qed.

(* ================================================================= *)
(** ** The preview *)

(** X11. An identifier offered by the select box is found again: when it is
    one of the ad_id cells of the brand's rows and is not missing, the
    lookup returns a row of the brand that carries it. A missing
    identifier (NaN) equals no cell, itself included, so its lookup raises
    IndexError. *)
Theorem offered_identifier_is_found (brand_df : DataFrame) (ids : list value) :
  get_column brand_df "ad_id" = Ok ids ->
  (forall x, In x ids -> notna x = true ->
     exists r, In r (rows brand_df) /\
               has_id brand_df x r = true /\
               lookup_selected_row brand_df x = Ok (row_series brand_df r)) /\
  lookup_selected_row brand_df VNaN =
  Raise (IndexError "single positional indexer is out-of-bounds").
Proof.
  intros Hids. unfold get_column, column_index in Hids.
  destruct (index_of "ad_id" (columns brand_df)) as [i|] eqn:Hi; [|discriminate].
  cbn [rbind] in Hids. injection Hids as <-. split.
  - intros x Hx Hna.
    unfold lookup_selected_row. rewrite (get_column_index _ _ _ Hi). cbn [rbind].
    rewrite map_map, mask_rows_map. unfold iloc0. cbn [rows columns].
    apply in_map_iff in Hx. destruct Hx as [r0 [Hr0 Hin0]].
    destruct (filter (fun r => py_eqb (cell_at i r) x) (rows brand_df)) as [|r l] eqn:Hf.
    + assert (Hin : In r0 (filter (fun r => py_eqb (cell_at i r) x) (rows brand_df))).
      { apply filter_In. split; [exact Hin0|]. rewrite Hr0. now apply py_eqb_refl. }
      rewrite Hf in Hin. destruct Hin.
    + assert (Hin : In r (filter (fun r => py_eqb (cell_at i r) x) (rows brand_df)))
        by (rewrite Hf; now left).
      apply filter_In in Hin. destruct Hin as [Hin Heq].
      exists r. split; [exact Hin|]. split; [|reflexivity].
      now rewrite (has_id_cells brand_df i x Hi).
  - unfold lookup_selected_row. rewrite (get_column_index _ _ _ Hi). cbn [rbind].
    rewrite map_map, mask_rows_map. unfold iloc0. cbn [rows columns].
    assert (Hf : filter (fun r => py_eqb (cell_at i r) VNaN) (rows brand_df) = []).
    { induction (rows brand_df) as [|r l IH]; [reflexivity|]. simpl.
      destruct (cell_at i r) as [n|s|[]| |f]; simpl; exact IH. }
    now rewrite Hf.
Qed.

Lemma offered_identifier_is_found_witness :
  exists r, In r (rows Examples.csv_duplicate) /\
            lookup_selected_row Examples.csv_duplicate (VInt 7)
            = Ok (row_series Examples.csv_duplicate r).
Proof.
  destruct (offered_identifier_is_found Examples.csv_duplicate [VInt 7; VInt 7] eq_refl)
    as [H _].
  destruct (H (VInt 7) (or_introl eq_refl) eq_refl) as [r [Hin [_ Hl]]].
  exists r. split; assumption.
Defined.

(** The attribute view always draws exactly one widget and returns. *)
Lemma display_image_attributes_draws (selected_row : Series) (w : World) :
  exists a,
    display_image_attributes selected_row w =
    (Ok tt, mkWorld (files w) (screen w ++ [a])) /\
    ((exists msg, a = StError msg) \/ (exists attr_df, a = StTable attr_df)).
Proof.
  unfold display_image_attributes.
  destruct (filter (fun attr => negb (in_index selected_row attr)) attributes)
    as [|m ms] eqn:Hm.
  - destruct (collect_in_index selected_row attributes Hm) as [labels [Hc _]].
    unfold bind, lift. rewrite Hc. eexists. split; [reflexivity|]. right. eauto.
  - eexists. split; [reflexivity|]. left. eauto.
Qed.

(** The peer view only adds widgets to the page, whether it returns or
    raises. *)
Lemma peers_extend_screen (env : Env) (df : DataFrame) (selected_row : Series)
  (selected_image : value) (w : World) (r : result unit) (w' : World) :
  display_cluster_images env df selected_row selected_image w = (r, w') ->
  exists d, files w' = files w /\ screen w' = screen w ++ d.
Proof.
  unfold display_cluster_images. destruct (negb (has_column df "cluster")).
  - intros H. injection H as _ <-. eexists. split; reflexivity.
  - unfold bind, lift.
    destruct (cluster_peers df selected_row selected_image) as [cluster_df|e].
    + rewrite for_each_show_image. intros H. injection H as _ <-.
      eexists. split; reflexivity.
    + intros H. injection H as _ <-. exists []. now rewrite app_nil_r.
Qed.

(** X12. The preview of a selected row stands or falls with its image. When
    the image cannot be opened, one error is drawn and neither the
    attributes nor the peers are shown. When it opens, the image, the
    attribute widget (table or error) and the heading of the peers are
    always drawn, so missing attributes do not hide the peers, and the
    preview returns without raising. *)
Theorem preview_depends_on_image (env : Env) (df brand_df : DataFrame)
  (selected_image : value) (selected_row : Series) (p : value) (w : World) :
  lookup_selected_row brand_df selected_image = Ok selected_row ->
  series_get selected_row "image_path" = Ok p ->
  (forall e,
     fst (Image_open env p w) = Raise e ->
     preview env df brand_df selected_image w =
     (Ok tt, mkWorld (files w)
               (screen w ++ [StError ("Error displaying selected image: " ++ exn_msg e)]))) /\
  (forall img,
     fst (Image_open env p w) = Ok img ->
     exists a rest,
       preview env df brand_df selected_image w =
       (Ok tt, mkWorld (files w)
                 (screen w ++ [StImage img; StSubheader "Image Attributes"; a;
                               StSubheader "Images in Same Cluster"] ++ rest)) /\
       ((exists msg, a = StError msg) \/ (exists attr_df, a = StTable attr_df))).
Proof.
  intros Hl Hp. split.
  - intros e He. unfold preview, try_except, bind, lift. rewrite Hl, Hp.
    pose proof (Image_open_world env p w) as Hw.
    destruct (Image_open env p w) as [r w1]. simpl in He, Hw. subst. reflexivity.
  - intros img Hi. unfold preview, try_except, bind, lift. rewrite Hl, Hp.
    pose proof (Image_open_world env p w) as Hw.
    destruct (Image_open env p w) as [r w1]. simpl in Hi, Hw. subst.
    unfold st_image, st_subheader, draw. cbn [files screen].
    match goal with
    | |- context [display_image_attributes selected_row ?w1] =>
        destruct (display_image_attributes_draws selected_row w1) as [a [Ha Hkind]]
    end.
    rewrite Ha. cbn [files screen].
    match goal with
    | |- context [display_cluster_images env df selected_row selected_image ?w2] =>
        destruct (display_cluster_images env df selected_row selected_image w2)
          as [[[]|e] w3] eqn:Hd
    end.
    + destruct (peers_extend_screen env df selected_row selected_image _ _ _ Hd)
        as [d [Hf Hs]].
      exists a, d. split; [|exact Hkind]. destruct w3 as [fs3 sc3]. cbn in Hf, Hs.
      subst. f_equal. f_equal. rewrite <- !app_assoc. reflexivity.
    + destruct (peers_extend_screen env df selected_row selected_image _ _ _ Hd)
        as [d [Hf Hs]].
      exists a, (d ++ [StError ("Error displaying selected image: " ++ exn_msg e)]).
      split; [|exact Hkind]. destruct w3 as [fs3 sc3]. cbn in Hf, Hs. subst.
      unfold st_error, draw. cbn [files screen]. f_equal. f_equal.
      rewrite <- !app_assoc. reflexivity.
Qed.

Lemma preview_depends_on_image_witness :
  preview Examples.env0 Examples.dataset_unclustered Examples.dataset_unclustered
    (VInt 1) Examples.w0 =
  (Ok tt,
   mkWorld []
     [StError "Error displaying selected image: [Errno 2] No such file or directory: '/tmp/t/images/1.png'"]).
Proof.
  destruct (preview_depends_on_image Examples.env0 Examples.dataset_unclustered
              Examples.dataset_unclustered (VInt 1)
              [("ad_id", VInt 1); ("pagename", VStr "A"); ("cluster", VStr "c0");
               ("image_name", VStr "1.png"); ("image_path", VStr "/tmp/t/images/1.png")]
              (VStr "/tmp/t/images/1.png") Examples.w0 eq_refl eq_refl) as [H _].
  exact (H (FileNotFoundError "/tmp/t/images/1.png") eq_refl).
Defined.

(* ================================================================= *)
(** ** The page as a whole *)












(* ================================================================= *)
(** ** The choice of the brand *)

Lemma same_key_str (s : string) (y : value) : same_key y (VStr s) = true -> y = VStr s.
Proof.
  unfold same_key. destruct y as [n|t|[]| |f]; simpl; try discriminate.
  rewrite orb_false_r. intros H. apply String.eqb_eq in H. now subst.
Qed.

Lemma same_key_nan (y : value) : same_key y VNaN = true -> y = VNaN.
Proof. destruct y as [n|t|[]| |f]; simpl; try discriminate; reflexivity. Qed.

Lemma same_key_sym (a b : value) : same_key a b = same_key b a.
Proof. unfold same_key. now rewrite py_eqb_sym, andb_comm. Qed.

Lemma same_key_trans (a b c : value) :
  same_key a b = true -> same_key b c = true -> same_key a c = true.
Proof.
  unfold same_key. intros H1 H2.
  apply orb_true_iff in H1. apply orb_true_iff in H2. apply orb_true_iff.
  destruct H1 as [H1|H1], H2 as [H2|H2].
  - left. now apply (py_eqb_trans a b c).
  - apply py_eqb_notna in H1. apply andb_true_iff in H2.
    destruct H1 as [_ H1], H2 as [H2 _]. unfold notna in H1. rewrite H2 in H1. discriminate.
  - apply py_eqb_notna in H2. apply andb_true_iff in H1.
    destruct H2 as [H2 _], H1 as [_ H1]. unfold notna in H2. rewrite H1 in H2. discriminate.
  - right. apply andb_true_iff in H1, H2. apply andb_true_iff. tauto.
Qed.

(** Every value of a column has its representative among the distinct
    values. *)
Lemma unique_covers (l : list value) (x : value) :
  In x l -> exists y, In y (unique l) /\ same_key y x = true.
Proof.
  unfold unique. induction l as [|a l IH]; [intros []|].
  intros [->|Hx].
  - exists x. split; [now left|apply same_key_refl].
  - destruct (IH Hx) as [y [Hy Hk]]. simpl.
    destruct (same_key a y) eqn:E.
    + exists a. split; [now left|]. now apply (same_key_trans a y x).
    + exists y. split; [|exact Hk]. right. apply filter_In. split; [exact Hy|].
      now rewrite E.
Qed.

Lemma unique_NoDup (l : list value) : NoDup (unique l).
Proof.
  unfold unique. induction l as [|a l IH]; simpl; constructor.
  - intros H. apply filter_In in H. destruct H as [_ H].
    now rewrite same_key_refl in H.
  - now apply NoDup_filter.
Qed.

Lemma py_insert_perm (x : value) (l r : list value) :
  py_insert x l = Ok r -> Permutation r (x :: l).
Proof.
  revert r. induction l as [|y l IH]; simpl; intros r.
  - intros H. injection H as <-. apply Permutation_refl.
  - destruct (py_lt y x) as [[]|e]; simpl; [|intros H; injection H as <-|discriminate].
    + destruct (py_insert x l) as [r'|e]; simpl; [|discriminate].
      intros H. injection H as <-.
      eapply Permutation_trans; [apply perm_skip, (IH r' eq_refl)|apply perm_swap].
    + apply Permutation_refl.
Qed.

Lemma py_sorted_perm (l s : list value) : py_sorted l = Ok s -> Permutation s l.
Proof.
  revert s. induction l as [|x l IH]; simpl; intros s.
  - intros H. injection H as <-. constructor.
  - destruct (py_sorted l) as [s'|e]; simpl; [|discriminate].
    intros H. apply py_insert_perm in H.
    eapply Permutation_trans; [exact H|]. apply perm_skip. now apply IH.
Qed.

Lemma py_lt_raises (a b : value) (e : exn) :
  py_lt a b = Raise e -> is_str a <> is_str b /\ exn_class e = "TypeError".
Proof.
  destruct a as [n|s|[]| |f], b as [m|t|[]| |g]; cbv beta iota delta [py_lt py_num is_str];
    try discriminate;
    intros H; injection H as <-; split; try discriminate; reflexivity.
Qed.

Lemma py_lt_returns (a b : value) (r : bool) : py_lt a b = Ok r -> is_str a = is_str b.
Proof.
  destruct a as [n|s|[]| |f], b as [m|t|[]| |g]; cbv beta iota delta [py_lt py_num is_str];
    try discriminate; reflexivity.
Qed.

Lemma py_insert_class (x : value) (l : list value) (e : exn) :
  py_insert x l = Raise e -> exn_class e = "TypeError".
Proof.
  induction l as [|y l IH]; simpl; [discriminate|].
  destruct (py_lt y x) as [[]|e'] eqn:E; simpl.
  - destruct (py_insert x l) as [r|e'']; simpl; [discriminate|].
    intros H. injection H as <-. now apply IH.
  - discriminate.
  - intros H. injection H as <-. now apply py_lt_raises in E.
Qed.

Lemma py_sorted_class (l : list value) (e : exn) :
  py_sorted l = Raise e -> exn_class e = "TypeError".
Proof.
  induction l as [|x l IH]; simpl; [discriminate|].
  destruct (py_sorted l) as [s|e']; simpl.
  - apply py_insert_class.
  - intros H. injection H as <-. now apply IH.
Qed.

(** A list that [sorted] accepts is all strings or has no string. *)
Lemma py_sorted_same_kind (l s : list value) :
  py_sorted l = Ok s -> forall a b, In a l -> In b l -> is_str a = is_str b.
Proof.
  revert s. induction l as [|x l IH]; intros s; [intros _ a b []|].
  simpl. destruct (py_sorted l) as [s'|e] eqn:Hs; simpl; [|discriminate].
  intros Hins.
  assert (Hx : forall a, In a l -> is_str a = is_str x).
  { intros a Ha. destruct s' as [|y s''].
    - pose proof (py_sorted_perm _ _ Hs) as Hnil. apply Permutation_nil in Hnil.
      subst l. destruct Ha.
    - simpl in Hins. destruct (py_lt y x) as [r|e] eqn:E; [|discriminate].
      apply py_lt_returns in E. rewrite <- E.
      apply (IH _ eq_refl). exact Ha.
      apply (Permutation_in _ (py_sorted_perm _ _ Hs)). now left. }
  intros a b [<-|Ha] [<-|Hb].
  - reflexivity.
  - symmetry. now apply Hx.
  - now apply Hx.
  - now apply (IH s' eq_refl).
Qed.

(** X14. A brand column with a missing cell next to a name cannot be
    sorted: [sorted] raises TypeError on the mix of NaN and strings, so
    [main] leaves its dataset part after the table and the sidebar header,
    before any brand view, with that exception. *)
Theorem missing_brand_breaks_brand_view (env : Env) (df : DataFrame)
  (pagename : list value) (s : string) (w : World) :
  has_column df "ad_id" = true ->
  get_column df "pagename" = Ok pagename ->
  In VNaN pagename ->
  In (VStr s) pagename ->
  exists e d,
    browse env df w =
    (Raise e, mkWorld (files w) (screen w ++ d ++ [StSidebarHeader "Search By Brand"])) /\
    exn_class e = "TypeError".
Proof.
  intros Hv Hp Hnan Hstr.
  assert (Hg : has_column df "pagename" = true).
  { unfold get_column, column_index in Hp. unfold has_column.
    destruct (index_of "pagename" (columns df)); [reflexivity|discriminate]. }
  destruct (display_cluster_distribution_ok df w Hv) as [d Hd].
  destruct (py_sorted (unique pagename)) as [brands|e] eqn:Hs.
  - exfalso.
    destruct (unique_covers _ _ Hnan) as [y1 [Hy1 Hk1]]. apply same_key_nan in Hk1.
    destruct (unique_covers _ _ Hstr) as [y2 [Hy2 Hk2]]. apply same_key_str in Hk2.
    subst. pose proof (py_sorted_same_kind _ _ Hs _ _ Hy1 Hy2) as H. discriminate.
  - exists e, d. split; [|now apply py_sorted_class in Hs].
    unfold browse, bind. rewrite Hd. unfold st_sidebar_header, draw. cbn [files screen].
    rewrite Hg. cbn [negb]. unfold lift. rewrite Hp, Hs.
    now rewrite <- app_assoc.
Qed.

Lemma missing_brand_breaks_brand_view_witness :
  exists e d,
    browse Examples.env0
      (mkDF ["ad_id"; "pagename"] [mkRow 0 [VInt 1; VStr "A"]; mkRow 1 [VInt 2; VNaN]])
      Examples.w0 =
    (Raise e, mkWorld [] (d ++ [StSidebarHeader "Search By Brand"])) /\
    exn_class e = "TypeError".
Proof.
  apply (missing_brand_breaks_brand_view Examples.env0
           (mkDF ["ad_id"; "pagename"] [mkRow 0 [VInt 1; VStr "A"]; mkRow 1 [VInt 2; VNaN]])
           [VStr "A"; VNaN] "A" Examples.w0 eq_refl eq_refl).
  - right. left. reflexivity.
  - left. reflexivity.
Defined.

Lemma ltb_asym (s t : string) : String.ltb s t = true -> String.ltb t s = false.
Proof.
  unfold String.ltb. rewrite (String.compare_antisym t s).
  destruct (String.compare s t); simpl; congruence.
Qed.

Lemma py_insert_strings (x : string) (l : list value) :
  Forall (fun v => is_str v = true) l ->
  Sorted (fun a b => py_lt b a = Ok false) l ->
  exists r, py_insert (VStr x) l = Ok r /\
            Sorted (fun a b => py_lt b a = Ok false) r /\
            (forall y, HdRel (fun a b => py_lt b a = Ok false) y l ->
                       py_lt (VStr x) y = Ok false ->
                       HdRel (fun a b => py_lt b a = Ok false) y r).
Proof.
  induction l as [|y l IH]; intros Hstr Hsort.
  - exists [VStr x]. repeat split; [repeat constructor|]. intros y _ H. now constructor.
  - inversion Hstr as [|? ? Hy Hl]; subst. inversion Hsort as [|? ? Hs Hhd]; subst.
    destruct y as [n|t|b| |f]; try discriminate. simpl.
    destruct (String.ltb t x) eqn:E; simpl.
    + destruct (IH Hl Hs) as [r [Hr [Hsr Hhdr]]]. rewrite Hr. simpl.
      exists (VStr t :: r). repeat split.
      * constructor; [exact Hsr|]. apply Hhdr; [exact Hhd|].
        simpl. now rewrite (ltb_asym t x E).
      * intros z Hz _. inversion Hz; subst. now constructor.
    + exists (VStr x :: VStr t :: l). repeat split.
      * constructor; [exact Hsort|]. constructor. simpl. now rewrite E.
      * intros z _ Hz. now constructor.
Qed.

Lemma py_sorted_strings (l : list value) :
  Forall (fun v => is_str v = true) l ->
  exists s, py_sorted l = Ok s /\
            Sorted (fun a b => py_lt b a = Ok false) s /\
            Forall (fun v => is_str v = true) s.
Proof.
  induction 1 as [|x l Hx Hl IH]; simpl.
  - exists []. repeat split; constructor.
  - destruct IH as [s [Hs [Hsort Hstr]]]. rewrite Hs. simpl.
    destruct x as [n|t|b| |f]; try discriminate.
    destruct (py_insert_strings t s Hstr Hsort) as [r [Hr [Hsr _]]].
    exists r. split; [exact Hr|]. split; [exact Hsr|].
    apply Forall_forall. intros v Hv.
    apply (Permutation_in _ (py_insert_perm _ _ _ Hr)) in Hv.
    destruct Hv as [<-|Hv]; [reflexivity|].
    rewrite Forall_forall in Hstr. now apply Hstr.
Qed.

(** X15. When every pagename is a string the brands offered by the select
    box are the distinct pagenames of the dataset, each once, in ascending
    order: the sort returns, no brand is greater than the next one, and a
    value is a brand exactly when it is a pagename of some row. *)
Theorem brands_are_sorted_distinct_names (pagename : list value) :
  Forall (fun v => is_str v = true) pagename ->
  exists brands,
    py_sorted (unique pagename) = Ok brands /\
    Sorted (fun a b => py_lt b a = Ok false) brands /\
    NoDup brands /\
    (forall v, In v brands <-> In v pagename).
Proof.
  intros Hstr.
  assert (Hu : Forall (fun v => is_str v = true) (unique pagename)).
  { apply Forall_forall. intros v Hv. apply unique_by_incl in Hv.
    rewrite Forall_forall in Hstr. now apply Hstr. }
  destruct (py_sorted_strings _ Hu) as [brands [Hs [Hsort _]]].
  exists brands. split; [exact Hs|]. split; [exact Hsort|].
  pose proof (py_sorted_perm _ _ Hs) as Hperm. split.
  - apply (Permutation_NoDup (Permutation_sym Hperm)). apply unique_NoDup.
  - intros v. split.
    + intros Hv. apply (Permutation_in _ Hperm) in Hv. now apply unique_by_incl in Hv.
    + intros Hv. destruct (unique_covers _ _ Hv) as [y [Hy Hk]].
      rewrite Forall_forall in Hstr. specialize (Hstr v Hv).
      destruct v as [n|t|b| |f]; try discriminate. apply same_key_str in Hk. subst y.
      now apply (Permutation_in _ (Permutation_sym Hperm)).
Qed.

Lemma brands_are_sorted_distinct_names_witness :
  exists brands,
    py_sorted (unique [VStr "B"; VStr "A"; VStr "B"]) = Ok brands /\
    (forall v, In v brands <-> In v [VStr "B"; VStr "A"; VStr "B"]).
Proof.
  destruct (brands_are_sorted_distinct_names [VStr "B"; VStr "A"; VStr "B"])
    as [brands [Hs [_ [_ Hin]]]].
  - repeat constructor.
  - exists brands. split; assumption.
Defined.

Lemma truthy_false (x : value) :
  truthy x = false ->
  x = VInt 0 \/ x = VStr "" \/ x = VBool false \/ exists neg, x = VFloat (FZero neg).
Proof.
  destruct x as [n|s|[]| |[neg|neg|neg m e]]; simpl; try discriminate.
  - intros H. apply negb_false_iff, Z.eqb_eq in H. subst. now left.
  - intros H. apply negb_false_iff, String.eqb_eq in H. subst. right. now left.
  - intros _. right. right. now left.
  - intros _. right. right. right. now exists neg.
Qed.

(** The select box returns one of its options. *)
Lemma selectbox_In (pick : list value -> nat) (options : list value) (x : value) :
  selectbox pick options = Some x -> In x options.
Proof.
  unfold selectbox. destruct options as [|d0 l]; [discriminate|]. intros H.
  assert (E : x = nth (pick (d0 :: l)) (d0 :: l) d0) by congruence.
  rewrite E.
  destruct (Nat.lt_ge_cases (pick (d0 :: l)) (List.length (d0 :: l))) as [Hlt|Hge].
  - now apply nth_In.
  - rewrite nth_overflow by exact Hge. now left.
Qed.

(** X16. The preview is guarded by the truth value of the selected
    identifier. When the guard fails, the selected ad_id is 0, the empty
    string, False or a float zero, and [main] draws nothing after the
    subheader of the preview, although the row exists: no image, no
    attributes, no peers. *)
Theorem falsy_identifier_gets_no_preview (env : Env) (df : DataFrame)
  (pagename brands ids : list value) (x : value) (w : World) :
  has_column df "ad_id" = true ->
  get_column df "pagename" = Ok pagename ->
  py_sorted (unique pagename) = Ok brands ->
  get_column (mask_rows df (map (eq_choice (selectbox (pick_brand env) brands)) pagename))
             "ad_id" = Ok ids ->
  selectbox (pick_image env) ids = Some x ->
  truthy x = false ->
  (x = VInt 0 \/ x = VStr "" \/ x = VBool false \/ exists neg, x = VFloat (FZero neg)) /\
  In x ids /\
  exists d,
    browse env df w =
    (Ok tt, mkWorld (files w) (screen w ++ d ++ [StSubheader "Image Preview"])).
Proof.
  intros Hv Hp Hs Hids Hsel Hx.
  split; [now apply truthy_false|]. split.
  - now apply (selectbox_In (pick_image env)).
  - assert (Hg : has_column df "pagename" = true).
    { unfold get_column, column_index in Hp. unfold has_column.
      destruct (index_of "pagename" (columns df)); [reflexivity|discriminate]. }
    destruct (display_cluster_distribution_ok df w Hv) as [d Hd].
    remember (browse env df w) as res eqn:E.
    unfold browse, bind in E. rewrite Hd in E.
    unfold st_sidebar_header, draw in E. cbn [files screen] in E.
    rewrite Hg in E. cbn [negb] in E. unfold lift in E. rewrite Hp, Hs in E.
    unfold st_subheader, draw in E. cbn [files screen] in E.
    unfold display_brand_images in E. rewrite for_each_show_image in E.
    cbn [files screen] in E. rewrite Hids, Hsel, Hx in E. unfold ret in E.
    match type of E with
    | context [map (image_widget env ?W) ?L] =>
        exists (d ++ [StSidebarHeader "Search By Brand"; StSubheader "Images By Brand"]
                  ++ map (image_widget env W) L)
    end.
    rewrite E. f_equal. f_equal. rewrite <- !app_assoc. reflexivity.
Qed.

Lemma falsy_identifier_gets_no_preview_witness :
  exists d,
    browse Examples.env0
      (mkDF ["ad_id"; "pagename"; "cluster"; "image_path"]
            [mkRow 0 [VInt 0; VStr "A"; VStr "c0"; VStr "/tmp/t/images/0.png"]])
      (mkWorld [("/tmp/t/images/0.png", [x00])] []) =
    (Ok tt, mkWorld [("/tmp/t/images/0.png", [x00])] (d ++ [StSubheader "Image Preview"])).
Proof.
  destruct (falsy_identifier_gets_no_preview Examples.env0
              (mkDF ["ad_id"; "pagename"; "cluster"; "image_path"]
                    [mkRow 0 [VInt 0; VStr "A"; VStr "c0"; VStr "/tmp/t/images/0.png"]])
              [VStr "A"] [VStr "A"] [VInt 0] (VInt 0)
              (mkWorld [("/tmp/t/images/0.png", [x00])] [])
              eq_refl eq_refl eq_refl eq_refl eq_refl eq_refl) as [_ [_ [d Hd]]].
  exists d. exact Hd.
Defined.
